(** * InfraAI: the preprocessing and analysis pipeline of the VM telemetry

    A shallow embedding of [backend/preprocessing/preprocessing_vm_data.py]
    and [backend/analysis/analysis_vm_data.py], with the summary and the
    response parser of [backend/agents/recommendations.py].

    Conventions of the embedding.
    - A pandas float cell is an exact rational or missing: [option Q], with
      [None] for NaN.  A cell that a division can make infinite is an
      [fnum].  Rounding is not modelled: sums, means and quantiles are
      exact, where the source rounds to a float64.  What is stated of
      them is stated of the exact values; no statement places a mean among
      its values, which rounding can undo.
    - A byte count is such a cell too.  The source holds a column of
      integers as int64, whose sums wrap at 2^63; statements about sums of
      byte counts assume [bytes_exact], the range where neither int64 nor
      float64 departs from the exact sum.
    - [sort_values] by one column is library code and not stable: where
      rows can tie, the sort is a parameter ([date_sorted]).
    - A Python [str] is a [string]; [str.lower] acts on the letters A-Z.
    - A Python [dict] with string keys is a [gmap string _].
    - [pd.to_datetime] is library code: a row carries the timestamp it
      parses to. *)

From Stdlib Require Import QArith Qabs Qround Lqa ZArith Lia.
From Stdlib Require Import String Ascii List Permutation Bool.
From Stdlib Require Import Decimal DecimalString DecimalNat Sorted.
From stdpp Require Import gmap strings list fin_maps.

#[local] Set Warnings "-register-all".
#[local] Open Scope string_scope.

(** ** Python strings *)

Module Str.

(** [c.lower()] for one character. *)
Definition lower_char (c : ascii) : ascii :=
  let n := nat_of_ascii c in
  if (65 <=? n)%nat && (n <=? 90)%nat then ascii_of_nat (n + 32) else c.

(** [s.lower()] *)
Fixpoint lower (s : string) : string :=
  match s with
  | EmptyString => EmptyString
  | String c t => String (lower_char c) (lower t)
  end.

(** [s.startswith(pat)] *)
Fixpoint starts_with (pat s : string) : bool :=
  match pat, s with
  | EmptyString, _ => true
  | String a p, String b t => Ascii.eqb a b && starts_with p t
  | String _ _, EmptyString => false
  end.

(** [pat in s] *)
Fixpoint contains (pat s : string) : bool :=
  starts_with pat s ||
  match s with
  | EmptyString => false
  | String _ t => contains pat t
  end.

(** The same two tests, comparing characters up to letter case. *)
Definition eqb_ci (a b : ascii) : bool := Ascii.eqb (lower_char a) (lower_char b).

Fixpoint starts_with_ci (pat s : string) : bool :=
  match pat, s with
  | EmptyString, _ => true
  | String a p, String b t => eqb_ci a b && starts_with_ci p t
  | String _ _, EmptyString => false
  end.

Fixpoint contains_ci (pat s : string) : bool :=
  starts_with_ci pat s ||
  match s with
  | EmptyString => false
  | String _ t => contains_ci pat t
  end.

(** The rest of [s] after the prefix [pat], when [s] starts with it. *)
Fixpoint drop_prefix (pat s : string) : option string :=
  match pat, s with
  | EmptyString, _ => Some s
  | String a p, String b t => if Ascii.eqb a b then drop_prefix p t else None
  | String _ _, EmptyString => None
  end.

(** The longest prefix of [s] whose characters satisfy [p], and what follows. *)
Fixpoint span (p : ascii -> bool) (s : string) : string * string :=
  match s with
  | EmptyString => (EmptyString, EmptyString)
  | String c t =>
      if p c then let '(a, b) := span p t in (String c a, b)
      else (EmptyString, s)
  end.

Fixpoint forallb (p : ascii -> bool) (s : string) : bool :=
  match s with
  | EmptyString => true
  | String c t => p c && forallb p t
  end.

End Str.

(** ** SKU categories ([categorize_sku]) *)

Definition categorize_sku (sku_description : string) : string :=
  let sku_lower := Str.lower sku_description in
  if Str.contains "vm state" sku_lower || Str.contains "ssd" sku_lower then
    "Storage"
  else if Str.contains "network" sku_lower && Str.contains "inter zone" sku_lower then
    "Network_InterZone"
  else if Str.contains "network" sku_lower && Str.contains "intra zone" sku_lower then
    "Network_IntraZone"
  else if Str.contains "network" sku_lower && Str.contains "google services" sku_lower then
    "Network_GoogleServices"
  else if Str.contains "network" sku_lower then
    "Network_Other"
  else
    "Other".

(** The six categories. *)
Definition sku_categories : list string :=
  [ "Storage"; "Network_InterZone"; "Network_IntraZone";
    "Network_GoogleServices"; "Network_Other"; "Other" ].

(** The classification as the specification words it: a priority list of
    case-insensitive substring rules read on the description itself. *)
Definition sku_rules : list (list (list string) * string) :=
  [ ([["vm state"]; ["ssd"]],              "Storage");
    ([["network"; "inter zone"]],          "Network_InterZone");
    ([["network"; "intra zone"]],          "Network_IntraZone");
    ([["network"; "google services"]],     "Network_GoogleServices");
    ([["network"]],                        "Network_Other") ].

(** A rule fires when one of its alternatives has all its words in [s]. *)
Definition rule_fires (alts : list (list string)) (s : string) : bool :=
  existsb (fun words => List.forallb (fun w => Str.contains_ci w s) words) alts.

Fixpoint first_match (rules : list (list (list string) * string)) (s : string) : string :=
  match rules with
  | [] => "Other"
  | (alts, cat) :: rest => if rule_fires alts s then cat else first_match rest s
  end.

Definition categorize_sku_spec (s : string) : string := first_match sku_rules s.

(** ** Numbers *)

#[local] Open Scope Q_scope.

(** A float that may be infinite or NaN. *)
Inductive fnum := Fin (q : Q) | Inf (negative : bool) | NaN.

Definition fnum_of (x : option Q) : fnum :=
  match x with Some q => Fin q | None => NaN end.

Definition Qltb (a b : Q) : bool := negb (Qle_bool b a).

Module F.

Definition add (a b : fnum) : fnum :=
  match a, b with
  | NaN, _ | _, NaN => NaN
  | Fin x, Fin y => Fin (x + y)
  | Inf s, Fin _ => Inf s
  | Fin _, Inf s => Inf s
  | Inf s, Inf t => if Bool.eqb s t then Inf s else NaN
  end.

Definition neg (a : fnum) : fnum :=
  match a with
  | Fin x => Fin (- x)
  | Inf s => Inf (negb s)
  | NaN => NaN
  end.

Definition sub (a b : fnum) : fnum := add a (neg b).

Definition mul (a b : fnum) : fnum :=
  match a, b with
  | NaN, _ | _, NaN => NaN
  | Fin x, Fin y => Fin (x * y)
  | Inf s, Fin y | Fin y, Inf s =>
      if Qeq_bool y 0 then NaN else Inf (xorb s (Qltb y 0))
  | Inf s, Inf t => Inf (xorb s t)
  end.

(** Float division: a zero divisor gives an infinity, or NaN for 0/0. *)
Definition div (a b : fnum) : fnum :=
  match a, b with
  | NaN, _ | _, NaN => NaN
  | Fin x, Fin y =>
      if Qeq_bool y 0 then (if Qeq_bool x 0 then NaN else Inf (Qltb x 0))
      else Fin (x / y)
  | Fin _, Inf _ => Fin 0
  | Inf s, Fin y => Inf (xorb s (Qltb y 0))
  | Inf _, Inf _ => NaN
  end.

(** [a < b]; false as soon as one side is NaN. *)
Definition ltb (a b : fnum) : bool :=
  match a, b with
  | NaN, _ | _, NaN => false
  | Fin x, Fin y => Qltb x y
  | Inf s, Fin _ => s
  | Fin _, Inf t => negb t
  | Inf s, Inf t => s && negb t
  end.

(** [a <= b], the order used to sort values that are not NaN. *)
Definition leb (a b : fnum) : bool :=
  match a, b with
  | NaN, _ | _, NaN => false
  | Fin x, Fin y => Qle_bool x y
  | Inf s, Fin _ => s
  | Fin _, Inf t => negb t
  | Inf s, Inf t => s || negb t
  end.

(** [a == 0] *)
Definition is_zero (a : fnum) : bool :=
  match a with Fin x => Qeq_bool x 0 | _ => false end.

Definition isna (a : fnum) : bool :=
  match a with NaN => true | _ => false end.

End F.

(** ** Sorting *)

Section Sorting.
Context {A : Type} (le : A -> A -> bool).

(** Insert before the first element that is not smaller. *)
Fixpoint insert_sorted (x : A) (l : list A) : list A :=
  match l with
  | [] => [x]
  | y :: t => if le x y then x :: y :: t else y :: insert_sorted x t
  end.

(** A stable sort. *)
Definition sort (l : list A) : list A := foldr insert_sorted [] l.

End Sorting.

(** ** Distinct values

    [Series.unique()]: the distinct values in order of first appearance. *)

Fixpoint unique {A} `{EqDecision A} (l : list A) : list A :=
  match l with
  | [] => []
  | x :: t => x :: List.filter (fun y => negb (bool_decide (y = x))) (unique t)
  end.

(** ** Series reductions over rationals ([skipna] already applied) *)

Module Series.

(** [series.dropna()] *)
Definition dropna {A} (l : list (option A)) : list A := omap id l.

Definition sum (l : list Q) : Q := foldr Qplus 0 l.

Definition count (l : list Q) : Q := inject_Z (Z.of_nat (length l)).

(** [series.mean()]: NaN on an empty series.  The exact mean; the source
    rounds the sum and the quotient. *)
Definition mean (l : list Q) : option Q :=
  match l with
  | [] => None
  | _ => Some (sum l / count l)
  end.

Definition min (l : list Q) : option Q :=
  match l with
  | [] => None
  | x :: t => Some (foldr (fun a m => if Qle_bool a m then a else m) x t)
  end.

Definition max (l : list Q) : option Q :=
  match l with
  | [] => None
  | x :: t => Some (foldr (fun a m => if Qle_bool m a then a else m) x t)
  end.

(** The sample variance (ddof = 1); NaN under two observations. *)
Definition var (l : list Q) : option Q :=
  match l with
  | [] | [_] => None
  | _ =>
      let m := sum l / count l in
      Some (sum (map (fun x => (x - m) * (x - m)) l) / (count l - 1))
  end.

(** [series.quantile(q)] with linear interpolation between the two
    order statistics around position [(n - 1) * q]. *)
Definition quantile (q : Q) (l : list Q) : option Q :=
  match l with
  | [] => None
  | _ =>
      let sorted := sort Qle_bool l in
      let pos := (count l - 1) * q in
      let lo := Qfloor pos in
      let frac := pos - inject_Z lo in
      let a := nth (Z.to_nat lo) sorted 0 in
      let b := nth (Nat.min (S (Z.to_nat lo)) (length l - 1)) sorted 0 in
      Some (a + (b - a) * frac)
  end.

End Series.

(** The square root of a rational, kept symbolic: [Sqrt v] is the real
    number whose square is [v]. *)
Inductive root := Sqrt (radicand : Q).

(** [series.std()] *)
Definition std (l : list Q) : option root := Sqrt <$> Series.var l.

(** ** Series reductions over floats that may be infinite *)

Module FSeries.

Definition dropna (l : list fnum) : list fnum := List.filter (fun x => negb (F.isna x)) l.

Definition sum (l : list fnum) : fnum := foldr F.add (Fin 0) l.

Definition count (l : list fnum) : fnum := Fin (inject_Z (Z.of_nat (length l))).

Definition mean (l : list fnum) : fnum :=
  match l with
  | [] => NaN
  | _ => F.div (sum l) (count l)
  end.

Definition min (l : list fnum) : fnum :=
  match l with
  | [] => NaN
  | x :: t => foldr (fun a m => if F.leb a m then a else m) x t
  end.

Definition max (l : list fnum) : fnum :=
  match l with
  | [] => NaN
  | x :: t => foldr (fun a m => if F.leb m a then a else m) x t
  end.

(** [series.median()]: the middle order statistic, or the mean of the two
    middle ones. *)
Definition median (l : list fnum) : fnum :=
  match l with
  | [] => NaN
  | _ =>
      let sorted := sort F.leb l in
      let n := length l in
      if Nat.even n then
        F.div (F.add (nth (n / 2 - 1) sorted NaN) (nth (n / 2) sorted NaN)) (Fin 2)
      else nth (n / 2) sorted NaN
  end.

(** The finite values of a series, when all of them are finite. *)
Fixpoint finite (l : list fnum) : option (list Q) :=
  match l with
  | [] => Some []
  | Fin q :: t => cons q <$> finite t
  | _ :: t => None
  end.

End FSeries.

(** ** Calendar dates *)

Module Date.

(** A [datetime.date]: year, month, day. *)
Definition t : Type := nat * nat * nat.

Definition decimal (n : nat) : string := NilEmpty.string_of_uint (Nat.to_uint n).

(** Left padding with zeros up to width [w], as ["%0wd"] does. *)
Definition pad (w : nat) (s : string) : string :=
  Nat.iter (w - String.length s) (String "0") s.

(** [str(d)], the ISO form ["%04d-%02d-%02d"]. *)
Definition str (d : t) : string :=
  let '(y, m, dd) := d in
  pad 4 (decimal y) +:+ "-" +:+ pad 2 (decimal m) +:+ "-" +:+ pad 2 (decimal dd).

Definition leb (a b : t) : bool :=
  let '(y1, m1, d1) := a in
  let '(y2, m2, d2) := b in
  (y1 <? y2)%nat || ((y1 =? y2)%nat && ((m1 <? m2)%nat || ((m1 =? m2)%nat && (d1 <=? d2)%nat))).

End Date.

(** ** Raw events *)

Record Timestamp := {
  ts_date : Date.t;
  ts_hour : nat;
  ts_minute : nat
}.

Record RawEvent := {
  timestamp : Timestamp;
  resource_global_name : string;
  cpu_utilization : option Q;
  memory_used_bytes : option Q;
  disk_read_bytes : option Q;
  disk_write_bytes : option Q;
  ingress_bytes : option Q;
  egress_bytes : option Q;
  uptime_fraction : option Q;
  cost_usd : option Q;
  sku_description : string
}.

(** ** Extraction of the path segments ([Series.str.extract]) *)

Definition is_digit (c : ascii) : bool :=
  let n := nat_of_ascii c in (48 <=? n)%nat && (n <=? 57)%nat.

Definition not_slash (c : ascii) : bool := negb (Ascii.eqb c "/").

(** The group of a match of [/instances/(\d+)] anchored at the start. *)
Definition match_instance_at (s : string) : option string :=
  match Str.drop_prefix "/instances/" s with
  | Some rest =>
      match fst (Str.span is_digit rest) with
      | EmptyString => None
      | digits => Some digits
      end
  | None => None
  end.

(** The group of a match of [<prefix>([^/]+)/] anchored at the start. *)
Definition match_segment_at (prefix s : string) : option string :=
  match Str.drop_prefix prefix s with
  | Some rest =>
      let '(seg, after) := Str.span not_slash rest in
      match seg with
      | EmptyString => None
      | _ => if Str.starts_with "/" after then Some seg else None
      end
  | None => None
  end.

(** [re.search]: the leftmost position where the pattern matches; a
    missing match is a missing value. *)
Fixpoint search (m : string -> option string) (s : string) : option string :=
  match m s with
  | Some g => Some g
  | None =>
      match s with
      | EmptyString => None
      | String _ t => search m t
      end
  end.

Definition extract_instance_id (name : string) : option string :=
  search match_instance_at name.

Definition extract_zone (name : string) : option string :=
  search (match_segment_at "/zones/") name.

Definition extract_project_id (name : string) : option string :=
  search (match_segment_at "/projects/") name.

(** ** Derived columns of [preprocess_vm_data]

    The source also derives [day_of_week]; like [hour] it is read by no
    aggregation and does not reach the output. *)

Definition date (e : RawEvent) : Date.t := ts_date (timestamp e).
Definition hour (e : RawEvent) : nat := ts_hour (timestamp e).

Definition bytes_per_gb : Q := 1073741824.

Definition memory_used_gb (e : RawEvent) : option Q :=
  (fun b => b / bytes_per_gb) <$> memory_used_bytes e.

Definition epsilon : Q := 1 # 1000.

Definition cost_per_cpu (e : RawEvent) : fnum :=
  F.div (fnum_of (cost_usd e)) (F.add (fnum_of (cpu_utilization e)) (Fin epsilon)).

(** Column addition: missing as soon as one operand is.  The exact sum;
    on two int64 columns the source wraps at 2^63 ([bytes_exact] is the
    range where it does not). *)
Definition col_add (a b : option Q) : option Q :=
  match a, b with
  | Some x, Some y => Some (x + y)
  | _, _ => None
  end.

Definition network_total_bytes (e : RawEvent) : option Q :=
  col_add (ingress_bytes e) (egress_bytes e).

Definition disk_total_bytes (e : RawEvent) : option Q :=
  col_add (disk_read_bytes e) (disk_write_bytes e).

Definition instance_id (e : RawEvent) : option string :=
  extract_instance_id (resource_global_name e).

Definition zone (e : RawEvent) : option string :=
  extract_zone (resource_global_name e).

Definition project_id (e : RawEvent) : option string :=
  extract_project_id (resource_global_name e).

Definition sku_category (e : RawEvent) : string :=
  categorize_sku (sku_description e).

(** ** Grouping and aggregation *)

(** The grouping key: (date, instance_id, project_id, zone). *)
Definition GroupKey : Type := Date.t * option string * option string * option string.

Definition group_key (e : RawEvent) : GroupKey :=
  (date e, instance_id e, project_id e, zone e).

(** The order of a key column that may hold missing values: they go last. *)
Definition na_last_leb (a b : option string) : bool :=
  match a, b with
  | Some x, Some y => String.leb x y
  | Some _, None => true
  | None, Some _ => false
  | None, None => true
  end.

Definition na_last_eqb (a b : option string) : bool :=
  bool_decide (a = b).

Definition group_key_leb (a b : GroupKey) : bool :=
  let '(d1, i1, p1, z1) := a in
  let '(d2, i2, p2, z2) := b in
  if negb (bool_decide (d1 = d2)) then Date.leb d1 d2
  else if negb (na_last_eqb i1 i2) then na_last_leb i1 i2
  else if negb (na_last_eqb p1 p2) then na_last_leb p1 p2
  else na_last_leb z1 z2.

(** One row of the aggregated table, with the flattened column names. *)
Record AggregateRecord := {
  agg_date : string;
  agg_instance_id : option string;
  agg_project_id : option string;
  agg_zone : option string;
  cpu_utilization_mean : option Q;
  cpu_utilization_std : option root;
  cpu_utilization_min : option Q;
  cpu_utilization_max : option Q;
  memory_used_gb_mean : option Q;
  memory_used_gb_std : option root;
  memory_used_gb_min : option Q;
  memory_used_gb_max : option Q;
  disk_read_bytes_sum : Q;
  disk_read_bytes_mean : option Q;
  disk_write_bytes_sum : Q;
  disk_write_bytes_mean : option Q;
  ingress_bytes_sum : Q;
  ingress_bytes_mean : option Q;
  egress_bytes_sum : Q;
  egress_bytes_mean : option Q;
  network_total_bytes_sum : Q;
  network_total_bytes_mean : option Q;
  disk_total_bytes_sum : Q;
  disk_total_bytes_mean : option Q;
  uptime_fraction_mean : option Q;
  uptime_fraction_min : option Q;
  uptime_fraction_max : option Q;
  cost_usd_sum : Q;
  cost_usd_mean : option Q;
  cost_usd_max : option Q;
  cost_per_cpu_mean : fnum;
  agg_sku_category : string
}.

(** [Series.mode()]: the most frequent values, in ascending order. *)
Definition occurrences (v : string) (x : list string) : nat :=
  length (List.filter (fun w => bool_decide (w = v)) x).

Definition mode (x : list string) : list string :=
  let best := foldr Nat.max 0%nat (map (fun v => occurrences v x) x) in
  sort String.leb (List.filter (fun v => (occurrences v x =? best)%nat) (unique x)).

(** [lambda x: x.mode()[0] if len(x.mode()) > 0 else x.iloc[0]]; [None]
    stands for the [IndexError] of [iloc] on an empty series. *)
Definition most_common (x : list string) : option string :=
  match mode x with
  | m :: _ => Some m
  | [] => head x
  end.

(** The aggregation of one group; the key columns come from the key. *)
Definition aggregate (k : GroupKey) (g : list RawEvent) : option AggregateRecord :=
  let '(d, i, p, z) := k in
  let col (f : RawEvent -> option Q) := Series.dropna (map f g) in
  match most_common (map sku_category g) with
  | None => None
  | Some cat => Some {|
      agg_date := Date.str d;
      agg_instance_id := i;
      agg_project_id := p;
      agg_zone := z;
      cpu_utilization_mean := Series.mean (col cpu_utilization);
      cpu_utilization_std := std (col cpu_utilization);
      cpu_utilization_min := Series.min (col cpu_utilization);
      cpu_utilization_max := Series.max (col cpu_utilization);
      memory_used_gb_mean := Series.mean (col memory_used_gb);
      memory_used_gb_std := std (col memory_used_gb);
      memory_used_gb_min := Series.min (col memory_used_gb);
      memory_used_gb_max := Series.max (col memory_used_gb);
      disk_read_bytes_sum := Series.sum (col disk_read_bytes);
      disk_read_bytes_mean := Series.mean (col disk_read_bytes);
      disk_write_bytes_sum := Series.sum (col disk_write_bytes);
      disk_write_bytes_mean := Series.mean (col disk_write_bytes);
      ingress_bytes_sum := Series.sum (col ingress_bytes);
      ingress_bytes_mean := Series.mean (col ingress_bytes);
      egress_bytes_sum := Series.sum (col egress_bytes);
      egress_bytes_mean := Series.mean (col egress_bytes);
      network_total_bytes_sum := Series.sum (col network_total_bytes);
      network_total_bytes_mean := Series.mean (col network_total_bytes);
      disk_total_bytes_sum := Series.sum (col disk_total_bytes);
      disk_total_bytes_mean := Series.mean (col disk_total_bytes);
      uptime_fraction_mean := Series.mean (col uptime_fraction);
      uptime_fraction_min := Series.min (col uptime_fraction);
      uptime_fraction_max := Series.max (col uptime_fraction);
      cost_usd_sum := Series.sum (col cost_usd);
      cost_usd_mean := Series.mean (col cost_usd);
      cost_usd_max := Series.max (col cost_usd);
      cost_per_cpu_mean := FSeries.mean (FSeries.dropna (map cost_per_cpu g));
      agg_sku_category := cat
    |}
  end.

(** The rows of a group, in their input order. *)
Definition group_rows (df : list RawEvent) (k : GroupKey) : list RawEvent :=
  List.filter (fun e => bool_decide (group_key e = k)) df.

(** [df.groupby(keys, dropna=False)]: one group per distinct key, a
    missing key component being a key value of its own; groups come in
    key order. *)
Definition groupby (df : list RawEvent) : list (GroupKey * list RawEvent) :=
  map (fun k => (k, group_rows df k)) (sort group_key_leb (unique (map group_key df))).

(** The order of [sort_values(['date', 'instance_id'])]. *)
Definition daily_leb (a b : AggregateRecord) : bool :=
  if negb (bool_decide (agg_date a = agg_date b)) then String.leb (agg_date a) (agg_date b)
  else na_last_leb (agg_instance_id a) (agg_instance_id b).

(** [preprocess_vm_data(df, save_to_file=False)].  Writing the table to a
    file, when asked, does not change the table returned. *)
Definition preprocess_vm_data (df : list RawEvent) : list AggregateRecord :=
  let daily := omap (fun '(k, g) => aggregate k g) (groupby df) in
  sort daily_leb daily.

(** The key columns of an output row. *)
Definition record_key (r : AggregateRecord) : string * option string * option string * option string :=
  (agg_date r, agg_instance_id r, agg_project_id r, agg_zone r).

(** ** Reports *)

(** The values of a report: floats, standard deviations (kept as the
    root of the variance), integers, strings, lists and dicts. *)
Inductive json :=
| JNum (x : fnum)
| JRoot (r : root)
| JInt (n : nat)
| JStr (s : string)
| JList (l : list json)
| JDict (d : gmap string json).

(** A function either returns or raises. *)
Inductive exception := IndexError.

Inductive outcome (A : Type) :=
| Returns (a : A)
| Raises (e : exception).
Arguments Returns {A} a.
Arguments Raises {A} e.

Definition bind {A B} (m : outcome A) (f : A -> outcome B) : outcome B :=
  match m with
  | Returns a => f a
  | Raises e => Raises e
  end.

(** [str(x)] of a cell that holds a string or is missing. *)
Definition str_of (x : option string) : string := default "nan" x.

(** The aggregated table the analyzer works on.  It is only ever called on
    the table [preprocess_vm_data] returns, which has every column, so the
    tests [col in df.columns] of the source all succeed. *)
Definition Table : Type := list AggregateRecord.

(** [df[df['instance_id'] == instance_id]]: a missing cell equals nothing,
    and nothing equals a missing [instance_id]. *)
Definition instance_rows (df : Table) (instance_id : option string) : Table :=
  List.filter (fun r =>
    match agg_instance_id r, instance_id with
    | Some a, Some b => bool_decide (a = b)
    | _, _ => false
    end) df.

(** The instances iterated over: [df['instance_id'].unique()]. *)
Definition instances (df : Table) : list (option string) :=
  unique (map agg_instance_id df).

(** [min] and [max] of a column of strings; missing on an empty column. *)
Definition str_min (l : list string) : option string :=
  match l with
  | [] => None
  | x :: t => Some (foldr (fun a m => if String.leb a m then a else m) x t)
  end.

Definition str_max (l : list string) : option string :=
  match l with
  | [] => None
  | x :: t => Some (foldr (fun a m => if String.leb m a then a else m) x t)
  end.

(** Columns read as floats. *)
Definition col_of (f : AggregateRecord -> option Q) (df : Table) : list fnum :=
  map (fun r => fnum_of (f r)) df.

Definition col_sum (f : AggregateRecord -> Q) (df : Table) : list fnum :=
  map (fun r => Fin (f r)) df.

Definition gb (x : fnum) : fnum := F.div x (Fin bytes_per_gb).

(** [float(data.std()) if len(data) > 1 else 0.0] *)
Definition std_or_zero (data : list fnum) : json :=
  if (1 <? length data)%nat then
    match FSeries.finite data with
    | Some qs =>
        match std qs with
        | Some r => JRoot r
        | None => JNum NaN
        end
    | None => JNum NaN
    end
  else JNum (Fin 0).

(** *** [get_instance_summary] *)

Definition get_instance_summary (df : Table) : gmap string json :=
  let ids := instances df in
  let present := omap id ids in
  list_to_map [
    ("total_instances", JInt (length ids));
    ("instance_ids", JList (map JStr (sort String.leb (map str_of ids))));
    ("records_per_instance",
       JDict (list_to_map
         (map (fun i => (i, JInt (length (instance_rows df (Some i))))) present)));
    ("date_range", JDict (list_to_map [
       ("start", JStr (str_of (str_min (map agg_date df))));
       ("end", JStr (str_of (str_max (map agg_date df))));
       ("total_days", JInt (length (unique (map agg_date df)))) ]))
  ].

(** *** [get_per_instance_analysis] *)

Definition per_instance_entry (df : Table) (instance_id : option string) : outcome json :=
  let instance_df := instance_rows df instance_id in
  let entry : gmap string json := list_to_map [
    ("total_records", JInt (length instance_df));
    ("date_range", JDict (list_to_map [
       ("start", JStr (str_of (str_min (map agg_date instance_df))));
       ("end", JStr (str_of (str_max (map agg_date instance_df)))) ])) ] in
  let entry := <["avg_cpu_utilization" :=
    JNum (FSeries.mean (FSeries.dropna (col_of cpu_utilization_mean instance_df)))]> entry in
  let entry := <["avg_memory_gb" :=
    JNum (FSeries.mean (FSeries.dropna (col_of memory_used_gb_mean instance_df)))]> entry in
  let cost_data := FSeries.dropna (col_sum cost_usd_sum instance_df) in
  let entry :=
    if (0 <? length cost_data)%nat then
      <["avg_daily_cost" := JNum (FSeries.mean cost_data)]>
        (<["total_cost" := JNum (FSeries.sum cost_data)]> entry)
    else entry in
  let entry := <["avg_uptime_fraction" :=
    JNum (FSeries.mean (FSeries.dropna (col_of uptime_fraction_mean instance_df)))]> entry in
  let entry := <["total_network_gb" :=
    JNum (gb (FSeries.sum (FSeries.dropna (col_sum network_total_bytes_sum instance_df))))]> entry in
  (* instance_df['zone'].iloc[0] and instance_df['project_id'].iloc[0] *)
  match instance_df with
  | [] => Raises IndexError
  | r0 :: _ =>
      Returns (JDict (<["project_id" := JStr (str_of (agg_project_id r0))]>
                       (<["zone" := JStr (str_of (agg_zone r0))]> entry)))
  end.

(** The loop over the instances, filling [per_instance]. *)
Fixpoint per_instance_loop (df : Table) (ids : list (option string))
    (per_instance : gmap string json) : outcome (gmap string json) :=
  match ids with
  | [] => Returns per_instance
  | instance_id :: rest =>
      bind (per_instance_entry df instance_id) (fun entry =>
      per_instance_loop df rest (<[str_of instance_id := entry]> per_instance))
  end.

Definition get_per_instance_analysis (df : Table) : outcome (gmap string json) :=
  per_instance_loop df (instances df) ∅.

(** *** [get_trend_direction] *)

Definition get_trend_direction (df : Table) (metric : AggregateRecord -> fnum) : string :=
  if (length df <? 2)%nat then "insufficient_data"
  else
    let metric_data := FSeries.dropna (map metric df) in
    if (length metric_data <? 2)%nat then "insufficient_data"
    else
      let mid_point := (length metric_data / 2)%nat in
      let first_half_mean := FSeries.mean (take mid_point metric_data) in
      let second_half_mean := FSeries.mean (drop mid_point metric_data) in
      if F.is_zero first_half_mean then "stable"
      else
        let pct_change :=
          F.mul (F.div (F.sub second_half_mean first_half_mean) first_half_mean) (Fin 100) in
        if F.ltb (Fin 5) pct_change then "increasing"
        else if F.ltb pct_change (Fin (-5)) then "decreasing"
        else "stable".

(** The percent change [get_trend_direction] computes, when it gets
    that far. *)
Definition halves_pct_change (df : Table) (metric : AggregateRecord -> fnum) : option fnum :=
  if (length df <? 2)%nat then None
  else
    let metric_data := FSeries.dropna (map metric df) in
    if (length metric_data <? 2)%nat then None
    else
      let mid_point := (length metric_data / 2)%nat in
      let first_half_mean := FSeries.mean (take mid_point metric_data) in
      let second_half_mean := FSeries.mean (drop mid_point metric_data) in
      if F.is_zero first_half_mean then None
      else Some (F.mul (F.div (F.sub second_half_mean first_half_mean) first_half_mean) (Fin 100)).

(** *** [get_trend_analysis] *)

(** One row of [df.groupby('date').agg(...)]. *)
Record DateRow := {
  dr_date : string;
  dr_cpu_utilization_mean : option Q;
  dr_memory_used_gb_mean : option Q;
  dr_cost_usd_sum : Q;
  dr_uptime_fraction_mean : option Q;
  dr_network_total_bytes_sum : Q
}.

Definition date_aggregated (df : Table) : list DateRow :=
  let by_date :=
    map (fun d =>
      let g := List.filter (fun r => bool_decide (agg_date r = d)) df in
      {| dr_date := d;
         dr_cpu_utilization_mean := Series.mean (Series.dropna (map cpu_utilization_mean g));
         dr_memory_used_gb_mean := Series.mean (Series.dropna (map memory_used_gb_mean g));
         dr_cost_usd_sum := Series.sum (map cost_usd_sum g);
         dr_uptime_fraction_mean := Series.mean (Series.dropna (map uptime_fraction_mean g));
         dr_network_total_bytes_sum := Series.sum (map network_total_bytes_sum g) |})
      (sort String.leb (unique (map agg_date df))) in
  sort (fun a b => String.leb (dr_date a) (dr_date b)) by_date.

Definition overall_metrics : list ((DateRow -> option Q) * string) :=
  [ (dr_cpu_utilization_mean, "CPU Utilization");
    (dr_memory_used_gb_mean, "Memory Usage (GB)");
    (fun r => Some (dr_cost_usd_sum r), "Daily Cost");
    (dr_uptime_fraction_mean, "Uptime Fraction");
    (fun r => Some (dr_network_total_bytes_sum r), "Total Network Traffic") ].

(** The entry of one metric of the overall trend, from its values on the
    first and on the last date; no entry when the first value is zero or
    one of the two is missing. *)
Definition overall_metric (first_val last_val : option Q) : option (gmap string json) :=
  match first_val, last_val with
  | Some f, Some l =>
      if negb (Qeq_bool f 0) then
        let pct_change := ((l - f) / f) * 100 in
        Some (list_to_map [
          ("start_value", JNum (Fin f));
          ("end_value", JNum (Fin l));
          ("percent_change", JNum (Fin pct_change));
          ("trend", JStr (if Qltb 5 pct_change then "increasing"
                          else if Qltb pct_change (-5) then "decreasing"
                          else "stable")) ])
      else None
  | _, _ => None
  end.

Definition overall_trends (first_row last_row : DateRow) : gmap string json :=
  foldl (fun overall '(metric, label) =>
           match overall_metric (metric first_row) (metric last_row) with
           | Some entry => <[label := JDict entry]> overall
           | None => overall
           end)
        (list_to_map [
          ("date_range", JDict (list_to_map [
             ("start_date", JStr (dr_date first_row));
             ("end_date", JStr (dr_date last_row)) ])) ])
        overall_metrics.

(** The ten metrics of the per-instance trends. *)
Definition m_cpu (r : AggregateRecord) : fnum := fnum_of (cpu_utilization_mean r).
Definition m_memory (r : AggregateRecord) : fnum := fnum_of (memory_used_gb_mean r).
Definition m_cost (r : AggregateRecord) : fnum := Fin (cost_usd_sum r).
Definition m_uptime (r : AggregateRecord) : fnum := fnum_of (uptime_fraction_mean r).
Definition m_network (r : AggregateRecord) : fnum := Fin (network_total_bytes_sum r).
Definition m_disk_read (r : AggregateRecord) : fnum := Fin (disk_read_bytes_sum r).
Definition m_disk_write (r : AggregateRecord) : fnum := Fin (disk_write_bytes_sum r).
Definition m_ingress (r : AggregateRecord) : fnum := Fin (ingress_bytes_sum r).
Definition m_egress (r : AggregateRecord) : fnum := Fin (egress_bytes_sum r).
Definition m_cost_per_cpu (r : AggregateRecord) : fnum := cost_per_cpu_mean r.

(** The block of one metric: the name of its entry, its column, and the
    fields it reports, each computed from the values that are not missing. *)
Definition block : Type :=
  string * (AggregateRecord -> fnum) * list (string * (list fnum -> json)).

Definition trend_blocks (instance_df : Table) : list block :=
  let mean d := JNum (FSeries.mean d) in
  let median d := JNum (FSeries.median d) in
  let min d := JNum (FSeries.min d) in
  let max d := JNum (FSeries.max d) in
  let total d := JNum (FSeries.sum d) in
  let total_gb d := JNum (gb (FSeries.sum d)) in
  let mean_gb d := JNum (gb (FSeries.mean d)) in
  let median_gb d := JNum (gb (FSeries.median d)) in
  let min_gb d := JNum (gb (FSeries.min d)) in
  let max_gb d := JNum (gb (FSeries.max d)) in
  let trend m (_ : list fnum) := JStr (get_trend_direction instance_df m) in
  [ ("cpu_utilization", m_cpu,
      [ ("mean", mean); ("median", median); ("min", min); ("max", max);
        ("std", std_or_zero); ("trend", trend m_cpu) ]);
    ("memory_usage_gb", m_memory,
      [ ("mean", mean); ("median", median); ("min", min); ("max", max);
        ("std", std_or_zero); ("trend", trend m_memory) ]);
    ("cost", m_cost,
      [ ("total", total); ("mean_daily", mean); ("median_daily", median);
        ("min_daily", min); ("max_daily", max);
        ("std", std_or_zero); ("trend", trend m_cost) ]);
    ("uptime_fraction", m_uptime,
      [ ("mean", mean); ("median", median); ("min", min); ("max", max);
        ("std", std_or_zero); ("trend", trend m_uptime) ]);
    ("network_traffic", m_network,
      [ ("total_gb", total_gb); ("mean_daily_gb", mean_gb); ("median_daily_gb", median_gb);
        ("min_daily_gb", min_gb); ("max_daily_gb", max_gb); ("trend", trend m_network) ]);
    ("disk_read", m_disk_read,
      [ ("total_gb", total_gb); ("mean_daily_gb", mean_gb); ("median_daily_gb", median_gb);
        ("trend", trend m_disk_read) ]);
    ("disk_write", m_disk_write,
      [ ("total_gb", total_gb); ("mean_daily_gb", mean_gb); ("median_daily_gb", median_gb);
        ("trend", trend m_disk_write) ]);
    ("network_ingress", m_ingress,
      [ ("total_gb", total_gb); ("mean_daily_gb", mean_gb); ("trend", trend m_ingress) ]);
    ("network_egress", m_egress,
      [ ("total_gb", total_gb); ("mean_daily_gb", mean_gb); ("trend", trend m_egress) ]);
    ("cost_efficiency", m_cost_per_cpu,
      [ ("mean_cost_per_cpu", mean); ("median_cost_per_cpu", median);
        ("min_cost_per_cpu", min); ("max_cost_per_cpu", max);
        ("trend", trend m_cost_per_cpu) ]) ].

(** One block of the loop body: the metric gets an entry when it has a
    value. *)
Definition block_step (instance_df : Table) (entry : gmap string json) (b : block)
  : gmap string json :=
  let '(name, metric, fields) := b in
  let data := FSeries.dropna (map metric instance_df) in
  if (0 <? length data)%nat then
    <[name := JDict (list_to_map (map (fun '(k, f) => (k, f data)) fields))]> entry
  else entry.

(** The entry of one instance: its date range, then the blocks. *)
Definition instance_trends (instance_df : Table) : gmap string json :=
  foldl (block_step instance_df)
        (list_to_map [
          ("date_range", JDict (list_to_map [
             ("start_date", JStr (str_of (str_min (map agg_date instance_df))));
             ("end_date", JStr (str_of (str_max (map agg_date instance_df))));
             ("total_days", JInt (length instance_df)) ])) ])
        (trend_blocks instance_df).

Section Trends.

(** [instance_df.sort_values('date')] is library code.  pandas sorts by one
    column with a quicksort that is not stable: the rows come back in date
    order, those of one date in an order the library chooses.  The sort is
    a parameter here; [date_sorted] below says what it guarantees.  (The
    dates of [date_aggregated] are distinct, so there the order is
    determined.) *)
Variable sort_values_date : Table -> Table.

Definition get_trend_analysis (df : Table) : gmap string json :=
  let trends : gmap string json := ∅ in
  let date_aggregated := date_aggregated df in
  let trends :=
    match date_aggregated, last date_aggregated with
    | first_row :: _ :: _, Some last_row =>
        <["overall" := JDict (overall_trends first_row last_row)]> trends
    | _, _ => trends
    end in
  let per_instance :=
    foldl (fun per_instance instance_id =>
             let instance_df := sort_values_date (instance_rows df instance_id) in
             if (1 <=? length instance_df)%nat then
               <[str_of instance_id := JDict (instance_trends instance_df)]> per_instance
             else per_instance)
          ∅ (instances df) in
  <["per_instance" := JDict per_instance]> trends.

End Trends.

(** What [sort_values('date')] guarantees: the same rows, in date order. *)
Definition date_sorted (sort_values_date : Table -> Table) : Prop :=
  forall rows,
    sort_values_date rows ≡ₚ rows /\
    StronglySorted (fun a b => String.leb (agg_date a) (agg_date b) = true)
                   (sort_values_date rows).

(** *** [get_cost_analysis] *)

Definition get_cost_analysis (df : Table) : gmap string json :=
  let cost_analysis : gmap string json := ∅ in
  let cost_data := FSeries.dropna (col_sum cost_usd_sum df) in
  let cost_analysis :=
    if (0 <? length cost_data)%nat then
      let overall : gmap string json := list_to_map [
        ("total_cost", JNum (FSeries.sum cost_data));
        ("average_daily_cost_per_instance", JNum (FSeries.mean cost_data));
        ("max_daily_cost", JNum (FSeries.max cost_data));
        ("min_daily_cost", JNum (FSeries.min cost_data));
        ("cost_std_deviation", std_or_zero cost_data) ] in
      let overall :=
        <["projected_monthly_cost" := JNum (F.mul (FSeries.mean cost_data) (Fin 30))]> overall in
      let cpu_cost_data := FSeries.dropna (map cost_per_cpu_mean df) in
      let overall :=
        if (0 <? length cpu_cost_data)%nat then
          <["average_cost_per_cpu_utilization" := JNum (FSeries.mean cpu_cost_data)]> overall
        else overall in
      <["overall" := JDict overall]> cost_analysis
    else cost_analysis in
  let per_instance :=
    foldl (fun per_instance instance_id =>
             let instance_df := instance_rows df instance_id in
             let instance_cost_data := FSeries.dropna (col_sum cost_usd_sum instance_df) in
             if (0 <? length instance_cost_data)%nat then
               <[str_of instance_id := JDict (list_to_map [
                  ("total_cost", JNum (FSeries.sum instance_cost_data));
                  ("avg_daily_cost", JNum (FSeries.mean instance_cost_data));
                  ("max_daily_cost", JNum (FSeries.max instance_cost_data));
                  ("min_daily_cost", JNum (FSeries.min instance_cost_data)) ])]> per_instance
             else per_instance)
          ∅ (instances df) in
  <["per_instance" := JDict per_instance]> cost_analysis.

(** *** [get_utilization_insights] *)

Definition utilization_category (cpu_mean : fnum) : string :=
  if F.ltb (Fin (8 # 10)) cpu_mean then "over-utilized"
  else if F.ltb (Fin (5 # 10)) cpu_mean then "well-utilized"
  else "under-utilized".

Definition reliability_rating (uptime_mean : fnum) : string :=
  if F.ltb (Fin (95 # 100)) uptime_mean then "excellent"
  else if F.ltb (Fin (85 # 100)) uptime_mean then "good"
  else "needs improvement".

(** [df[col].max()] and [df[col].min()], missing values skipped. *)
Definition col_max (f : AggregateRecord -> option Q) (df : Table) : fnum :=
  FSeries.max (FSeries.dropna (col_of f df)).

Definition col_min (f : AggregateRecord -> option Q) (df : Table) : fnum :=
  FSeries.min (FSeries.dropna (col_of f df)).

(** [d[k] = v] when the series [data] has a value. *)
Definition set_if_any (data : list fnum) (k : string) (v : json)
    (d : gmap string json) : gmap string json :=
  if (0 <? length data)%nat then <[k := v]> d else d.

Definition overall_utilization (df : Table) : gmap string json :=
  let cpu_data := FSeries.dropna (col_of cpu_utilization_mean df) in
  let mem_data := FSeries.dropna (col_of memory_used_gb_mean df) in
  let network_data := FSeries.dropna (col_sum network_total_bytes_sum df) in
  let uptime_data := FSeries.dropna (col_of uptime_fraction_mean df) in
  let overall : gmap string json := ∅ in
  let overall := set_if_any cpu_data "cpu" (JDict (list_to_map [
    ("average_utilization", JNum (FSeries.mean cpu_data));
    ("utilization_category", JStr (utilization_category (FSeries.mean cpu_data)));
    ("max_utilization", JNum (col_max cpu_utilization_max df));
    ("min_utilization", JNum (col_min cpu_utilization_min df)) ])) overall in
  let overall := set_if_any mem_data "memory" (JDict (list_to_map [
    ("average_memory_gb", JNum (FSeries.mean mem_data));
    ("max_memory_gb", JNum (col_max memory_used_gb_max df));
    ("min_memory_gb", JNum (col_min memory_used_gb_min df)) ])) overall in
  let overall := set_if_any network_data "network" (JDict (list_to_map [
    ("total_network_bytes", JNum (FSeries.sum network_data));
    ("total_network_gb", JNum (gb (FSeries.sum network_data)));
    ("average_daily_network_gb", JNum (gb (FSeries.mean network_data))) ])) overall in
  set_if_any uptime_data "uptime" (JDict (list_to_map [
    ("average_uptime_fraction", JNum (FSeries.mean uptime_data));
    ("uptime_percentage", JNum (F.mul (FSeries.mean uptime_data) (Fin 100)));
    ("reliability_rating", JStr (reliability_rating (FSeries.mean uptime_data))) ])) overall.

Definition instance_utilization (instance_df : Table) : gmap string json :=
  let cpu_data := FSeries.dropna (col_of cpu_utilization_mean instance_df) in
  let mem_data := FSeries.dropna (col_of memory_used_gb_mean instance_df) in
  let network_data := FSeries.dropna (col_sum network_total_bytes_sum instance_df) in
  let ingress_data := FSeries.dropna (col_sum ingress_bytes_sum instance_df) in
  let egress_data := FSeries.dropna (col_sum egress_bytes_sum instance_df) in
  let disk_read_data := FSeries.dropna (col_sum disk_read_bytes_sum instance_df) in
  let disk_write_data := FSeries.dropna (col_sum disk_write_bytes_sum instance_df) in
  let uptime_data := FSeries.dropna (col_of uptime_fraction_mean instance_df) in
  let cost_eff_data := FSeries.dropna (map cost_per_cpu_mean instance_df) in
  let entry : gmap string json := ∅ in
  let entry := set_if_any cpu_data "cpu" (JDict (list_to_map [
    ("average", JNum (FSeries.mean cpu_data));
    ("max", JNum (col_max cpu_utilization_max instance_df));
    ("min", JNum (col_min cpu_utilization_min instance_df));
    ("std", std_or_zero cpu_data);
    ("category", JStr (utilization_category (FSeries.mean cpu_data))) ])) entry in
  let entry := set_if_any mem_data "memory" (JDict (list_to_map [
    ("average_gb", JNum (FSeries.mean mem_data));
    ("max_gb", JNum (col_max memory_used_gb_max instance_df));
    ("min_gb", JNum (col_min memory_used_gb_min instance_df));
    ("std_gb", std_or_zero mem_data) ])) entry in
  let network : gmap string json := list_to_map [
    ("total_gb", JNum (gb (FSeries.sum network_data)));
    ("avg_daily_gb", JNum (gb (FSeries.mean network_data)));
    ("max_daily_gb", JNum (gb (FSeries.max network_data)));
    ("min_daily_gb", JNum (gb (FSeries.min network_data))) ] in
  let network :=
    if (0 <? length ingress_data)%nat && (0 <? length egress_data)%nat then
      <["egress_gb" := JNum (gb (FSeries.sum egress_data))]>
        (<["ingress_gb" := JNum (gb (FSeries.sum ingress_data))]> network)
    else network in
  let entry := set_if_any network_data "network" (JDict network) entry in
  let disk_metrics : gmap string json := ∅ in
  let disk_metrics :=
    if (0 <? length disk_read_data)%nat then
      <["avg_daily_read_gb" := JNum (gb (FSeries.mean disk_read_data))]>
        (<["total_read_gb" := JNum (gb (FSeries.sum disk_read_data))]> disk_metrics)
    else disk_metrics in
  let disk_metrics :=
    if (0 <? length disk_write_data)%nat then
      <["avg_daily_write_gb" := JNum (gb (FSeries.mean disk_write_data))]>
        (<["total_write_gb" := JNum (gb (FSeries.sum disk_write_data))]> disk_metrics)
    else disk_metrics in
  let entry :=
    if (0 <? size disk_metrics)%nat then <["disk_io" := JDict disk_metrics]> entry
    else entry in
  let entry := set_if_any uptime_data "uptime" (JDict (list_to_map [
    ("average_fraction", JNum (FSeries.mean uptime_data));
    ("percentage", JNum (F.mul (FSeries.mean uptime_data) (Fin 100)));
    ("max_fraction", JNum (col_max uptime_fraction_max instance_df));
    ("min_fraction", JNum (col_min uptime_fraction_min instance_df));
    ("reliability_rating", JStr (reliability_rating (FSeries.mean uptime_data))) ])) entry in
  set_if_any cost_eff_data "cost_efficiency" (JDict (list_to_map [
    ("average_cost_per_cpu", JNum (FSeries.mean cost_eff_data));
    ("max_cost_per_cpu", JNum (FSeries.max cost_eff_data));
    ("min_cost_per_cpu", JNum (FSeries.min cost_eff_data)) ])) entry.

Definition get_utilization_insights (df : Table) : gmap string json :=
  let insights : gmap string json := <["overall" := JDict (overall_utilization df)]> ∅ in
  let per_instance :=
    foldl (fun per_instance instance_id =>
             <[str_of instance_id := JDict (instance_utilization (instance_rows df instance_id))]>
               per_instance)
          ∅ (instances df) in
  <["per_instance" := JDict per_instance]> insights.

(** *** [detect_anomalies] *)

Definition metrics_to_check : list ((AggregateRecord -> option Q) * string) :=
  [ (fun r => Some (cost_usd_sum r), "Cost");
    (cpu_utilization_mean, "CPU Utilization");
    (memory_used_gb_mean, "Memory Usage");
    (fun r => Some (network_total_bytes_sum r), "Network Traffic") ].

(** The rows whose value lies strictly outside the two bounds; a missing
    value compares false on both sides. *)
Definition outside (metric : AggregateRecord -> option Q) (lower_bound upper_bound : Q)
    (instance_df : Table) : Table :=
  List.filter (fun r =>
    match metric r with
    | Some v => Qltb v lower_bound || Qltb upper_bound v
    | None => false
    end) instance_df.

(** The report of one metric of one instance, when there is one. *)
Definition metric_anomalies (instance_df : Table) (metric : AggregateRecord -> option Q)
  : option (gmap string json) :=
  let metric_data := Series.dropna (map metric instance_df) in
  if (3 <? length metric_data)%nat then
    match Series.quantile (1 # 4) metric_data, Series.quantile (3 # 4) metric_data with
    | Some Q1, Some Q3 =>
        let IQR := Q3 - Q1 in
        let lower_bound := Q1 - (15 # 10) * IQR in
        let upper_bound := Q3 + (15 # 10) * IQR in
        let anomaly_df := outside metric lower_bound upper_bound instance_df in
        if (0 <? length anomaly_df)%nat then
          Some (list_to_map [
            ("count", JInt (length anomaly_df));
            ("dates", JList (map (fun r => JStr (agg_date r)) anomaly_df));
            ("values", JList (map (fun r => JNum (fnum_of (metric r))) anomaly_df));
            ("lower_bound", JNum (Fin lower_bound));
            ("upper_bound", JNum (Fin upper_bound)) ])
        else None
    | _, _ => None
    end
  else None.

Definition instance_anomalies (instance_df : Table) : gmap string json :=
  foldl (fun found '(metric, label) =>
           match metric_anomalies instance_df metric with
           | Some report => <[label := JDict report]> found
           | None => found
           end)
        ∅ metrics_to_check.

Definition detect_anomalies (df : Table) : gmap string json :=
  foldl (fun anomalies instance_id =>
           let found := instance_anomalies (instance_rows df instance_id) in
           if (0 <? size found)%nat then <[str_of instance_id := JDict found]> anomalies
           else anomalies)
        ∅ (instances df).

(** *** [analyze_vm_data] *)

Section Analyzer.

(** Two passes report numbers that are not rational in general: the
    descriptive statistics run over the standard-deviation columns too, and
    the correlation pass reports Pearson coefficients.  Each builds and
    returns a dict; what they put in it is left open here. *)
Variable get_descriptive_stats : Table -> gmap string json.
Variable get_correlation_analysis : Table -> gmap string json.

(** The library sort of the trend pass. *)
Variable sort_values_date : Table -> Table.

Definition analyze_vm_data (df : list RawEvent) : outcome (gmap string json) :=
  let preprocessed_df := preprocess_vm_data df in
  let analysis_results : gmap string json := ∅ in
  let analysis_results :=
    <["instance_summary" := JDict (get_instance_summary preprocessed_df)]> analysis_results in
  let analysis_results :=
    <["overall_stats" := JDict (get_descriptive_stats preprocessed_df)]> analysis_results in
  bind (get_per_instance_analysis preprocessed_df) (fun per_instance =>
  let analysis_results :=
    <["per_instance_analysis" := JDict per_instance]> analysis_results in
  let analysis_results :=
    <["correlation_analysis" := JDict (get_correlation_analysis preprocessed_df)]> analysis_results in
  let analysis_results :=
    <["trend_analysis" := JDict (get_trend_analysis sort_values_date preprocessed_df)]>
      analysis_results in
  let analysis_results :=
    <["cost_analysis" := JDict (get_cost_analysis preprocessed_df)]> analysis_results in
  let analysis_results :=
    <["utilization_insights" := JDict (get_utilization_insights preprocessed_df)]> analysis_results in
  let analysis_results :=
    <["anomalies" := JDict (detect_anomalies preprocessed_df)]> analysis_results in
  Returns analysis_results).

End Analyzer.

(** The eight facets of a report. *)
Definition facets : list string :=
  [ "instance_summary"; "overall_stats"; "per_instance_analysis"; "correlation_analysis";
    "trend_analysis"; "cost_analysis"; "utilization_insights"; "anomalies" ].

(** ** Reading dates back

    Used to show that [Date.str] loses nothing. *)

(** Reading a decimal back; leading zeros do not count. *)
Definition decimal_value (s : string) : option nat :=
  Nat.of_uint <$> NilEmpty.uint_of_string s.

(** Reading an ISO date back. *)
Definition date_parse (s : string) : option Date.t :=
  let '(a, r1) := Str.span is_digit s in
  match r1 with
  | String _ r1' =>
      let '(b, r2) := Str.span is_digit r1' in
      match r2 with
      | String _ c =>
          y ← decimal_value a; m ← decimal_value b; d ← decimal_value c;
          Some (y, m, d)
      | EmptyString => None
      end
  | EmptyString => None
  end.

(** ** Group keys *)

(** The key of a group as the output prints it: the date as a string. *)
Definition printed_key (k : GroupKey) : string * option string * option string * option string :=
  let '(d, i, p, z) := k in (Date.str d, i, p, z).

(** The key values of the batch, in group order. *)
Definition group_keys (df : list RawEvent) : list GroupKey :=
  sort group_key_leb (unique (map group_key df)).

(** ** What the extraction patterns match

    [/instances/(\d+)] matches where ["/instances/"] is followed by a
    digit; [<prefix>([^/]+)/] matches where the prefix is followed by a
    non-empty run without a slash and then a slash. *)

Definition has_instance_match (name : string) : Prop :=
  exists pre d rest,
    name = pre +:+ "/instances/" +:+ String d rest /\ is_digit d = true.

Definition has_segment_match (prefix name : string) : Prop :=
  exists pre seg rest,
    name = pre +:+ prefix +:+ seg +:+ "/" +:+ rest /\
    seg <> EmptyString /\ Str.forallb not_slash seg = true.

(** ** Sums that skip missing values *)

(** The contribution of a cell to such a sum. *)
Definition cell_value (x : option Q) : Q := default 0 x.

(** ** The most common category of a group *)

(** The highest number of occurrences of a value of [x]. *)
Definition best_count (x : list string) : nat :=
  foldr Nat.max 0%nat (map (fun v => occurrences v x) x).

(** The tie-break as the specification words it: among the most frequent
    values, the first one met in input order. *)
Definition first_encountered_mode (x : list string) : option string :=
  find (fun v => (occurrences v x =? best_count x)%nat) x.

(** [m] is a most frequent value of [x], and the smallest of them in
    string order. *)
Definition smallest_mode (m : string) (x : list string) : Prop :=
  m ∈ x /\
  (forall c, c ∈ x -> (occurrences c x <= occurrences m x)%nat) /\
  (forall c, c ∈ x -> occurrences c x = occurrences m x -> String.leb m c = true).

(** ** Reading the reports *)

(** The entry of one metric of one instance in the anomaly report. *)
Definition reported_anomaly (df : Table) (i label : string) : option json :=
  match detect_anomalies df !! i with
  | Some (JDict found) => found !! label
  | _ => None
  end.

(** The trends of one instance in the report of [get_trend_analysis]. *)
Definition per_instance_trends (sort_values_date : Table -> Table) (df : Table) (i : string)
  : option json :=
  match get_trend_analysis sort_values_date df !! "per_instance" with
  | Some (JDict per_instance) => per_instance !! i
  | _ => None
  end.

(** The rows of an instance as the trend pass reads them, after the
    library sort. *)
Definition instance_by_date (sort_values_date : Table -> Table) (df : Table) (i : string)
  : Table :=
  sort_values_date (instance_rows df (Some i)).

(** A stable sort by date: one sort that [date_sorted] admits. *)
Definition stable_by_date (rows : Table) : Table :=
  sort (fun a b => String.leb (agg_date a) (agg_date b)) rows.

(** The statistics the trend pass reports, as the claim words them. *)
Inductive statistic := Total | Mean | Median | Minimum | Maximum | Std | Trend.

(** The value of a statistic of the column [column] over [rows], whose
    values that are not missing are [data]; [in_gb] asks for a division by
    2^30.  The std is that of a sample, 0 under two values; the trend is
    the label of the split-halves classifier. *)
Definition statistic_value (s : statistic) (in_gb : bool)
    (rows : Table) (column : AggregateRecord -> fnum) (data : list fnum) : json :=
  let scaled x := JNum (if in_gb then F.div x (Fin (2 ^ 30)) else x) in
  match s with
  | Total => scaled (FSeries.sum data)
  | Mean => scaled (FSeries.mean data)
  | Median => scaled (FSeries.median data)
  | Minimum => scaled (FSeries.min data)
  | Maximum => scaled (FSeries.max data)
  | Std =>
      if (1 <? length data)%nat then
        match FSeries.finite data with
        | Some values =>
            match std values with
            | Some deviation => JRoot deviation
            | None => JNum NaN
            end
        | None => JNum NaN
        end
      else JNum (Fin 0)
  | Trend => JStr (get_trend_direction rows column)
  end.

(** The ten metrics of the per-instance trends: the name of the entry, the
    column read, and for each field its statistic and whether it is in
    gigabytes. *)
Definition reported_statistics
  : list (string * (AggregateRecord -> fnum) * list (string * statistic * bool)) :=
  [ ("cpu_utilization", (fun r => fnum_of (cpu_utilization_mean r)),
      [ ("mean", Mean, false); ("median", Median, false); ("min", Minimum, false);
        ("max", Maximum, false); ("std", Std, false); ("trend", Trend, false) ]);
    ("memory_usage_gb", (fun r => fnum_of (memory_used_gb_mean r)),
      [ ("mean", Mean, false); ("median", Median, false); ("min", Minimum, false);
        ("max", Maximum, false); ("std", Std, false); ("trend", Trend, false) ]);
    ("cost", (fun r => Fin (cost_usd_sum r)),
      [ ("total", Total, false); ("mean_daily", Mean, false); ("median_daily", Median, false);
        ("min_daily", Minimum, false); ("max_daily", Maximum, false); ("std", Std, false);
        ("trend", Trend, false) ]);
    ("uptime_fraction", (fun r => fnum_of (uptime_fraction_mean r)),
      [ ("mean", Mean, false); ("median", Median, false); ("min", Minimum, false);
        ("max", Maximum, false); ("std", Std, false); ("trend", Trend, false) ]);
    ("network_traffic", (fun r => Fin (network_total_bytes_sum r)),
      [ ("total_gb", Total, true); ("mean_daily_gb", Mean, true);
        ("median_daily_gb", Median, true); ("min_daily_gb", Minimum, true);
        ("max_daily_gb", Maximum, true); ("trend", Trend, false) ]);
    ("disk_read", (fun r => Fin (disk_read_bytes_sum r)),
      [ ("total_gb", Total, true); ("mean_daily_gb", Mean, true);
        ("median_daily_gb", Median, true); ("trend", Trend, false) ]);
    ("disk_write", (fun r => Fin (disk_write_bytes_sum r)),
      [ ("total_gb", Total, true); ("mean_daily_gb", Mean, true);
        ("median_daily_gb", Median, true); ("trend", Trend, false) ]);
    ("network_ingress", (fun r => Fin (ingress_bytes_sum r)),
      [ ("total_gb", Total, true); ("mean_daily_gb", Mean, true); ("trend", Trend, false) ]);
    ("network_egress", (fun r => Fin (egress_bytes_sum r)),
      [ ("total_gb", Total, true); ("mean_daily_gb", Mean, true); ("trend", Trend, false) ]);
    ("cost_efficiency", (fun r => cost_per_cpu_mean r),
      [ ("mean_cost_per_cpu", Mean, false); ("median_cost_per_cpu", Median, false);
        ("min_cost_per_cpu", Minimum, false); ("max_cost_per_cpu", Maximum, false);
        ("trend", Trend, false) ]) ].

(** What the specification asks of the entry of a metric: a mean, a median,
    a minimum, a maximum and a standard deviation, plus the trend label. *)
Definition full_statistics (entry : gmap string json) : Prop :=
  is_Some (entry !! "std") /\ is_Some (entry !! "trend") /\ (6 <= size entry)%nat.

(** ** Sample data *)

Definition vm_name (project zone instance : string) : string :=
  "//compute.googleapis.com/projects/" +:+ project +:+ "/zones/" +:+ zone
    +:+ "/instances/" +:+ instance.

(** A reading of the instance [name] at midnight of a day of January 2024. *)
Definition reading (day : nat) (name : string) (cpu cost : Q) (sku : string) : RawEvent :=
  {| timestamp := {| ts_date := (2024, 1, day)%nat; ts_hour := 0; ts_minute := 0 |};
     resource_global_name := name;
     cpu_utilization := Some cpu;
     memory_used_bytes := Some 2147483648;
     disk_read_bytes := Some 1024;
     disk_write_bytes := Some 2048;
     ingress_bytes := Some 4096;
     egress_bytes := Some 8192;
     uptime_fraction := Some 1;
     cost_usd := Some cost;
     sku_description := sku |}.

Definition vm1 : string := vm_name "demo" "us-central1-a" "1001".

(** Two readings of one group whose categories are tied. *)
Definition tie_batch : list RawEvent :=
  [ reading 1 vm1 (1 # 2) 1 "SSD backed PD Capacity";
    reading 1 vm1 (1 # 2) 1 "Licensing Fee" ].

(** A reading whose name carries no path. *)
Definition pathless_reading : RawEvent :=
  reading 1 "unnamed-resource" (1 # 2) 1 "Licensing Fee".

Definition pathless_batch : list RawEvent := [ pathless_reading ].

(** One instance over two days, the cost going from [c1] to [c2]. *)
Definition two_days (c1 c2 : Q) : list RawEvent :=
  [ reading 1 vm1 (1 # 2) c1 "Licensing Fee";
    reading 2 vm1 (1 # 2) c2 "Licensing Fee" ].

(** The aggregated table of one instance over two days, the cost going
    from 100 to 105. *)
Definition two_day_table : Table := preprocess_vm_data (two_days 100 105).

(** One instance over six days with one extreme cost. *)
Definition outlier_batch : list RawEvent :=
  [ reading 1 vm1 (1 # 2) 10 "Licensing Fee";
    reading 2 vm1 (1 # 2) 11 "Licensing Fee";
    reading 3 vm1 (1 # 2) 9 "Licensing Fee";
    reading 4 vm1 (1 # 2) 10 "Licensing Fee";
    reading 5 vm1 (1 # 2) 12 "Licensing Fee";
    reading 6 vm1 (1 # 2) 1000 "Licensing Fee" ].

Definition outlier_table : Table := preprocess_vm_data outlier_batch.

(** ** The order of the output rows *)

(** [a] comes before [b] under [sort_values(['date', 'instance_id'])]: an
    earlier date string, or the same date and an instance id that is not
    larger, a missing id being the largest. *)
Definition row_order (a b : AggregateRecord) : Prop :=
  String.ltb (agg_date a) (agg_date b) = true \/
  (agg_date a = agg_date b /\
   na_last_leb (agg_instance_id a) (agg_instance_id b) = true).

(** ** Resource names *)

(** A resource name with its path, after some prefix such as the service
    host: [<prefix>/projects/<project>/zones/<zone>/instances/<instance>]. *)
Definition resource_name (prefix project zone instance : string) : string :=
  prefix +:+ "/projects/" +:+ project +:+ "/zones/" +:+ zone
    +:+ "/instances/" +:+ instance.

(** A path segment: not empty, and without a slash. *)
Definition path_segment (s : string) : Prop :=
  s <> EmptyString /\ Str.forallb not_slash s = true.

(** One instance over four days, every reading the same. *)
Definition flat_batch : list RawEvent :=
  [ reading 1 vm1 (1 # 2) 10 "Licensing Fee";
    reading 2 vm1 (1 # 2) 10 "Licensing Fee";
    reading 3 vm1 (1 # 2) 10 "Licensing Fee";
    reading 4 vm1 (1 # 2) 10 "Licensing Fee" ].

(** ** The recommendation agent ([backend/agents/recommendations.py])

    The text of a response is a [string] whose characters are code points
    below 256. *)

Module Text.

(** [c.isspace()] *)
Definition isspace (c : ascii) : bool :=
  let n := nat_of_ascii c in
  ((9 <=? n) && (n <=? 13) || (28 <=? n) && (n <=? 32) || (n =? 133) || (n =? 160))%nat.

(** [s.lstrip()] *)
Fixpoint lstrip (s : string) : string :=
  match s with
  | EmptyString => EmptyString
  | String c t => if isspace c then lstrip t else s
  end.

(** [s.rstrip()] *)
Fixpoint rstrip (s : string) : string :=
  match s with
  | EmptyString => EmptyString
  | String c t =>
      match rstrip t with
      | EmptyString => if isspace c then EmptyString else String c EmptyString
      | kept => String c kept
      end
  end.

(** [s.strip()] *)
Definition strip (s : string) : string := rstrip (lstrip s).

(** [s[n:]] *)
Fixpoint drop (n : nat) (s : string) : string :=
  match n, s with
  | S n', String _ t => drop n' t
  | _, _ => s
  end.

(** [s[:n]] *)
Fixpoint take (n : nat) (s : string) : string :=
  match n, s with
  | S n', String c t => String c (take n' t)
  | _, _ => EmptyString
  end.

(** [s[:-n]] for a positive [n] *)
Definition drop_last (n : nat) (s : string) : string :=
  take (String.length s - n) s.

(** [s.endswith(pat)] *)
Definition ends_with (pat s : string) : bool :=
  (String.length pat <=? String.length s)%nat &&
  String.eqb (drop (String.length s - String.length pat) s) pat.

(** [sep.join(parts)] *)
Fixpoint join (sep : string) (parts : list string) : string :=
  match parts with
  | [] => EmptyString
  | [p] => p
  | p :: rest => p +:+ sep +:+ join sep rest
  end.

End Text.

(** *** [parse_gemini_response] *)

(** The text handed to [json.loads]: the response without the
    surrounding white space and code fence. *)
Definition cleaned_text (response_text : string) : string :=
  let cleaned_text := Text.strip response_text in
  let cleaned_text :=
    if Str.starts_with "```json" cleaned_text then Text.drop 7 cleaned_text
    else cleaned_text in
  let cleaned_text :=
    if Str.starts_with "```" cleaned_text then Text.drop 3 cleaned_text
    else cleaned_text in
  let cleaned_text :=
    if Text.ends_with "```" cleaned_text then Text.drop_last 3 cleaned_text
    else cleaned_text in
  Text.strip cleaned_text.

(** The function returns a dict, or raises [AttributeError] out of
    [result.get] when the response decodes to something that is not a
    dict; only [json.JSONDecodeError] is caught. *)
Inductive parsed :=
| Parsed (result : gmap string json)
| AttributeError.

Section Parser.

(** [json.loads] is library code; [None] stands for [JSONDecodeError]. *)
Variable json_loads : string -> option json.

Definition parse_gemini_response (response_text : string) : parsed :=
  match json_loads (cleaned_text response_text) with
  | Some (JDict result) =>
      Parsed (list_to_map [
        ("insights", default (JList []) (result !! "insights"));
        ("recommendations", default (JList []) (result !! "recommendations")) ])
  | Some _ => AttributeError
  | None =>
      Parsed (list_to_map [
        ("insights",
           JList [JStr "Analysis completed but response format was unexpected"]);
        ("recommendations",
           JList [JStr "Please review the raw analysis output"]) ])
  end.

End Parser.

(** White space only. *)
Definition blank (s : string) : Prop := Str.forallb Text.isspace s = true.

(** *** [prepare_data_summary] *)

Definition newline : string := String (ascii_of_nat 10) EmptyString.

(** The columns of the raw table. *)
Definition raw_columns : list string :=
  [ "timestamp"; "resource_global_name"; "cpu_utilization"; "memory_used_bytes";
    "disk_read_bytes"; "disk_write_bytes"; "ingress_bytes"; "egress_bytes";
    "uptime_fraction"; "cost_usd"; "sku_description" ].

(** [v > 0]; [None] stands for the [TypeError] of a value that is not a
    number. *)
Definition greater_than_zero (v : json) : option bool :=
  match v with
  | JInt n => Some (0 <? n)%nat
  | JNum x => Some (F.ltb (Fin 0) x)
  | JRoot (Sqrt radicand) => Some (Qltb 0 radicand)
  | JStr _ | JList _ | JDict _ => None
  end.

Section Summary.

(** What the summary prints of floats and of containers is left open:
    the lines of the descriptive statistics, given [stats] and [len(df)];
    the text of a value in an f-string; the joined anomaly types; the lines
    of the three costliest VMs.  [None] stands for an exception. *)
Variable descriptive_lines : json -> nat -> option (list string).
Variable format_other : json -> string.
Variable joined_types : json -> option string.
Variable top_costly_lines : list RawEvent -> list string.

(** [f"{v}"] *)
Definition formatted (v : json) : string :=
  match v with
  | JInt n => Date.decimal n
  | JStr s => s
  | _ => format_other v
  end.

Definition prepare_data_summary (df : list RawEvent) (analysis_results : gmap string json)
  : option string :=
  let summary_parts := [ "Total VM Instances: " +:+ Date.decimal (length df) ] in
  summary_parts ←
    match analysis_results !! "descriptive_stats" with
    | Some stats => (fun lines => (summary_parts ++ lines)%list) <$> descriptive_lines stats (length df)
    | None => Some summary_parts
    end;
  summary_parts ←
    match analysis_results !! "utilization_insights" with
    | Some (JDict insights) =>
        let get k := default (JInt 0) (insights !! k) in
        Some (summary_parts ++
          [ newline +:+ "Resource Utilization:";
            "  - Underutilized VMs: " +:+ formatted (get "underutilized_vms");
            "  - Overutilized VMs: " +:+ formatted (get "overutilized_vms");
            "  - Well-utilized VMs: " +:+ formatted (get "well_utilized_vms") ])%list
    | Some _ => None
    | None => Some summary_parts
    end;
  summary_parts ←
    match analysis_results !! "anomalies" with
    | Some (JDict anomalies) =>
        let total := default (JInt 0) (anomalies !! "total_anomalies") in
        positive ← greater_than_zero total;
        if positive : bool then
          let summary_parts :=
            (summary_parts ++ [ newline +:+ "Anomalies Detected: " +:+ formatted total ])%list in
          match anomalies !! "anomaly_types" with
          | Some types =>
              (fun joined => (summary_parts ++ [ "  Types: " +:+ joined ])%list) <$> joined_types types
          | None => Some summary_parts
          end
        else Some summary_parts
    | Some _ => None
    | None => Some summary_parts
    end;
  let summary_parts :=
    if bool_decide ("cost_usd_sum" ∈ raw_columns) && bool_decide ("vm_instance_id" ∈ raw_columns)
    then (summary_parts ++ (newline +:+ "Top 3 Costly VMs:") :: top_costly_lines df)%list
    else summary_parts in
  Some (Text.join newline summary_parts).

End Summary.

(** A statistic in gigabytes against the one in bytes: both missing, or
    the first is the second divided by 2^30. *)
Definition in_gigabytes (gb_value bytes_value : option Q) : Prop :=
  match gb_value, bytes_value with
  | Some g, Some b => g == b / 2 ^ 30
  | None, None => True
  | _, _ => False
  end.

(** ** Byte counts in the exact range

    The model adds byte counts as exact rationals.  The source holds a byte
    column as int64 when every cell is an integer, and its sums then wrap
    at 2^63; otherwise as float64, whose sums round beyond 2^53.  Where the
    values are integers whose magnitudes add up to at most 2^53, no sum
    formed from them wraps or rounds, and the model and the source agree. *)

Definition whole (v : Q) : Prop := exists z : Z, v = inject_Z z.

Definition byte_columns : list (RawEvent -> option Q) :=
  [ disk_read_bytes; disk_write_bytes; ingress_bytes; egress_bytes ].

Definition bytes_exact (df : list RawEvent) : Prop :=
  (forall f v, f ∈ byte_columns -> v ∈ Series.dropna (map f df) -> whole v) /\
  Series.sum (map (fun f => Series.sum (map Qabs (Series.dropna (map f df)))) byte_columns)
    <= 2 ^ 53.

(** [lo] and [hi] are the extremes of the values [l]: both are among them
    and every value lies between them; or there is no value and no
    extreme. *)
Definition extremes (lo hi : option Q) (l : list Q) : Prop :=
  match lo, hi with
  | Some a, Some b => a ∈ l /\ b ∈ l /\ Forall (fun v => a <= v <= b) l
  | None, None => l = []
  | _, _ => False
  end.

(** * Properties *)

(** ** SKU classification *)

Lemma starts_with_lower (pat s : string) :
  Str.lower pat = pat ->
  Str.starts_with pat (Str.lower s) = Str.starts_with_ci pat s.
Proof.
  revert s. induction pat as [|a p IH]; intros s Hp; [reflexivity|].
  simpl in Hp. injection Hp as Ha Hp.
  destruct s as [|b t]; simpl; [reflexivity|].
  unfold Str.eqb_ci. rewrite Ha, IH by assumption. reflexivity.
Qed.

Lemma contains_lower (pat s : string) :
  Str.lower pat = pat ->
  Str.contains pat (Str.lower s) = Str.contains_ci pat s.
Proof.
  intros Hp. induction s as [|b t IH].
  - simpl. rewrite <- (starts_with_lower pat EmptyString Hp). reflexivity.
  - cbn [Str.contains Str.contains_ci].
    rewrite <- IH, <- (starts_with_lower pat (String b t) Hp). reflexivity.
Qed.

(** C2. [categorize_sku] is total and agrees with the priority list of
    case-insensitive substring rules: it returns exactly one of the six
    categories, the one of the first rule that fires, and [Other] when none
    does. *)
Theorem categorize_sku_total_first_match (sku_description : string) :
  categorize_sku sku_description = categorize_sku_spec sku_description /\
  categorize_sku sku_description ∈ sku_categories /\
  NoDup sku_categories.
Proof.
  split; [|split].
  - unfold categorize_sku, categorize_sku_spec, sku_rules, first_match, rule_fires.
    cbn [existsb List.forallb].
    rewrite !contains_lower by reflexivity.
    rewrite !andb_true_r, !orb_false_r. reflexivity.
  - unfold categorize_sku, sku_categories.
    repeat match goal with |- context [if ?b then _ else _] => destruct b end;
      set_solver.
  - unfold sku_categories. compute_done.
Qed.

(** ** Sorting and distinct values *)

Lemma insert_sorted_perm {A} (le : A -> A -> bool) (x : A) (l : list A) :
  insert_sorted le x l ≡ₚ x :: l.
Proof.
  induction l as [|y t IH]; simpl; [done|].
  destruct (le x y); [done|]. rewrite IH. apply perm_swap.
Qed.

Lemma sort_perm {A} (le : A -> A -> bool) (l : list A) : sort le l ≡ₚ l.
Proof.
  induction l as [|x t IH]; simpl; [done|].
  rewrite insert_sorted_perm. by rewrite IH.
Qed.

Lemma insert_sorted_Forall {A} (le : A -> A -> bool) (P : A -> Prop) (x : A) (l : list A) :
  P x -> Forall P l -> Forall P (insert_sorted le x l).
Proof.
  intros Hx Hl. induction Hl as [|y t Hy Ht IH]; simpl; [by repeat constructor|].
  destruct (le x y); by repeat constructor.
Qed.

Lemma insert_sorted_sorted {A} (le : A -> A -> bool) (x : A) (l : list A) :
  (forall a b, le a b = true \/ le b a = true) ->
  (forall a b c, le a b = true -> le b c = true -> le a c = true) ->
  StronglySorted (fun a b => le a b = true) l ->
  StronglySorted (fun a b => le a b = true) (insert_sorted le x l).
Proof.
  intros Htot Htrans. induction 1 as [|y t Hs IH Hy]; simpl.
  - repeat constructor.
  - destruct (le x y) eqn:Hxy.
    + constructor; [by constructor|]. constructor; [done|].
      eapply Forall_impl; [exact Hy|]. intros z Hz. by eapply Htrans.
    + constructor; [done|]. apply insert_sorted_Forall; [|done].
      destruct (Htot y x); [done|congruence].
Qed.

Lemma sort_sorted {A} (le : A -> A -> bool) (l : list A) :
  (forall a b, le a b = true \/ le b a = true) ->
  (forall a b c, le a b = true -> le b c = true -> le a c = true) ->
  StronglySorted (fun a b => le a b = true) (sort le l).
Proof.
  intros Htot Htrans. induction l as [|x t IH]; simpl; [constructor|].
  by apply insert_sorted_sorted.
Qed.

Lemma elem_of_filter_bool {A} (p : A -> bool) (x : A) (l : list A) :
  x ∈ List.filter p l <-> x ∈ l /\ p x = true.
Proof. rewrite !list_elem_of_In. apply filter_In. Qed.

Lemma NoDup_filter_bool {A} (p : A -> bool) (l : list A) :
  NoDup l -> NoDup (List.filter p l).
Proof. rewrite !NoDup_ListNoDup. apply List.NoDup_filter. Qed.

Lemma elem_of_unique {A} `{EqDecision A} (x : A) (l : list A) :
  x ∈ unique l <-> x ∈ l.
Proof.
  induction l as [|y t IH]; simpl; [done|].
  rewrite !elem_of_cons, elem_of_filter_bool, IH.
  destruct (decide (x = y)) as [->|Hne]; [tauto|].
  rewrite negb_true_iff, bool_decide_eq_false. tauto.
Qed.

Lemma NoDup_unique {A} `{EqDecision A} (l : list A) : NoDup (unique l).
Proof.
  induction l as [|y t IH]; simpl; [constructor|].
  constructor; [|by apply NoDup_filter_bool].
  rewrite elem_of_filter_bool, negb_true_iff, bool_decide_eq_false. tauto.
Qed.

(** ** Dates print injectively *)

Lemma decimal_value_decimal (n : nat) : decimal_value (Date.decimal n) = Some n.
Proof.
  unfold decimal_value, Date.decimal. rewrite NilEmpty.usu. simpl.
  by rewrite DecimalNat.Unsigned.of_to.
Qed.

Lemma decimal_value_zero (s : string) :
  decimal_value (String "0" s) = decimal_value s.
Proof.
  unfold decimal_value. simpl.
  destruct (NilEmpty.uint_of_string s); reflexivity.
Qed.

Lemma decimal_value_pad (w n : nat) :
  decimal_value (Date.pad w (Date.decimal n)) = Some n.
Proof.
  unfold Date.pad. induction (w - _)%nat as [|k IH]; simpl.
  - apply decimal_value_decimal.
  - by rewrite decimal_value_zero.
Qed.

Lemma digits_string_of_uint (d : Decimal.uint) :
  Str.forallb is_digit (NilEmpty.string_of_uint d) = true.
Proof. induction d; simpl; auto. Qed.

Lemma digits_pad (w n : nat) :
  Str.forallb is_digit (Date.pad w (Date.decimal n)) = true.
Proof.
  unfold Date.pad. induction (w - _)%nat as [|k IH]; simpl; [|done].
  apply digits_string_of_uint.
Qed.

Lemma span_digits_dash (a rest : string) :
  Str.forallb is_digit a = true ->
  Str.span is_digit (a +:+ "-" +:+ rest) = (a, String "-" rest).
Proof.
  induction a as [|c t IH]; simpl; [done|].
  intros [Hc Ht]%andb_true_iff. rewrite Hc, IH by done. done.
Qed.

Lemma date_parse_str (d : Date.t) : date_parse (Date.str d) = Some d.
Proof.
  destruct d as [[y m] dd]. unfold date_parse, Date.str.
  rewrite span_digits_dash by apply digits_pad.
  rewrite span_digits_dash by apply digits_pad.
  rewrite !decimal_value_pad. reflexivity.
Qed.

Lemma date_str_inj (d1 d2 : Date.t) : Date.str d1 = Date.str d2 -> d1 = d2.
Proof.
  intros H. apply (f_equal date_parse) in H.
  rewrite !date_parse_str in H. congruence.
Qed.

(** ** Grouping *)

Lemma printed_key_inj (k1 k2 : GroupKey) : printed_key k1 = printed_key k2 -> k1 = k2.
Proof.
  destruct k1 as [[[d1 i1] p1] z1], k2 as [[[d2 i2] p2] z2]. simpl.
  intros [= Hd -> -> ->]. by rewrite (date_str_inj _ _ Hd).
Qed.

Lemma aggregate_key (k : GroupKey) (g : list RawEvent) (r : AggregateRecord) :
  aggregate k g = Some r -> record_key r = printed_key k.
Proof.
  destruct k as [[[d i] p] z]. unfold aggregate.
  destruct (most_common _); [|done]. by intros [= <-].
Qed.

Lemma groupby_keys (df : list RawEvent) :
  groupby df = map (fun k => (k, group_rows df k)) (group_keys df).
Proof. reflexivity. Qed.

Lemma NoDup_group_keys (df : list RawEvent) : NoDup (group_keys df).
Proof. unfold group_keys. rewrite sort_perm. apply NoDup_unique. Qed.

Lemma elem_of_group_keys (df : list RawEvent) (k : GroupKey) :
  k ∈ group_keys df <-> exists e, e ∈ df /\ group_key e = k.
Proof.
  unfold group_keys. rewrite sort_perm, elem_of_unique, list_elem_of_fmap.
  split; [intros (e & -> & He) | intros (e & He & <-)]; eauto.
Qed.

(** The rows built from a list of keys. *)
Lemma daily_keys (df : list RawEvent) (ks : list GroupKey) (key : _) :
  key ∈ map record_key
          (omap (fun '(k, g) => aggregate k g) (map (fun k => (k, group_rows df k)) ks)) ->
  exists k, k ∈ ks /\ key = printed_key k.
Proof.
  induction ks as [|k ks IH]; simpl; [by intros ?%elem_of_nil|].
  destruct (aggregate k (group_rows df k)) as [r|] eqn:Hr; simpl.
  - rewrite elem_of_cons. intros [->|H].
    + exists k. split; [left|]. by apply aggregate_key in Hr.
    + destruct (IH H) as (k' & ? & ?). exists k'. split; [by right|done].
  - intros H. destruct (IH H) as (k' & ? & ?). exists k'. split; [by right|done].
Qed.

Lemma NoDup_daily (df : list RawEvent) (ks : list GroupKey) :
  NoDup ks ->
  NoDup (map record_key
          (omap (fun '(k, g) => aggregate k g) (map (fun k => (k, group_rows df k)) ks))).
Proof.
  induction 1 as [|k ks Hk Hks IH]; simpl; [constructor|].
  destruct (aggregate k (group_rows df k)) as [r|] eqn:Hr; simpl; [|done].
  constructor; [|done].
  intros (k' & Hk' & Heq)%daily_keys.
  rewrite (aggregate_key _ _ _ Hr) in Heq.
  apply printed_key_inj in Heq. by subst.
Qed.

(** C1. No two records returned by [preprocess_vm_data] share the same
    (date, instance_id, project_id, zone): the grouping key identifies an
    output record. *)
Theorem preprocess_keys_unique (df : list RawEvent) :
  NoDup (map record_key (preprocess_vm_data df)).
Proof.
  unfold preprocess_vm_data. rewrite sort_perm, groupby_keys.
  apply NoDup_daily, NoDup_group_keys.
Qed.

(** ** Extraction of the path segments *)

Lemma drop_prefix_app (pat s rest : string) :
  Str.drop_prefix pat s = Some rest -> s = pat +:+ rest.
Proof.
  revert s. induction pat as [|a p IH]; intros s; simpl.
  - by intros [= ->].
  - destruct s as [|b t]; [done|].
    destruct (Ascii.eqb_spec a b) as [->|]; [|done].
    intros H. by rewrite (IH _ H).
Qed.

Lemma span_app (p : ascii -> bool) (s a b : string) :
  Str.span p s = (a, b) -> s = a +:+ b /\ Str.forallb p a = true.
Proof.
  revert a b. induction s as [|c t IH]; intros a b; simpl.
  - by intros [= <- <-].
  - destruct (p c) eqn:Hc.
    + destruct (Str.span p t) as [a' b'] eqn:Hs. intros [= <- <-].
      destruct (IH _ _ eq_refl) as [-> Ha]. simpl. by rewrite Hc, Ha.
    + by intros [= <- <-].
Qed.

Lemma search_sound (m : string -> option string) (s g : string) :
  search m s = Some g -> exists pre suf, s = pre +:+ suf /\ m suf = Some g.
Proof.
  induction s as [|c t IH]; simpl.
  - destruct (m EmptyString) eqn:Hm; [|done]. intros [= ->]. by exists EmptyString, EmptyString.
  - destruct (m (String c t)) eqn:Hm.
    + intros [= ->]. by exists EmptyString, (String c t).
    + intros (pre & suf & -> & Hs)%IH. by exists (String c pre), suf.
Qed.

Lemma match_instance_at_sound (s g : string) :
  match_instance_at s = Some g ->
  (exists d rest, s = "/instances/" +:+ String d rest /\ is_digit d = true) /\
  g <> EmptyString /\ Str.forallb is_digit g = true.
Proof.
  unfold match_instance_at.
  destruct (Str.drop_prefix _ s) as [rest|] eqn:Hp; [|done].
  apply drop_prefix_app in Hp as ->.
  destruct (Str.span is_digit rest) as [a b] eqn:Hs.
  destruct (span_app _ _ _ _ Hs) as [-> Ha]. simpl.
  destruct a as [|d a']; [done|]. intros [= <-].
  simpl in Ha. apply andb_true_iff in Ha as [Hd Ha].
  split; [|split; [done | simpl; by rewrite Hd, Ha]].
  by exists d, (a' +:+ b).
Qed.

Lemma starts_with_slash (s : string) :
  Str.starts_with "/" s = true -> exists rest, s = "/" +:+ rest.
Proof.
  destruct s as [|c t]; cbn [Str.starts_with]; [done|].
  rewrite andb_true_r. intros <-%Ascii.eqb_eq. by exists t.
Qed.

Lemma match_segment_at_sound (prefix s g : string) :
  match_segment_at prefix s = Some g ->
  exists rest, s = prefix +:+ g +:+ "/" +:+ rest /\
               g <> EmptyString /\ Str.forallb not_slash g = true.
Proof.
  unfold match_segment_at.
  destruct (Str.drop_prefix _ s) as [rest|] eqn:Hp; [|done].
  apply drop_prefix_app in Hp as ->.
  destruct (Str.span not_slash rest) as [a b] eqn:Hs.
  destruct (span_app _ _ _ _ Hs) as [-> Ha].
  destruct a as [|d a']; [done|].
  destruct (Str.starts_with "/" b) eqn:Hb; [|done]. intros [= <-].
  apply starts_with_slash in Hb as [rest' ->]. by exists rest'.
Qed.

Lemma extract_instance_id_match (name g : string) :
  extract_instance_id name = Some g ->
  has_instance_match name /\ g <> EmptyString /\ Str.forallb is_digit g = true.
Proof.
  intros (pre & suf & -> & Hm)%search_sound.
  apply match_instance_at_sound in Hm as [(d & rest & -> & Hd) Hg].
  split; [|done]. by exists pre, d, rest.
Qed.

Lemma extract_segment_match (prefix name g : string) :
  search (match_segment_at prefix) name = Some g -> has_segment_match prefix name.
Proof.
  intros (pre & suf & -> & Hm)%search_sound.
  apply match_segment_at_sound in Hm as (rest & -> & Hg & Hs).
  by exists pre, g, rest.
Qed.

(** Every group that [groupby] builds has a row. *)
Lemma most_common_nonempty (x : list string) : x <> [] -> is_Some (most_common x).
Proof.
  unfold most_common. destruct (mode x); [|by eauto].
  destruct x; [done|]. by eauto.
Qed.

Lemma aggregate_nonempty (k : GroupKey) (g : list RawEvent) :
  g <> [] -> is_Some (aggregate k g).
Proof.
  intros Hg. destruct k as [[[d i] p] z]. unfold aggregate.
  destruct (most_common_nonempty (map sku_category g)) as [cat ->]; [|by eauto].
  by destruct g.
Qed.

Lemma elem_of_group_rows (df : list RawEvent) (k : GroupKey) (e : RawEvent) :
  e ∈ group_rows df k <-> e ∈ df /\ group_key e = k.
Proof.
  unfold group_rows. rewrite elem_of_filter_bool, bool_decide_eq_true. done.
Qed.

Lemma group_rows_nonempty (df : list RawEvent) (e : RawEvent) :
  e ∈ df -> group_rows df (group_key e) <> [].
Proof.
  intros He Hnil.
  assert (e ∈ group_rows df (group_key e)) as H by by apply elem_of_group_rows.
  rewrite Hnil in H. by apply elem_of_nil in H.
Qed.

Lemma daily_complete (df : list RawEvent) (ks : list GroupKey) (k : GroupKey) (r : AggregateRecord) :
  k ∈ ks -> aggregate k (group_rows df k) = Some r ->
  r ∈ omap (fun '(k, g) => aggregate k g) (map (fun k => (k, group_rows df k)) ks).
Proof.
  intros Hk Hr. apply list_elem_of_omap. exists (k, group_rows df k).
  split; [|done]. apply list_elem_of_fmap. by exists k.
Qed.

(** Every input row has its group in the output. *)
Lemma preprocess_row_represented (df : list RawEvent) (e : RawEvent) :
  e ∈ df ->
  exists r, r ∈ preprocess_vm_data df /\ record_key r = printed_key (group_key e).
Proof.
  intros He.
  destruct (aggregate_nonempty (group_key e) (group_rows df (group_key e)))
    as [r Hr]; [by apply group_rows_nonempty|].
  exists r. split.
  - unfold preprocess_vm_data. rewrite sort_perm, groupby_keys.
    apply (daily_complete df _ (group_key e)); [|done].
    apply elem_of_group_keys. by exists e.
  - by apply (aggregate_key _ (group_rows df (group_key e))).
Qed.

(** C7. A row whose [resource_global_name] does not match an extraction
    pattern gets a missing value for that field, and the row is still
    represented in the output: its group, keyed by the missing value, is
    kept. *)
Theorem unmatched_fields_missing_rows_kept (df : list RawEvent) (e : RawEvent) :
  e ∈ df ->
  (~ has_instance_match (resource_global_name e) -> instance_id e = None) /\
  (forall g, instance_id e = Some g -> g <> EmptyString /\ Str.forallb is_digit g = true) /\
  (~ has_segment_match "/zones/" (resource_global_name e) -> zone e = None) /\
  (~ has_segment_match "/projects/" (resource_global_name e) -> project_id e = None) /\
  exists r, r ∈ preprocess_vm_data df /\
            record_key r = (Date.str (date e), instance_id e, project_id e, zone e).
Proof.
  intros He. split; [|split; [|split; [|split]]].
  - intros Hno. destruct (instance_id e) as [g|] eqn:Hg; [|done].
    by apply extract_instance_id_match in Hg as [? _].
  - intros g Hg. by apply extract_instance_id_match in Hg as [_ ?].
  - intros Hno. destruct (zone e) as [g|] eqn:Hg; [|done].
    by apply extract_segment_match in Hg.
  - intros Hno. destruct (project_id e) as [g|] eqn:Hg; [|done].
    by apply extract_segment_match in Hg.
  - by apply preprocess_row_represented.
Qed.

Lemma unmatched_fields_missing_rows_kept_witness :
  instance_id pathless_reading = None /\
  zone pathless_reading = None /\
  project_id pathless_reading = None /\
  exists r, r ∈ preprocess_vm_data pathless_batch /\
            record_key r = ("2024-01-01", None, None, None).
Proof.
  destruct (unmatched_fields_missing_rows_kept pathless_batch pathless_reading)
    as (_ & _ & _ & _ & r & Hr & Hk); [left|].
  repeat split; [reflexivity..|]. exists r. split; [exact Hr | exact Hk].
Defined.

(** ** Conservation of cost *)

Lemma sum_zero {A} (l : list A) : Series.sum (map (fun _ => 0) l) == 0.
Proof. induction l as [|x t IH]; simpl; [reflexivity|]. rewrite IH. lra. Qed.

Lemma sum_map_add {A} (a b : A -> Q) (l : list A) :
  Series.sum (map (fun k => a k + b k) l) == Series.sum (map a l) + Series.sum (map b l).
Proof. induction l as [|x t IH]; simpl; [lra|]. rewrite IH. lra. Qed.

Lemma sum_map_ext {A} (a b : A -> Q) (l : list A) :
  (forall k, k ∈ l -> a k == b k) ->
  Series.sum (map a l) == Series.sum (map b l).
Proof.
  induction l as [|x t IH]; intros H; simpl; [reflexivity|].
  rewrite IH, (H x) by (intros; try apply H; set_solver). reflexivity.
Qed.

Lemma sum_perm (l1 l2 : list Q) : l1 ≡ₚ l2 -> Series.sum l1 == Series.sum l2.
Proof.
  induction 1 as [|x l1 l2 _ IH|x y l|l1 l2 l3 _ IH1 _ IH2]; simpl;
    [reflexivity | rewrite IH; reflexivity | lra | by rewrite IH1].
Qed.

(** What the keys receive from one row: its value, once. *)
Lemma sum_indicator {K} `{EqDecision K} (k0 : K) (q : Q) (ks : list K) :
  NoDup ks -> k0 ∈ ks ->
  Series.sum (map (fun k => if bool_decide (k0 = k) then q else 0) ks) == q.
Proof.
  induction 1 as [|k ks Hk Hks IH]; [by intros ?%elem_of_nil|].
  intros [->|Hin]%elem_of_cons; simpl.
  - rewrite bool_decide_eq_true_2 by done.
    rewrite (sum_map_ext _ (fun _ => 0)), sum_zero; [lra|].
    intros k' Hk'. rewrite bool_decide_eq_false_2; [reflexivity|]. by intros <-.
  - rewrite bool_decide_eq_false_2 by (by intros <-). rewrite IH by done. lra.
Qed.

Lemma sum_dropna_cons (x : option Q) (l : list (option Q)) :
  Series.sum (Series.dropna (x :: l)) == cell_value x + Series.sum (Series.dropna l).
Proof. destruct x; simpl; [reflexivity | lra]. Qed.

Lemma sum_group_rows_cons (f : RawEvent -> option Q) (e : RawEvent) (t : list RawEvent) (k : GroupKey) :
  Series.sum (Series.dropna (map f (group_rows (e :: t) k))) ==
  (if bool_decide (group_key e = k) then cell_value (f e) else 0) +
  Series.sum (Series.dropna (map f (group_rows t k))).
Proof.
  unfold group_rows. simpl. destruct (bool_decide (group_key e = k)).
  - cbn [map]. apply sum_dropna_cons.
  - lra.
Qed.

(** Summing a column group by group gives its sum over the batch. *)
Lemma sum_by_group (f : RawEvent -> option Q) (ks : list GroupKey) (df : list RawEvent) :
  NoDup ks -> (forall e, e ∈ df -> group_key e ∈ ks) ->
  Series.sum (map (fun k => Series.sum (Series.dropna (map f (group_rows df k)))) ks) ==
  Series.sum (Series.dropna (map f df)).
Proof.
  intros Hnd. induction df as [|e t IH]; intros Hks.
  - apply sum_zero.
  - rewrite (sum_map_ext _ _ _ (fun k _ => sum_group_rows_cons f e t k)).
    rewrite sum_map_add, sum_indicator by (try done; apply Hks; left).
    rewrite IH by (intros; apply Hks; by right).
    cbn [map]. by rewrite sum_dropna_cons.
Qed.

Lemma aggregate_cost (k : GroupKey) (g : list RawEvent) (r : AggregateRecord) :
  aggregate k g = Some r ->
  cost_usd_sum r = Series.sum (Series.dropna (map cost_usd g)).
Proof.
  destruct k as [[[d i] p] z]. unfold aggregate.
  destruct (most_common _); [|done]. by intros [= <-].
Qed.

Lemma daily_cost (df : list RawEvent) (ks : list GroupKey) :
  (forall k, k ∈ ks -> group_rows df k <> []) ->
  map cost_usd_sum
    (omap (fun '(k, g) => aggregate k g) (map (fun k => (k, group_rows df k)) ks)) =
  map (fun k => Series.sum (Series.dropna (map cost_usd (group_rows df k)))) ks.
Proof.
  induction ks as [|k ks IH]; intros H; simpl; [done|].
  destruct (aggregate_nonempty k (group_rows df k)) as [r Hr]; [apply H; left|].
  rewrite Hr. simpl. f_equal; [by apply (aggregate_cost k)|].
  apply IH. intros; apply H; by right.
Qed.

(** C5. Aggregation conserves cost: the [cost_usd_sum] of the output
    records add up to the [cost_usd] of the input events (missing costs
    skipped on both sides), in exact arithmetic. *)
Theorem cost_conserved (df : list RawEvent) :
  Series.sum (map cost_usd_sum (preprocess_vm_data df)) ==
  Series.sum (Series.dropna (map cost_usd df)).
Proof.
  unfold preprocess_vm_data.
  rewrite (sum_perm _ _ (Permutation_map cost_usd_sum (sort_perm daily_leb _))).
  rewrite groupby_keys, daily_cost.
  - apply sum_by_group; [apply NoDup_group_keys|].
    intros e He. apply elem_of_group_keys. by exists e.
  - intros k (e & He & <-)%elem_of_group_keys. by apply group_rows_nonempty.
Qed.

(** ** The most common category *)

Lemma string_leb_refl (a : string) : String.leb a a = true.
Proof. by destruct (String.leb_total a a). Qed.

Lemma string_leb_trans (a b c : string) :
  String.leb a b = true -> String.leb b c = true -> String.leb a c = true.
Proof.
  unfold String.leb. revert b c.
  induction a as [|x a IH]; intros [|y b] [|z c]; simpl; try done.
  unfold Ascii.compare.
  destruct (N.compare_spec (N_of_ascii x) (N_of_ascii y)) as [Hxy|Hxy|Hxy];
    destruct (N.compare_spec (N_of_ascii y) (N_of_ascii z)) as [Hyz|Hyz|Hyz];
    destruct (N.compare_spec (N_of_ascii x) (N_of_ascii z)) as [Hxz|Hxz|Hxz];
    try done; try lia.
  apply IH.
Qed.

(** The head of a sorted list is below every element. *)
Lemma sort_head_least {A} (le : A -> A -> bool) (l : list A) (h : A) (r : list A) :
  (forall a b, le a b = true \/ le b a = true) ->
  (forall a b c, le a b = true -> le b c = true -> le a c = true) ->
  sort le l = h :: r -> forall c, c ∈ l -> le h c = true.
Proof.
  intros Htot Htrans. revert h r.
  induction l as [|x t IH]; intros h r; simpl; [done|].
  destruct (sort le t) as [|h' r'] eqn:Hs; simpl.
  - intros [= <- <-] c. pose proof (sort_perm le t) as Hp. rewrite Hs in Hp.
    apply Permutation_nil in Hp as ->.
    intros Hc. apply list_elem_of_singleton in Hc. subst c. by destruct (Htot x x).
  - destruct (le x h') eqn:Hx; intros [= <- <-] c [->|Hc]%elem_of_cons.
    + by destruct (Htot x x).
    + eapply Htrans; [done|]. by eapply IH.
    + destruct (Htot h' x) as [|Hc]; [done|congruence].
    + by eapply IH.
Qed.

Lemma max_count_bound (f : string -> nat) (l : list string) (c : string) :
  c ∈ l -> (f c <= foldr Nat.max 0 (map f l))%nat.
Proof.
  induction l as [|x t IH]; [by intros ?%elem_of_nil|].
  intros [->|Hc]%elem_of_cons; simpl; [lia|]. specialize (IH Hc). lia.
Qed.

Lemma max_count_attained (f : string -> nat) (l : list string) :
  l <> [] -> exists c, c ∈ l /\ f c = foldr Nat.max 0%nat (map f l).
Proof.
  induction l as [|x t IH]; [done|]. intros _. simpl.
  destruct t as [|y t'].
  - exists x. split; [left|]. simpl. lia.
  - destruct IH as (c & Hc & Hfc); [done|].
    destruct (Nat.max_spec (f x) (foldr Nat.max 0%nat (map f (y :: t')))) as [[_ ->]|[_ ->]].
    + exists c. split; [by right|done].
    + exists x. split; [left|done].
Qed.

Lemma elem_of_mode (x : list string) (v : string) :
  v ∈ mode x <-> v ∈ x /\ occurrences v x = best_count x.
Proof.
  unfold mode. rewrite sort_perm, elem_of_filter_bool, elem_of_unique, Nat.eqb_eq.
  done.
Qed.

Lemma most_common_smallest_mode (x : list string) (m : string) :
  x <> [] -> most_common x = Some m -> smallest_mode m x.
Proof.
  intros Hx. unfold most_common.
  destruct (mode x) as [|h r] eqn:Hm.
  - destruct (max_count_attained (fun v => occurrences v x) x Hx) as (c & Hc & Hbest).
    assert (c ∈ mode x) as Hin by by apply elem_of_mode.
    rewrite Hm in Hin. by apply elem_of_nil in Hin.
  - intros [= <-].
    assert (h ∈ mode x) as [Hh Hbest]%elem_of_mode by (rewrite Hm; left).
    split; [done|split].
    + intros c Hc. rewrite Hbest.
      by apply (max_count_bound (fun v => occurrences v x)).
    + intros c Hc Heq. unfold mode in Hm.
      eapply (sort_head_least _ _ _ _ String.leb_total string_leb_trans Hm).
      apply elem_of_filter_bool. rewrite elem_of_unique, Nat.eqb_eq.
      split; [done|]. by rewrite Heq.
Qed.

Lemma aggregate_category (k : GroupKey) (g : list RawEvent) (r : AggregateRecord) :
  aggregate k g = Some r ->
  most_common (map sku_category g) = Some (agg_sku_category r).
Proof.
  destruct k as [[[d i] p] z]. unfold aggregate.
  destruct (most_common _); [|done]. by intros [= <-].
Qed.

(** The group an output record comes from. *)
Lemma preprocess_record_group (df : list RawEvent) (r : AggregateRecord) :
  r ∈ preprocess_vm_data df ->
  exists k, k ∈ group_keys df /\ group_rows df k <> [] /\
            aggregate k (group_rows df k) = Some r.
Proof.
  unfold preprocess_vm_data. rewrite sort_perm, groupby_keys.
  intros ([k g] & Hin & Hr)%list_elem_of_omap.
  apply list_elem_of_fmap in Hin as (k' & [= -> ->] & Hk').
  exists k'. split; [done|split; [|done]].
  apply elem_of_group_keys in Hk' as (e & He & <-). by apply group_rows_nonempty.
Qed.

(** C4, as the code has it.  The [sku_category] of an output record is a
    most frequent category of its group; when several are tied, it is the
    smallest of them in string order ([Series.mode] returns the modes
    sorted). *)
Theorem sku_category_is_smallest_mode (df : list RawEvent) (r : AggregateRecord) :
  r ∈ preprocess_vm_data df ->
  exists k, k ∈ group_keys df /\ record_key r = printed_key k /\
            smallest_mode (agg_sku_category r) (map sku_category (group_rows df k)).
Proof.
  intros (k & Hk & Hne & Hr)%preprocess_record_group.
  exists k. split; [done|split; [by apply (aggregate_key k (group_rows df k))|]].
  apply most_common_smallest_mode; [|by apply (aggregate_category k)].
  by destruct (group_rows df k).
Qed.

(** On a tie the first category met is not the one kept: the group of
    [tie_batch] meets [Storage] first and is given [Other]. *)
Lemma sku_category_tie_not_first_encountered :
  ~ (forall r k,
       r ∈ preprocess_vm_data tie_batch -> k ∈ group_keys tie_batch ->
       record_key r = printed_key k ->
       first_encountered_mode (map sku_category (group_rows tie_batch k))
       = Some (agg_sku_category r)).
Proof.
  intros H.
  destruct (preprocess_vm_data tie_batch) as [|r l] eqn:E; [by vm_compute in E|].
  specialize (H r (group_key (reading 1 vm1 (1 # 2) 1 "Licensing Fee"))).
  vm_compute in E. injection E as <- <-.
  assert (Some "Storage" = Some "Other") as [=]. 
  { apply H; [left | vm_compute; left | reflexivity]. }
Qed.

Lemma sku_category_is_smallest_mode_witness :
  match preprocess_vm_data tie_batch with
  | r :: _ =>
      exists k, k ∈ group_keys tie_batch /\ record_key r = printed_key k /\
                smallest_mode (agg_sku_category r)
                  (map sku_category (group_rows tie_batch k))
  | [] => False
  end.
Proof.
  destruct (preprocess_vm_data tie_batch) as [|r l] eqn:E; [by vm_compute in E|].
  apply (sku_category_is_smallest_mode tie_batch r). rewrite E. left.
Defined.

(** ** Cost per CPU *)

(** C6. For an event with [cpu_utilization >= 0] the divisor
    [cpu_utilization + 0.001] is not zero, so [cost_per_cpu] is the finite
    quotient [cost_usd / (cpu_utilization + 0.001)] (and missing exactly
    when the cost is). *)
Theorem cost_per_cpu_finite (e : RawEvent) (cpu : Q) :
  cpu_utilization e = Some cpu -> 0 <= cpu ->
  epsilon == 1 / 1000 /\
  ~ cpu + epsilon == 0 /\
  cost_per_cpu e =
    match cost_usd e with
    | Some cost => Fin (cost / (cpu + epsilon))
    | None => NaN
    end.
Proof.
  intros Hcpu Hpos. unfold cost_per_cpu, epsilon. rewrite Hcpu.
  assert (~ cpu + (1 # 1000) == 0) as Hne by lra.
  split; [reflexivity|split; [done|]].
  destruct (cost_usd e) as [cost|]; simpl; [|done].
  destruct (Qeq_bool (cpu + (1 # 1000)) 0) eqn:Hz; [|done].
  by apply Qeq_bool_iff in Hz.
Qed.

Lemma cost_per_cpu_finite_witness :
  cost_per_cpu (reading 1 vm1 0 1 "Licensing Fee") = Fin (1 / (0 + epsilon)).
Proof.
  apply (cost_per_cpu_finite (reading 1 vm1 0 1 "Licensing Fee") 0); [reflexivity | lra].
Defined.

(** ** Trend labels *)

Lemma Qltb_lt (a b : Q) : Qltb a b = true <-> a < b.
Proof.
  unfold Qltb. rewrite negb_true_iff. split.
  - intros H. apply Qnot_le_lt. intros Hle. apply Qle_bool_iff in Hle. congruence.
  - intros H. destruct (Qle_bool b a) eqn:Hle; [|done].
    apply Qle_bool_iff in Hle. lra.
Qed.

Lemma Qltb_ge (a b : Q) : Qltb a b = false <-> b <= a.
Proof.
  unfold Qltb. rewrite negb_false_iff. apply Qle_bool_iff.
Qed.

(** The label both classifiers give to a finite percent change. *)
Lemma threshold_label (p : Q) :
  (5 < p -> (if Qltb 5 p then "increasing"
             else if Qltb p (-5) then "decreasing" else "stable") = "increasing") /\
  (-5 <= p <= 5 -> (if Qltb 5 p then "increasing"
             else if Qltb p (-5) then "decreasing" else "stable") = "stable") /\
  (p < -5 -> (if Qltb 5 p then "increasing"
             else if Qltb p (-5) then "decreasing" else "stable") = "decreasing").
Proof.
  destruct (Qltb 5 p) eqn:H1; destruct (Qltb p (-5)) eqn:H2;
    try apply Qltb_lt in H1; try apply Qltb_lt in H2;
    try apply Qltb_ge in H1; try apply Qltb_ge in H2;
    repeat split; intros; first [done | lra].
Qed.

Ltac lookup_dict :=
  unfold list_to_map; cbn [foldr fst snd];
  repeat first [rewrite lookup_insert_eq | rewrite lookup_insert_ne by done].

(** C3. Both trend classifiers use strict thresholds.  A percent change
    of exactly +5 or exactly -5 (and anything between) is [stable]; above
    +5, such as +5.01, is [increasing]; below -5 is [decreasing].  This
    holds for the split-halves classifier [get_trend_direction] and for the
    overall first-versus-last-date classifier. *)
Theorem trend_thresholds_strict :
  (forall (df : Table) (metric : AggregateRecord -> fnum) (p : Q),
     halves_pct_change df metric = Some (Fin p) ->
     (5 < p -> get_trend_direction df metric = "increasing") /\
     (-5 <= p <= 5 -> get_trend_direction df metric = "stable") /\
     (p < -5 -> get_trend_direction df metric = "decreasing")) /\
  (forall (first_val last_val : option Q) (entry : gmap string json) (p : Q),
     overall_metric first_val last_val = Some entry ->
     entry !! "percent_change" = Some (JNum (Fin p)) ->
     (5 < p -> entry !! "trend" = Some (JStr "increasing")) /\
     (-5 <= p <= 5 -> entry !! "trend" = Some (JStr "stable")) /\
     (p < -5 -> entry !! "trend" = Some (JStr "decreasing"))).
Proof.
  split.
  - intros df metric p. unfold halves_pct_change, get_trend_direction.
    set (pct_change := F.mul _ (Fin 100)).
    destruct (length df <? 2)%nat; [done|].
    destruct (length (FSeries.dropna (map metric df)) <? 2)%nat; [done|].
    destruct (F.is_zero _); [done|].
    intros [= Hp]. rewrite Hp. cbn [F.ltb]. apply threshold_label.
  - intros [f|] [l|] entry p; unfold overall_metric; try done.
    destruct (negb (Qeq_bool f 0)); [|done].
    intros [= <-]. lookup_dict. intros [= <-].
    destruct (threshold_label ((l - f) / f * 100)) as (Hi & Hs & Hd).
    repeat split; intros; f_equal; f_equal; auto.
Qed.

Lemma trend_thresholds_strict_witness :
  get_trend_direction (preprocess_vm_data (two_days 100 105)) m_cost = "stable" /\
  get_trend_direction (preprocess_vm_data (two_days 10000 10501)) m_cost = "increasing" /\
  get_trend_direction (preprocess_vm_data (two_days 100 95)) m_cost = "stable" /\
  get_trend_direction (preprocess_vm_data (two_days 100 94)) m_cost = "decreasing" /\
  (exists entry, overall_metric (Some 100) (Some 105) = Some entry /\
                 entry !! "trend" = Some (JStr "stable")) /\
  (exists entry, overall_metric (Some 10000) (Some 10501) = Some entry /\
                 entry !! "trend" = Some (JStr "increasing")).
Proof.
  destruct trend_thresholds_strict as [Hhalves Hoverall].
  assert (forall c1 c2 p,
            halves_pct_change (preprocess_vm_data (two_days c1 c2)) m_cost = Some (Fin p) ->
            _) as H by (intros c1 c2 p; exact (Hhalves _ m_cost p)).
  assert (forall f l p entry, overall_metric (Some f) (Some l) = Some entry -> _) as H'
    by (intros f l p entry; exact (Hoverall (Some f) (Some l) entry p)).
  split; [|split; [|split; [|split; [|split]]]].
  - edestruct (H 100 105) as (_ & Hs & _); [vm_compute; reflexivity|].
    apply Hs. split; unfold Qle; simpl; lia.
  - edestruct (H 10000 10501) as (Hi & _ & _); [vm_compute; reflexivity|].
    apply Hi. unfold Qlt; simpl; lia.
  - edestruct (H 100 95) as (_ & Hs & _); [vm_compute; reflexivity|].
    apply Hs. split; unfold Qle; simpl; lia.
  - edestruct (H 100 94) as (_ & _ & Hd); [vm_compute; reflexivity|].
    apply Hd. unfold Qlt; simpl; lia.
  - eexists. split; [reflexivity|].
    edestruct (H' 100 105) as (_ & Hs & _); [reflexivity | reflexivity |].
    apply Hs. split; unfold Qle; simpl; lia.
  - eexists. split; [reflexivity|].
    edestruct (H' 10000 10501) as (Hi & _ & _); [reflexivity | reflexivity |].
    apply Hi. unfold Qlt; simpl; lia.
Defined.

(** ** Dicts filled by a loop over the instances *)

Lemma instance_rows_missing (df : Table) : instance_rows df None = [].
Proof.
  unfold instance_rows. induction df as [|r t IH]; simpl; [done|].
  by destruct (agg_instance_id r).
Qed.

Lemma elem_of_instance_rows (df : Table) (i : string) (r : AggregateRecord) :
  r ∈ instance_rows df (Some i) <-> r ∈ df /\ agg_instance_id r = Some i.
Proof.
  unfold instance_rows. rewrite elem_of_filter_bool.
  destruct (agg_instance_id r) as [j|]; [|by intuition].
  rewrite bool_decide_eq_true. split; (intros [? Hj]; split; [done|congruence]).
Qed.

Lemma instance_rows_absent (df : Table) (i : string) :
  Some i ∉ instances df -> instance_rows df (Some i) = [].
Proof.
  intros Hi. destruct (instance_rows df (Some i)) as [|r t] eqn:Hr; [done|].
  assert (r ∈ instance_rows df (Some i)) as [Hin Hid]%elem_of_instance_rows
    by (rewrite Hr; left).
  destruct Hi. apply elem_of_unique, list_elem_of_fmap. by exists r.
Qed.

(** A loop that stores [g id] under [str(id)] for the ids that have one. *)
Lemma loop_lookup (step : gmap string json -> option string -> gmap string json)
    (g : option string -> option json) (ids : list (option string))
    (acc : gmap string json) (i : string) :
  (forall d id, step d id = match g id with Some v => <[str_of id := v]> d | None => d end) ->
  g None = None -> NoDup ids ->
  foldl step acc ids !! i =
    if decide (Some i ∈ ids) then
      match g (Some i) with Some v => Some v | None => acc !! i end
    else acc !! i.
Proof.
  intros Hstep Hnone Hnd. revert acc.
  induction Hnd as [|id ids Hid Hnd IH]; intros acc; cbn [foldl].
  - by destruct (decide _) as [?%elem_of_nil|].
  - rewrite IH, Hstep.
    destruct (decide (id = Some i)) as [->|Hne].
    + rewrite (decide_False _ _ Hid), decide_True by left.
      destruct (g (Some i)); [by rewrite lookup_insert_eq|done].
    + assert ((match g id with Some v => <[str_of id := v]> acc | None => acc end) !! i
              = acc !! i) as ->.
      { destruct (g id) as [v|] eqn:Hg; [|done]. apply lookup_insert_ne.
        destruct id as [j|]; [|congruence]. simpl. congruence. }
      destruct (decide (Some i ∈ ids)) as [Hin|Hnin].
      * by rewrite decide_True by by right.
      * rewrite decide_False; [done|]. by intros [?|?]%elem_of_cons.
Qed.

(** ** Anomalies *)

Ltac in_list :=
  unfold metrics_to_check;
  solve [repeat first [apply list_elem_of_here | apply list_elem_of_further]].

Lemma instance_anomalies_lookup (rows : Table) (metric : AggregateRecord -> option Q)
    (label : string) :
  (metric, label) ∈ metrics_to_check ->
  instance_anomalies rows !! label = JDict <$> metric_anomalies rows metric.
Proof.
  unfold instance_anomalies. unfold metrics_to_check. cbn [foldl].
  rewrite !elem_of_cons, elem_of_nil.
  intros [[= -> ->]|[[= -> ->]|[[= -> ->]|[[= -> ->]|[]]]]];
    destruct (metric_anomalies rows (fun r => Some (cost_usd_sum r)));
    destruct (metric_anomalies rows cpu_utilization_mean);
    destruct (metric_anomalies rows memory_used_gb_mean);
    destruct (metric_anomalies rows (fun r => Some (network_total_bytes_sum r)));
    repeat first [rewrite lookup_insert_eq | rewrite lookup_insert_ne by done
                 | rewrite lookup_empty];
    reflexivity.
Qed.

Lemma instance_anomalies_empty (rows : Table) :
  size (instance_anomalies rows) = 0%nat <->
  forall metric label, (metric, label) ∈ metrics_to_check -> metric_anomalies rows metric = None.
Proof.
  rewrite map_size_empty_iff. split.
  - intros Hempty metric label Hin.
    pose proof (instance_anomalies_lookup rows metric label Hin) as H.
    rewrite Hempty, lookup_empty in H. by destruct (metric_anomalies rows metric).
  - intros Hnone. apply map_eq. intros label. rewrite lookup_empty.
    unfold instance_anomalies. unfold metrics_to_check. cbn [foldl].
    rewrite (Hnone (fun r => Some (cost_usd_sum r)) "Cost"),
      (Hnone cpu_utilization_mean "CPU Utilization"),
      (Hnone memory_used_gb_mean "Memory Usage"),
      (Hnone (fun r => Some (network_total_bytes_sum r)) "Network Traffic") by in_list.
    apply lookup_empty.
Qed.

Lemma detect_anomalies_lookup (df : Table) (i : string) :
  detect_anomalies df !! i =
    let found := instance_anomalies (instance_rows df (Some i)) in
    if (0 <? size found)%nat then Some (JDict found) else None.
Proof.
  unfold detect_anomalies.
  rewrite (loop_lookup _
    (fun id => let found := instance_anomalies (instance_rows df id) in
               if (0 <? size found)%nat then Some (JDict found) else None)).
  - destruct (decide (Some i ∈ instances df)) as [Hin|Hnin]; simpl.
    + by destruct (0 <? size _)%nat.
    + by rewrite instance_rows_absent.
  - intros d id. simpl. by destruct (0 <? size _)%nat.
  - by rewrite instance_rows_missing.
  - apply NoDup_unique.
Qed.

Lemma reported_anomaly_metric (df : Table) (i : string)
    (metric : AggregateRecord -> option Q) (label : string) :
  (metric, label) ∈ metrics_to_check ->
  reported_anomaly df i label = JDict <$> metric_anomalies (instance_rows df (Some i)) metric.
Proof.
  intros Hin. unfold reported_anomaly. rewrite detect_anomalies_lookup. cbv zeta.
  destruct (0 <? size _)%nat eqn:Hsize.
  - by apply instance_anomalies_lookup.
  - apply Nat.ltb_ge in Hsize.
    assert (size (instance_anomalies (instance_rows df (Some i))) = 0%nat) as Hz by lia.
    by rewrite (proj1 (instance_anomalies_empty _) Hz metric label Hin).
Qed.

Lemma quantile_nonempty (q : Q) (l : list Q) : l <> [] -> is_Some (Series.quantile q l).
Proof. destruct l; [done|]. by eexists. Qed.

Lemma elem_of_outside (metric : AggregateRecord -> option Q) (lo hi : Q)
    (rows : Table) (r : AggregateRecord) :
  r ∈ outside metric lo hi rows <->
  r ∈ rows /\ exists v, metric r = Some v /\ (v < lo \/ hi < v).
Proof.
  unfold outside. rewrite elem_of_filter_bool.
  destruct (metric r) as [v|].
  - rewrite orb_true_iff, !Qltb_lt. split.
    + intros [? ?]. split; [done|]. by exists v.
    + intros [? (v' & [= <-] & ?)]. done.
  - split; [by intros [? ?]|]. by intros [? (v' & [=] & ?)].
Qed.

(** C8. Anomaly detection follows the IQR rule per instance and for each
    of four metrics: the cost sum (entry [Cost]), the CPU mean
    ([CPU Utilization]), the memory mean ([Memory Usage]) and the network
    total sum ([Network Traffic]).  With more than three observations the
    bounds are [Q1 - 1.5 IQR, Q3 + 1.5 IQR]; the rows strictly outside are
    reported with their count, dates, values and the bounds.  With fewer
    than four observations, or nothing outside, the metric has no entry; an
    instance without an entry for any of the four is not in the report. *)
Theorem anomalies_follow_iqr_rule (df : Table) (i : string)
    (metric : AggregateRecord -> option Q) (label : string) :
  (metric, label) ∈
    [ (fun r => Some (cost_usd_sum r), "Cost");
      (cpu_utilization_mean, "CPU Utilization");
      (memory_used_gb_mean, "Memory Usage");
      (fun r => Some (network_total_bytes_sum r), "Network Traffic") ] ->
  let rows := instance_rows df (Some i) in
  let obs := Series.dropna (map metric rows) in
  (forall r, r ∈ rows <-> r ∈ df /\ agg_instance_id r = Some i) /\
  ((3 < length obs)%nat ->
     exists Q1 Q3,
       Series.quantile (1 # 4) obs = Some Q1 /\
       Series.quantile (3 # 4) obs = Some Q3 /\
       let IQR := Q3 - Q1 in
       let lower_bound := Q1 - (15 # 10) * IQR in
       let upper_bound := Q3 + (15 # 10) * IQR in
       let flagged := outside metric lower_bound upper_bound rows in
       (forall r, r ∈ flagged <->
          r ∈ rows /\ exists v, metric r = Some v /\ (v < lower_bound \/ upper_bound < v)) /\
       (flagged <> [] ->
          reported_anomaly df i label = Some (JDict (list_to_map [
            ("count", JInt (length flagged));
            ("dates", JList (map (fun r => JStr (agg_date r)) flagged));
            ("values", JList (map (fun r => JNum (fnum_of (metric r))) flagged));
            ("lower_bound", JNum (Fin lower_bound));
            ("upper_bound", JNum (Fin upper_bound)) ]))) /\
       (flagged = [] -> reported_anomaly df i label = None)) /\
  ((length obs <= 3)%nat -> reported_anomaly df i label = None) /\
  ((forall label',
      label' ∈ [ "Cost"; "CPU Utilization"; "Memory Usage"; "Network Traffic" ] ->
      reported_anomaly df i label' = None) <->
   detect_anomalies df !! i = None).
Proof.
  intros Hin rows obs.
  change ((metric, label) ∈ metrics_to_check) in Hin.
  pose proof (reported_anomaly_metric df i metric label Hin) as Hrep.
  fold rows in Hrep. unfold metric_anomalies in Hrep. fold obs in Hrep.
  split; [intros r; apply elem_of_instance_rows|]. split; [|split].
  - intros Hlen.
    assert (obs <> []) as Hobs by (intros Hnil; rewrite Hnil in Hlen; simpl in Hlen; lia).
    destruct (quantile_nonempty (1 # 4) obs Hobs) as [Q1 HQ1].
    destruct (quantile_nonempty (3 # 4) obs Hobs) as [Q3 HQ3].
    exists Q1, Q3. split; [done|split; [done|]]. cbv zeta.
    rewrite (proj2 (Nat.ltb_lt _ _) Hlen), HQ1, HQ3 in Hrep. cbv zeta in Hrep.
    split; [intros r; apply elem_of_outside|].
    destruct (outside metric _ _ rows) as [|r0 t] eqn:Hout;
      cbn [length Nat.ltb Nat.leb] in Hrep.
    + split; [done|]. by rewrite Hrep.
    + split; [|done]. by rewrite Hrep.
  - intros Hlen. rewrite Hrep, (proj2 (Nat.ltb_ge _ _) Hlen). done.
  - split.
    + intros Hnone. rewrite detect_anomalies_lookup. cbv zeta.
      assert (size (instance_anomalies (instance_rows df (Some i))) = 0%nat) as ->; [|done].
      apply instance_anomalies_empty. intros m l Hml.
      specialize (Hnone l). rewrite (reported_anomaly_metric df i m l Hml) in Hnone.
      destruct (metric_anomalies _ m); [|done].
      discriminate Hnone. change (l ∈ map snd metrics_to_check).
      apply list_elem_of_fmap. by exists (m, l).
    + intros Hnone label' _. unfold reported_anomaly. by rewrite Hnone.
Qed.

Lemma anomalies_follow_iqr_rule_witness :
  exists lower_bound upper_bound flagged,
    lower_bound == 59 # 8 /\ upper_bound == 115 # 8 /\
    map agg_date flagged = ["2024-01-06"] /\
    map cost_usd_sum flagged = [1000] /\
    reported_anomaly outlier_table "1001" "Cost" = Some (JDict (list_to_map [
      ("count", JInt (length flagged));
      ("dates", JList (map (fun r => JStr (agg_date r)) flagged));
      ("values", JList (map (fun r => JNum (fnum_of (Some (cost_usd_sum r)))) flagged));
      ("lower_bound", JNum (Fin lower_bound));
      ("upper_bound", JNum (Fin upper_bound)) ])).
Proof.
  destruct (anomalies_follow_iqr_rule outlier_table "1001"
              (fun r => Some (cost_usd_sum r)) "Cost")
    as (_ & Hmany & _ & _); [left|].
  destruct Hmany as (Q1 & Q3 & HQ1 & HQ3 & _ & Hrep & _); [vm_compute; lia|].
  vm_compute in HQ1, HQ3. injection HQ1 as <-. injection HQ3 as <-.
  specialize (Hrep ltac:(vm_compute; discriminate)).
  refine (ex_intro _ _ (ex_intro _ _ (ex_intro _ _
            (conj _ (conj _ (conj _ (conj _ Hrep))))))).
  - vm_compute. reflexivity.
  - vm_compute. reflexivity.
  - vm_compute. reflexivity.
  - vm_compute. reflexivity.
Defined.

(** ** Per-instance trends *)

Lemma blocks_lookup_other (instance_df : Table) (blocks : list block)
    (init : gmap string json) (name : string) :
  name ∉ map (fun b : block => b.1.1) blocks ->
  foldl (block_step instance_df) init blocks !! name = init !! name.
Proof.
  revert init. induction blocks as [|[[n m] fs] blocks IH]; intros init; [done|].
  cbn [map foldl fst]. intros [Hn Hrest]%not_elem_of_cons.
  rewrite IH by done. unfold block_step.
  destruct (0 <? _)%nat; [|done]. by apply lookup_insert_ne.
Qed.

Lemma blocks_lookup (instance_df : Table) (blocks : list block)
    (init : gmap string json) (name : string) (metric : AggregateRecord -> fnum)
    (fields : list (string * (list fnum -> json))) :
  NoDup (map (fun b : block => b.1.1) blocks) ->
  (name, metric, fields) ∈ blocks ->
  FSeries.dropna (map metric instance_df) <> [] ->
  foldl (block_step instance_df) init blocks !! name =
  Some (JDict (list_to_map
          (map (fun '(k, f) => (k, f (FSeries.dropna (map metric instance_df)))) fields))).
Proof.
  intros Hnd Hin Hdata. revert init.
  induction blocks as [|[[n m] fs] blocks IH]; intros init;
    [by apply elem_of_nil in Hin|].
  cbn [map fst] in Hnd. apply NoDup_cons in Hnd as [Hn Hnd].
  cbn [foldl]. apply elem_of_cons in Hin as [[= <- <- <-]|Hin].
  - rewrite blocks_lookup_other by done. unfold block_step.
    destruct (FSeries.dropna (map metric instance_df)); [done|].
    cbn [length Nat.ltb Nat.leb]. by rewrite lookup_insert_eq.
  - by apply IH.
Qed.

Lemma blocks_lookup_empty (instance_df : Table) (blocks : list block)
    (init : gmap string json) (name : string) (metric : AggregateRecord -> fnum)
    (fields : list (string * (list fnum -> json))) :
  NoDup (map (fun b : block => b.1.1) blocks) ->
  (name, metric, fields) ∈ blocks ->
  FSeries.dropna (map metric instance_df) = [] ->
  foldl (block_step instance_df) init blocks !! name = init !! name.
Proof.
  intros Hnd Hin Hdata. revert init.
  induction blocks as [|[[n m] fs] blocks IH]; intros init;
    [by apply elem_of_nil in Hin|].
  cbn [map fst] in Hnd. apply NoDup_cons in Hnd as [Hn Hnd].
  cbn [foldl]. apply elem_of_cons in Hin as [[= <- <- <-]|Hin].
  - rewrite blocks_lookup_other by done. unfold block_step. by rewrite Hdata.
  - rewrite IH by done. unfold block_step.
    destruct (0 <? _)%nat; [|done]. apply lookup_insert_ne.
    intros <-. apply Hn. apply list_elem_of_fmap. by exists (n, metric, fields).
Qed.

Lemma trend_blocks_names (instance_df : Table) :
  NoDup (map (fun b : block => b.1.1) (trend_blocks instance_df)).
Proof. cbn. compute_done. Qed.

Lemma field_keys (data : list fnum) (fields : list (string * (list fnum -> json))) :
  map fst (map (fun '(k, f) => (k, f data)) fields) = map fst fields.
Proof. induction fields as [|[k f] t IH]; simpl; [done|]. by rewrite IH. Qed.

Lemma field_lookup (data : list fnum) (fields : list (string * (list fnum -> json)))
    (k : string) (f : list fnum -> json) :
  NoDup (map fst fields) -> (k, f) ∈ fields ->
  (list_to_map (map (fun '(k, f) => (k, f data)) fields) : gmap string json) !! k
  = Some (f data).
Proof.
  intros Hnd Hin. apply elem_of_list_to_map_1.
  - change (NoDup (map fst (map (fun '(k, f) => (k, f data)) fields))).
    by rewrite field_keys.
  - apply list_elem_of_fmap. by exists (k, f).
Qed.

Lemma get_trend_analysis_per_instance (sort_values_date : Table -> Table)
    (df : Table) (i : string) :
  (forall rows, sort_values_date rows ≡ₚ rows) ->
  instance_rows df (Some i) <> [] ->
  per_instance_trends sort_values_date df i
  = Some (JDict (instance_trends (instance_by_date sort_values_date df i))).
Proof.
  intros Hperm Hrows. unfold per_instance_trends, get_trend_analysis. cbv zeta.
  rewrite lookup_insert_eq.
  rewrite (loop_lookup _
    (fun id =>
       let instance_df := sort_values_date (instance_rows df id) in
       if (1 <=? length instance_df)%nat then Some (JDict (instance_trends instance_df))
       else None)).
  - destruct (decide (Some i ∈ instances df)) as [Hin|Hnin].
    + cbv zeta. fold (instance_by_date sort_values_date df i).
      assert (length (instance_by_date sort_values_date df i)
              = length (instance_rows df (Some i))) as ->
        by (unfold instance_by_date; by rewrite Hperm).
      destruct (instance_rows df (Some i)); [done|]. done.
    + by apply instance_rows_absent in Hnin.
  - intros d id. cbv zeta. by destruct (1 <=? _)%nat.
  - rewrite instance_rows_missing.
    by rewrite (proj1 (Permutation_nil_r _) (Hperm [])).
  - apply NoDup_unique.
Qed.

Ltac in_fields :=
  solve [repeat first [apply list_elem_of_here | apply list_elem_of_further]].

(** Each of the ten metrics, as the claim lists them, is a block of the
    code on the same column, with the same field names, each field
    computing the statistic the claim names, in gigabytes where it says
    so. *)
Lemma trend_block_of (rows : Table) (name : string) (column : AggregateRecord -> fnum)
    (fields : list (string * statistic * bool)) :
  (name, column, fields) ∈ reported_statistics ->
  exists computed : list (string * (list fnum -> json)),
    (name, column, computed) ∈ trend_blocks rows /\
    map fst computed = map (fun f => f.1.1) fields /\
    NoDup (map fst computed) /\
    forall field s in_gb, (field, s, in_gb) ∈ fields ->
      exists f, (field, f) ∈ computed /\
                forall data, f data = statistic_value s in_gb rows column data.
Proof.
  unfold reported_statistics. rewrite !elem_of_cons, elem_of_nil.
  intros H. repeat destruct H as [H|H]; try done; injection H as -> -> ->;
    (eexists; split; [unfold trend_blocks; in_fields|]);
    (split; [reflexivity|]); (split; [cbn [map fst]; compute_done|]);
    intros field s in_gb; rewrite !elem_of_cons, elem_of_nil;
    intros Hf; repeat destruct Hf as [Hf|Hf]; try done; injection Hf as -> -> ->;
    (eexists; split; [in_fields|]); intros data; reflexivity.
Qed.

(** C9, as the code has it.  For an instance with a row, each of the ten
    metrics of [reported_statistics] has an entry in the per-instance
    trends exactly when its column has a value for the instance, and the
    entry holds the fields listed there and no other, each with the
    statistic named: CPU, memory, cost and uptime come with mean, median,
    min, max and std (cost also with its total); network traffic with
    total, mean, median, min and max, all in gigabytes, but no std; disk
    read and write with total, mean and median in gigabytes; ingress and
    egress with total and mean in gigabytes; cost per CPU with mean,
    median, min and max.  Gigabytes are bytes divided by 2^30, the std is 0
    under two values, and the trend is the label [get_trend_direction]
    gives for the column on the rows of the instance as the library sort
    leaves them. *)
Theorem per_instance_trend_fields (sort_values_date : Table -> Table)
    (df : Table) (i : string) (name : string)
    (column : AggregateRecord -> fnum) (fields : list (string * statistic * bool)) :
  date_sorted sort_values_date ->
  instance_rows df (Some i) <> [] ->
  (name, column, fields) ∈ reported_statistics ->
  let rows := instance_by_date sort_values_date df i in
  let data := FSeries.dropna (map column rows) in
  exists trends,
    per_instance_trends sort_values_date df i = Some (JDict trends) /\
    (data = [] -> trends !! name = None) /\
    (data <> [] ->
       exists entry,
         trends !! name = Some (JDict entry) /\
         dom entry = list_to_set (map (fun f => f.1.1) fields) /\
         forall field s in_gb, (field, s, in_gb) ∈ fields ->
           entry !! field = Some (statistic_value s in_gb rows column data)).
Proof.
  intros Hsort Hrows Hin rows data.
  destruct (trend_block_of rows name column fields Hin)
    as (computed & Hblock & Hnames & Hnd & Hvalues).
  exists (instance_trends rows). split.
  { apply get_trend_analysis_per_instance; [|done]. intros t. apply Hsort. }
  split.
  - intros Hdata. unfold instance_trends.
    rewrite (blocks_lookup_empty rows _ _ name column computed
               (trend_blocks_names rows) Hblock Hdata).
    unfold list_to_map. cbn [foldr fst snd].
    rewrite lookup_insert_ne; [apply lookup_empty|].
    intros <-. revert Hin. unfold reported_statistics.
    rewrite !elem_of_cons, elem_of_nil. intros H. repeat destruct H as [H|H]; done.
  - intros Hdata.
    exists (list_to_map (map (fun '(k, f) => (k, f data)) computed)).
    split; [unfold instance_trends; apply blocks_lookup;
            [apply trend_blocks_names|done..]|].
    split.
    { rewrite dom_list_to_map_L. f_equal.
      change (map fst (map (fun '(k, f) => (k, f data)) computed)
              = map (fun f => f.1.1) fields).
      by rewrite field_keys. }
    intros field s in_gb Hfield.
    destruct (Hvalues field s in_gb Hfield) as (f & Hf & <-).
    by apply field_lookup.
Qed.

(** The ingress entry of an instance with two days of data has a total, a
    mean and the trend label, and nothing else. *)
Lemma per_instance_trend_fields_not_uniform :
  ~ (forall name column fields,
       (name, column, fields) ∈ reported_statistics ->
       FSeries.dropna (map column (instance_by_date stable_by_date two_day_table "1001"))
         <> [] ->
       exists trends entry,
         per_instance_trends stable_by_date two_day_table "1001" = Some (JDict trends) /\
         trends !! name = Some (JDict entry) /\
         full_statistics entry).
Proof.
  assert (instance_rows two_day_table (Some "1001") <> []) as Hrows
    by (vm_compute; discriminate).
  assert (FSeries.dropna (map (fun r => Fin (ingress_bytes_sum r))
            (instance_by_date stable_by_date two_day_table "1001")) <> [])
    as Hdata by (vm_compute; discriminate).
  generalize dependent two_day_table. intros df Hrows Hdata H.
  assert (("network_ingress", (fun r => Fin (ingress_bytes_sum r)),
           [ ("total_gb", Total, true); ("mean_daily_gb", Mean, true);
             ("trend", Trend, false) ])
          ∈ reported_statistics) as Hspec
    by (unfold reported_statistics; in_fields).
  destruct (H _ _ _ Hspec Hdata) as (trends & entry & Ht & He & [v Hstd] & _).
  rewrite (get_trend_analysis_per_instance stable_by_date df "1001") in Ht;
    [|intros t; apply sort_perm|done].
  injection Ht as <-.
  assert (("network_ingress", m_ingress,
           [ ("total_gb", fun d => JNum (gb (FSeries.sum d)));
             ("mean_daily_gb", fun d => JNum (gb (FSeries.mean d)));
             ("trend", fun _ : list fnum =>
                JStr (get_trend_direction (instance_by_date stable_by_date df "1001")
                        m_ingress)) ])
          ∈ trend_blocks (instance_by_date stable_by_date df "1001")) as Hblock
    by (unfold trend_blocks; in_fields).
  unfold instance_trends in He.
  rewrite (blocks_lookup _ _ _ _ _ _ (trend_blocks_names _) Hblock Hdata) in He.
  injection He as <-. revert Hstd. cbn [map]. lookup_dict. by rewrite lookup_empty.
Qed.

Lemma stable_by_date_sorted : date_sorted stable_by_date.
Proof.
  intros rows. split; [apply sort_perm|]. apply sort_sorted.
  - intros a b. destruct (String.leb_total (agg_date a) (agg_date b)); auto.
  - intros a b c. apply string_leb_trans.
Qed.

Lemma per_instance_trend_fields_witness :
  exists trends entry median,
    per_instance_trends stable_by_date two_day_table "1001" = Some (JDict trends) /\
    trends !! "network_traffic" = Some (JDict entry) /\
    dom entry = list_to_set [ "total_gb"; "mean_daily_gb"; "median_daily_gb";
                              "min_daily_gb"; "max_daily_gb"; "trend" ] /\
    entry !! "median_daily_gb" = Some (JNum (Fin median)) /\
    median == 12288 / 2 ^ 30 /\
    entry !! "trend" = Some (JStr "stable").
Proof.
  assert (instance_rows two_day_table (Some "1001") <> []) as Hrows
    by (vm_compute; discriminate).
  assert (FSeries.dropna (map (fun r => Fin (network_total_bytes_sum r))
            (instance_by_date stable_by_date two_day_table "1001")) <> [])
    as Hdata by (vm_compute; discriminate).
  assert (statistic_value Median true (instance_by_date stable_by_date two_day_table "1001")
            (fun r => Fin (network_total_bytes_sum r))
            (FSeries.dropna (map (fun r => Fin (network_total_bytes_sum r))
               (instance_by_date stable_by_date two_day_table "1001")))
          = JNum (Fin (24576 # 2147483648))) as Hmedian by (vm_compute; reflexivity).
  assert (statistic_value Trend false (instance_by_date stable_by_date two_day_table "1001")
            (fun r => Fin (network_total_bytes_sum r))
            (FSeries.dropna (map (fun r => Fin (network_total_bytes_sum r))
               (instance_by_date stable_by_date two_day_table "1001")))
          = JStr "stable") as Hlabel by (vm_compute; reflexivity).
  generalize dependent two_day_table. intros df Hrows Hdata Hmedian Hlabel.
  destruct (per_instance_trend_fields stable_by_date df "1001" "network_traffic"
              (fun r => Fin (network_total_bytes_sum r))
              [ ("total_gb", Total, true); ("mean_daily_gb", Mean, true);
                ("median_daily_gb", Median, true); ("min_daily_gb", Minimum, true);
                ("max_daily_gb", Maximum, true); ("trend", Trend, false) ]
              stable_by_date_sorted Hrows)
    as (trends & Ht & _ & Hentry).
  { unfold reported_statistics. in_fields. }
  destruct (Hentry Hdata) as (entry & He & Hdom & Hvalues).
  exists trends, entry, (24576 # 2147483648).
  split; [exact Ht|]. split; [exact He|]. split; [exact Hdom|].
  split; [|split].
  - rewrite (Hvalues "median_daily_gb" Median true) by in_fields. by rewrite Hmedian.
  - reflexivity.
  - rewrite (Hvalues "trend" Trend false) by in_fields. by rewrite Hlabel.
Defined.

(** ** The report of [analyze_vm_data] *)

Lemma per_instance_entry_returns (df : Table) (id : option string) :
  instance_rows df id <> [] -> exists entry, per_instance_entry df id = Returns entry.
Proof.
  intros Hrows. unfold per_instance_entry.
  destruct (instance_rows df id) as [|r0 t]; [done|]. by eexists.
Qed.

Lemma per_instance_entry_raises (df : Table) :
  per_instance_entry df None = Raises IndexError.
Proof. unfold per_instance_entry. by rewrite instance_rows_missing. Qed.

Lemma per_instance_loop_returns (df : Table) (ids : list (option string))
    (acc : gmap string json) :
  (forall id, id ∈ ids -> instance_rows df id <> []) ->
  exists per_instance, per_instance_loop df ids acc = Returns per_instance.
Proof.
  revert acc. induction ids as [|id ids IH]; intros acc Hids; simpl; [by eexists|].
  destruct (per_instance_entry_returns df id) as [entry ->]; [apply Hids; left|].
  simpl. apply IH. intros id' Hid'. apply Hids. by right.
Qed.

Lemma per_instance_loop_raises (df : Table) (ids : list (option string))
    (acc : gmap string json) :
  None ∈ ids -> per_instance_loop df ids acc = Raises IndexError.
Proof.
  revert acc. induction ids as [|id ids IH]; intros acc; [by intros ?%elem_of_nil|].
  intros [<-|Hin]%elem_of_cons; simpl.
  - by rewrite per_instance_entry_raises.
  - destruct (per_instance_entry df id) as [entry|[]]; simpl; [by apply IH|done].
Qed.

(** The instance of an output record is the instance of an input row. *)
Lemma preprocess_instance (df : list RawEvent) (r : AggregateRecord) :
  r ∈ preprocess_vm_data df -> exists e, e ∈ df /\ agg_instance_id r = instance_id e.
Proof.
  intros (k & Hk & _ & Hr)%preprocess_record_group.
  apply elem_of_group_keys in Hk as (e & He & <-).
  exists e. split; [done|].
  apply aggregate_key in Hr. unfold record_key, printed_key, group_key in Hr.
  by injection Hr.
Qed.

Lemma instance_rows_present (df : Table) (id : option string) :
  id ∈ instances df -> id <> None -> instance_rows df id <> [].
Proof.
  intros (r & -> & Hr)%elem_of_unique%list_elem_of_fmap Hid Hnil.
  destruct (agg_instance_id r) as [i|] eqn:Hi; [|done].
  assert (r ∈ instance_rows df (Some i)) as H by by apply elem_of_instance_rows.
  rewrite Hnil in H. by apply elem_of_nil in H.
Qed.

Section Report.
Variable get_descriptive_stats get_correlation_analysis : Table -> gmap string json.
Variable sort_values_date : Table -> Table.

Lemma analyze_returns (df : list RawEvent) :
  Forall (fun e => instance_id e <> None) df ->
  exists report,
    analyze_vm_data get_descriptive_stats get_correlation_analysis sort_values_date df
    = Returns report.
Proof.
  intros Hids. unfold analyze_vm_data, get_per_instance_analysis.
  destruct (per_instance_loop_returns (preprocess_vm_data df)
              (instances (preprocess_vm_data df)) ∅) as [per_instance ->];
    [|simpl; by eexists].
  intros id Hid. apply instance_rows_present; [done|].
  apply elem_of_unique, list_elem_of_fmap in Hid as (r & -> & Hr).
  apply preprocess_instance in Hr as (e & He & ->).
  rewrite Forall_forall in Hids. by apply Hids.
Qed.

(** A row without an instance id makes the per-instance pass fail: the
    selection of its rows is empty and [iloc[0]] has nothing to return. *)
Lemma analyze_raises_without_instance_id (df : list RawEvent) (e : RawEvent) :
  e ∈ df -> instance_id e = None ->
  analyze_vm_data get_descriptive_stats get_correlation_analysis sort_values_date df
  = Raises IndexError.
Proof.
  intros He Hid. unfold analyze_vm_data, get_per_instance_analysis.
  rewrite per_instance_loop_raises; [done|].
  destruct (preprocess_row_represented df e He) as (r & Hr & Hk).
  apply elem_of_unique, list_elem_of_fmap. exists r. split; [|done].
  unfold record_key, printed_key, group_key in Hk. injection Hk as _ -> _ _. done.
Qed.

(** Whenever [analyze_vm_data] returns a report, the report has exactly
    the eight facets and every facet is a dict, empty when the pass has
    nothing to say; the same holds whatever the passes left open return.
    It does return on every non-empty batch whose rows all carry an
    instance id. *)
Theorem report_has_all_facets (df : list RawEvent) :
  (forall report,
     analyze_vm_data get_descriptive_stats get_correlation_analysis sort_values_date df
     = Returns report ->
     dom report = list_to_set facets /\
     (forall facet, facet ∈ facets -> exists sub, report !! facet = Some (JDict sub)) /\
     report !! "anomalies" = Some (JDict (detect_anomalies (preprocess_vm_data df)))) /\
  (df <> [] -> Forall (fun e => instance_id e <> None) df ->
   exists report,
     analyze_vm_data get_descriptive_stats get_correlation_analysis sort_values_date df
     = Returns report).
Proof.
  split; [|intros _; apply analyze_returns].
  intros report. unfold analyze_vm_data.
  destruct (get_per_instance_analysis _) as [per_instance|]; simpl; [|done].
  intros [= <-]. split; [|split].
  - rewrite !dom_insert_L, dom_empty_L. unfold facets. cbn [list_to_set].
    set_solver.
  - unfold facets. intros facet. rewrite !elem_of_cons, elem_of_nil.
    intros H. repeat destruct H as [H|H]; try done; subst facet;
      eexists; repeat first [rewrite lookup_insert_eq | rewrite lookup_insert_ne by done];
      reflexivity.
  - by rewrite lookup_insert_eq.
Qed.

End Report.

Lemma report_has_all_facets_witness :
  exists report,
    analyze_vm_data (fun _ => ∅) (fun _ => ∅) stable_by_date (two_days 100 105) = Returns report /\
    dom report = list_to_set facets /\
    report !! "anomalies" = Some (JDict ∅).
Proof.
  destruct (report_has_all_facets (fun _ => ∅) (fun _ => ∅) stable_by_date
              (two_days 100 105)) as [Hkeys Hret].
  destruct Hret as [report Hr];
    [done | repeat constructor; intros H; vm_compute in H; discriminate |].
  destruct (Hkeys report Hr) as (Hdom & _ & Hanomalies).
  exists report. split; [exact Hr|]. split; [exact Hdom|].
  rewrite Hanomalies.
  assert (detect_anomalies (preprocess_vm_data (two_days 100 105)) = ∅) as ->
    by (vm_compute; reflexivity).
  reflexivity.
Defined.

(** C10.  The claim fails on the code.  On the batch of one reading whose
    resource name carries no instance id, [analyze_vm_data] returns no
    report: it raises [IndexError], whatever the passes left open do.  The
    per-instance pass reads [iloc[0]] of the rows selected for the missing
    id, and that selection is empty.  The other per-instance passes guard
    the same empty selection, on the same table: the trends and the costs
    per instance come out empty, and so do the anomalies. *)
Theorem analyze_fails_without_instance_id
    (get_descriptive_stats get_correlation_analysis : Table -> gmap string json)
    (sort_values_date : Table -> Table) :
  instance_id pathless_reading = None /\
  analyze_vm_data get_descriptive_stats get_correlation_analysis sort_values_date
    pathless_batch = Raises IndexError /\
  get_trend_analysis stable_by_date (preprocess_vm_data pathless_batch) !! "per_instance"
    = Some (JDict ∅) /\
  get_cost_analysis (preprocess_vm_data pathless_batch) !! "per_instance"
    = Some (JDict ∅) /\
  detect_anomalies (preprocess_vm_data pathless_batch) = ∅.
Proof.
  split; [reflexivity|]. split.
  - apply (analyze_raises_without_instance_id _ _ _ pathless_batch pathless_reading);
      [left|reflexivity].
  - split; [|split]; by vm_compute.
Qed.

(** * Further properties *)

(** ** The output of [preprocess_vm_data] is sorted *)

Lemma na_last_leb_total (a b : option string) :
  na_last_leb a b = true \/ na_last_leb b a = true.
Proof. destruct a, b; simpl; auto using String.leb_total. Qed.

Lemma na_last_leb_trans (a b c : option string) :
  na_last_leb a b = true -> na_last_leb b c = true -> na_last_leb a c = true.
Proof. destruct a, b, c; simpl; try done. apply string_leb_trans. Qed.

Lemma daily_leb_total (a b : AggregateRecord) :
  daily_leb a b = true \/ daily_leb b a = true.
Proof.
  unfold daily_leb.
  destruct (decide (agg_date a = agg_date b)) as [Heq|Hne].
  - rewrite !bool_decide_eq_true_2 by done. simpl. apply na_last_leb_total.
  - rewrite !bool_decide_eq_false_2 by done. simpl. apply String.leb_total.
Qed.

Lemma daily_leb_trans (a b c : AggregateRecord) :
  daily_leb a b = true -> daily_leb b c = true -> daily_leb a c = true.
Proof.
  unfold daily_leb.
  destruct (decide (agg_date a = agg_date b)) as [Hab|Hab];
    destruct (decide (agg_date b = agg_date c)) as [Hbc|Hbc];
    destruct (decide (agg_date a = agg_date c)) as [Hac|Hac];
    rewrite ?(bool_decide_eq_true_2 _ Hab), ?(bool_decide_eq_false_2 _ Hab),
            ?(bool_decide_eq_true_2 _ Hbc), ?(bool_decide_eq_false_2 _ Hbc),
            ?(bool_decide_eq_true_2 _ Hac), ?(bool_decide_eq_false_2 _ Hac);
    simpl; try congruence; intros H1 H2;
    first [ by eapply na_last_leb_trans
          | by eapply string_leb_trans
          | by rewrite Hab
          | by rewrite <- Hbc
          | destruct Hab; apply String.leb_antisym; [done | by rewrite Hac] ].
Qed.

Lemma daily_leb_row_order (a b : AggregateRecord) :
  daily_leb a b = true -> row_order a b.
Proof.
  unfold daily_leb, row_order.
  destruct (decide (agg_date a = agg_date b)) as [Heq|Hne].
  - rewrite bool_decide_eq_true_2 by done. simpl. by right.
  - rewrite bool_decide_eq_false_2 by done. simpl. intros Hle. left.
    revert Hle. unfold String.leb, String.ltb.
    destruct (String.compare (agg_date a) (agg_date b)) eqn:Hc; try done.
    by apply String.compare_eq_iff in Hc.
Qed.

(** The rows come out ordered by date, and by instance id within a date,
    rows without an instance id last. *)
Theorem preprocess_sorted (df : list RawEvent) :
  StronglySorted row_order (preprocess_vm_data df).
Proof.
  unfold preprocess_vm_data.
  pose proof (sort_sorted daily_leb
                (omap (fun '(k, g) => aggregate k g) (groupby df))
                daily_leb_total daily_leb_trans) as Hs.
  induction Hs as [|r t Hs IH Hr]; constructor; [done|].
  eapply Forall_impl; [exact Hr|]. apply daily_leb_row_order.
Qed.

(** ** One record per group *)

Lemma daily_length (df : list RawEvent) (ks : list GroupKey) :
  (forall k, k ∈ ks -> group_rows df k <> []) ->
  length (omap (fun '(k, g) => aggregate k g) (map (fun k => (k, group_rows df k)) ks))
  = length ks.
Proof.
  induction ks as [|k ks IH]; intros H; simpl; [done|].
  destruct (aggregate_nonempty k (group_rows df k)) as [r ->]; [apply H; left|].
  simpl. f_equal. apply IH. intros; apply H; by right.
Qed.

Lemma unique_length_le {A} `{EqDecision A} (l : list A) : (length (unique l) <= length l)%nat.
Proof.
  induction l as [|x t IH]; simpl; [done|].
  pose proof (List.filter_length_le (fun y => negb (bool_decide (y = x))) (unique t)). lia.
Qed.

(** The output has exactly one record per distinct grouping key, so never
    more records than input rows, and none for an empty batch. *)
Theorem preprocess_one_record_per_key (df : list RawEvent) :
  length (preprocess_vm_data df) = length (unique (map group_key df)) /\
  (length (preprocess_vm_data df) <= length df)%nat /\
  (preprocess_vm_data df = [] <-> df = []).
Proof.
  assert (length (preprocess_vm_data df) = length (unique (map group_key df))) as Hlen.
  { unfold preprocess_vm_data. rewrite sort_perm, groupby_keys, daily_length.
    - unfold group_keys. by rewrite sort_perm.
    - intros k (e & He & <-)%elem_of_group_keys. by apply group_rows_nonempty. }
  split; [done|]. split.
  - rewrite Hlen. etrans; [apply unique_length_le|]. by rewrite length_map.
  - split.
    + intros Hnil. rewrite Hnil in Hlen. destruct df as [|e t]; [done|]. done.
    + by intros ->.
Qed.

(** ** Every summed column is conserved *)

Lemma daily_sum_column (f : RawEvent -> option Q) (g : AggregateRecord -> Q)
    (df : list RawEvent) (ks : list GroupKey) :
  (forall k rows r, aggregate k rows = Some r ->
                    g r = Series.sum (Series.dropna (map f rows))) ->
  (forall k, k ∈ ks -> group_rows df k <> []) ->
  map g (omap (fun '(k, g) => aggregate k g) (map (fun k => (k, group_rows df k)) ks)) =
  map (fun k => Series.sum (Series.dropna (map f (group_rows df k)))) ks.
Proof.
  intros Hg. induction ks as [|k ks IH]; intros H; simpl; [done|].
  destruct (aggregate_nonempty k (group_rows df k)) as [r Hr]; [apply H; left|].
  rewrite Hr. simpl. f_equal; [by apply (Hg k)|].
  apply IH. intros; apply H; by right.
Qed.

Lemma sum_column_conserved (f : RawEvent -> option Q) (g : AggregateRecord -> Q)
    (df : list RawEvent) :
  (forall k rows r, aggregate k rows = Some r ->
                    g r = Series.sum (Series.dropna (map f rows))) ->
  Series.sum (map g (preprocess_vm_data df)) == Series.sum (Series.dropna (map f df)).
Proof.
  intros Hg. unfold preprocess_vm_data.
  rewrite (sum_perm _ _ (Permutation_map g (sort_perm daily_leb _))).
  rewrite groupby_keys, (daily_sum_column f g df _ Hg).
  - apply sum_by_group; [apply NoDup_group_keys|].
    intros e He. apply elem_of_group_keys. by exists e.
  - intros k (e & He & <-)%elem_of_group_keys. by apply group_rows_nonempty.
Qed.

Ltac aggregate_field :=
  let k := fresh "k" in let rows := fresh "rows" in let r := fresh "r" in
  intros [[[? ?] ?] ?] rows r; unfold aggregate;
  destruct (most_common _); [|done]; by intros [= <-].

Lemma two_days_bytes_exact : bytes_exact (two_days 100 105).
Proof.
  split; [|by vm_compute].
  intros f v. unfold byte_columns. rewrite !elem_of_cons, elem_of_nil.
  intros [->|[->|[->|[->|[]]]]]; vm_compute Series.dropna;
    rewrite !elem_of_cons, elem_of_nil; intros [->|[->|[]]]; by eexists.
Qed.

(** Like the cost, every byte column that is summed adds up, over the
    output records, to its sum over the input rows, missing values skipped
    on both sides, as long as the byte counts stay in the exact range
    ([bytes_exact]: integers whose magnitudes total at most 2^53, where
    int64 does not wrap and float64 does not round). *)
Theorem byte_sums_conserved (df : list RawEvent) :
  bytes_exact df ->
  Series.sum (map disk_read_bytes_sum (preprocess_vm_data df))
    == Series.sum (Series.dropna (map disk_read_bytes df)) /\
  Series.sum (map disk_write_bytes_sum (preprocess_vm_data df))
    == Series.sum (Series.dropna (map disk_write_bytes df)) /\
  Series.sum (map ingress_bytes_sum (preprocess_vm_data df))
    == Series.sum (Series.dropna (map ingress_bytes df)) /\
  Series.sum (map egress_bytes_sum (preprocess_vm_data df))
    == Series.sum (Series.dropna (map egress_bytes df)) /\
  Series.sum (map network_total_bytes_sum (preprocess_vm_data df))
    == Series.sum (Series.dropna (map network_total_bytes df)) /\
  Series.sum (map disk_total_bytes_sum (preprocess_vm_data df))
    == Series.sum (Series.dropna (map disk_total_bytes df)).
Proof.
  intros _. repeat split; apply sum_column_conserved; aggregate_field.
Qed.

Lemma byte_sums_conserved_witness :
  Series.sum (map network_total_bytes_sum (preprocess_vm_data (two_days 100 105)))
    == Series.sum (Series.dropna (map network_total_bytes (two_days 100 105))).
Proof.
  apply (byte_sums_conserved (two_days 100 105) two_days_bytes_exact).
Defined.

(** ** Totals of two columns *)

Lemma sum_col_add (f1 f2 : RawEvent -> option Q) (rows : list RawEvent) :
  Forall (fun e => f1 e <> None /\ f2 e <> None) rows ->
  Series.sum (Series.dropna (map (fun e => col_add (f1 e) (f2 e)) rows)) ==
  Series.sum (Series.dropna (map f1 rows)) + Series.sum (Series.dropna (map f2 rows)).
Proof.
  induction 1 as [|e t [H1 H2] _ IH]; [reflexivity|].
  cbn [map]. rewrite !sum_dropna_cons, IH.
  destruct (f1 e), (f2 e); try done. simpl. lra.
Qed.

Lemma group_rows_Forall (P : RawEvent -> Prop) (df : list RawEvent) (k : GroupKey) :
  Forall P df -> Forall P (group_rows df k).
Proof.
  rewrite !Forall_forall. intros H e [He _]%elem_of_group_rows. by apply H.
Qed.

(** When no row of the batch misses an ingress or an egress value, the
    network total of every record is the sum of its ingress and egress
    totals; likewise for the disk total when no read or write value is
    missing.  The byte counts are taken in the exact range
    ([bytes_exact]), where the sums of the source neither wrap nor
    round. *)
Theorem totals_add_up (df : list RawEvent) (r : AggregateRecord) :
  bytes_exact df ->
  r ∈ preprocess_vm_data df ->
  (Forall (fun e => ingress_bytes e <> None /\ egress_bytes e <> None) df ->
   network_total_bytes_sum r == ingress_bytes_sum r + egress_bytes_sum r) /\
  (Forall (fun e => disk_read_bytes e <> None /\ disk_write_bytes e <> None) df ->
   disk_total_bytes_sum r == disk_read_bytes_sum r + disk_write_bytes_sum r).
Proof.
  intros _ (k & _ & _ & Hr)%preprocess_record_group.
  destruct k as [[[d i] p] z]. unfold aggregate in Hr.
  destruct (most_common _); [|done]. injection Hr as <-.
  cbn [network_total_bytes_sum ingress_bytes_sum egress_bytes_sum
       disk_total_bytes_sum disk_read_bytes_sum disk_write_bytes_sum].
  split; intros Hall; apply sum_col_add; by apply group_rows_Forall.
Qed.

Lemma totals_add_up_witness :
  Forall (fun r => network_total_bytes_sum r == ingress_bytes_sum r + egress_bytes_sum r)
         (preprocess_vm_data (two_days 100 105)).
Proof.
  apply Forall_forall. intros r Hr.
  apply (totals_add_up (two_days 100 105) r two_days_bytes_exact Hr).
  repeat constructor; discriminate.
Defined.

(** ** Minimum, mean and maximum *)

Lemma fold_min_le (x : Q) (t : list Q) :
  Forall (fun y => foldr (fun a m => if Qle_bool a m then a else m) x t <= y) (x :: t).
Proof.
  induction t as [|a t IH]; simpl.
  - repeat constructor. lra.
  - destruct (Qle_bool a _) eqn:Ha.
    + apply Qle_bool_iff in Ha. apply Forall_cons in IH as [Hx Ht].
      constructor; [lra|]. constructor; [lra|].
      eapply Forall_impl; [exact Ht|]. simpl. intros; lra.
    + assert (~ a <= foldr (fun a m => if Qle_bool a m then a else m) x t) as Hlt
        by (intros H; apply Qle_bool_iff in H; congruence).
      apply Forall_cons in IH as [Hx Ht].
      constructor; [done|]. constructor; [lra|done].
Qed.

Lemma fold_max_ge (x : Q) (t : list Q) :
  Forall (fun y => y <= foldr (fun a m => if Qle_bool m a then a else m) x t) (x :: t).
Proof.
  induction t as [|a t IH]; simpl.
  - repeat constructor. lra.
  - destruct (Qle_bool _ a) eqn:Ha.
    + apply Qle_bool_iff in Ha. apply Forall_cons in IH as [Hx Ht].
      constructor; [lra|]. constructor; [lra|].
      eapply Forall_impl; [exact Ht|]. simpl. intros; lra.
    + assert (~ foldr (fun a m => if Qle_bool m a then a else m) x t <= a) as Hlt
        by (intros H; apply Qle_bool_iff in H; congruence).
      apply Forall_cons in IH as [Hx Ht].
      constructor; [done|]. constructor; [lra|done].
Qed.

Lemma min_attained (l : list Q) (lo : Q) :
  Series.min l = Some lo -> lo ∈ l /\ Forall (fun y => lo <= y) l.
Proof.
  destruct l as [|x t]; [done|]. intros [= <-]. split; [|apply fold_min_le].
  induction t as [|a t IH]; [left|]. cbn [foldr].
  destruct (Qle_bool a _); [right; left|].
  apply elem_of_cons in IH as [->|IH]; [left|right; by right].
Qed.

Lemma max_attained (l : list Q) (hi : Q) :
  Series.max l = Some hi -> hi ∈ l /\ Forall (fun y => y <= hi) l.
Proof.
  destruct l as [|x t]; [done|]. intros [= <-]. split; [|apply fold_max_ge].
  induction t as [|a t IH]; [left|]. cbn [foldr].
  destruct (Qle_bool _ a); [right; left|].
  apply elem_of_cons in IH as [->|IH]; [left|right; by right].
Qed.

Lemma extremes_min_max (l : list Q) : extremes (Series.min l) (Series.max l) l.
Proof.
  destruct (Series.min l) as [a|] eqn:Hmin, (Series.max l) as [b|] eqn:Hmax;
    try by destruct l.
  apply min_attained in Hmin as [Ha Hlo]. apply max_attained in Hmax as [Hb Hhi].
  split; [done|]. split; [done|].
  rewrite Forall_forall in Hlo, Hhi. apply Forall_forall. intros v Hv.
  split; [by apply Hlo | by apply Hhi].
Qed.

(** In every output record the minimum and the maximum of CPU, memory and
    uptime are readings of the record's group, and every reading of the
    group lies between them; the largest cost is a cost of the group that
    no cost of the group exceeds.  A statistic is missing exactly when the
    group has no reading.  (Nothing is said of the means: the source
    rounds them, and a rounded mean can leave the range of its values.) *)
Theorem record_extremes (df : list RawEvent) (r : AggregateRecord) :
  r ∈ preprocess_vm_data df ->
  exists k, k ∈ group_keys df /\ record_key r = printed_key k /\
    let readings f := Series.dropna (map f (group_rows df k)) in
    extremes (cpu_utilization_min r) (cpu_utilization_max r) (readings cpu_utilization) /\
    extremes (memory_used_gb_min r) (memory_used_gb_max r) (readings memory_used_gb) /\
    extremes (uptime_fraction_min r) (uptime_fraction_max r) (readings uptime_fraction) /\
    match cost_usd_max r with
    | Some hi => hi ∈ readings cost_usd /\ Forall (fun v => v <= hi) (readings cost_usd)
    | None => readings cost_usd = []
    end.
Proof.
  intros (k & Hk & _ & Hr)%preprocess_record_group.
  exists k. split; [done|]. split; [by apply (aggregate_key k (group_rows df k))|].
  destruct k as [[[d i] p] z]. unfold aggregate in Hr.
  destruct (most_common _); [|done]. injection Hr as <-.
  cbn [cpu_utilization_min cpu_utilization_max memory_used_gb_min memory_used_gb_max
       uptime_fraction_min uptime_fraction_max cost_usd_max]. cbv zeta.
  split; [apply extremes_min_max|]. split; [apply extremes_min_max|].
  split; [apply extremes_min_max|].
  destruct (Series.max _) as [hi|] eqn:Hmax; [by apply max_attained|].
  by destruct (Series.dropna (map cost_usd (group_rows df (d, i, p, z)))).
Qed.

Lemma record_extremes_witness :
  Forall (fun r => exists lo hi,
            cpu_utilization_min r = Some lo /\ cpu_utilization_max r = Some hi /\ lo <= hi)
         (preprocess_vm_data (two_days 100 105)).
Proof.
  apply Forall_forall. intros r Hr.
  destruct (record_extremes (two_days 100 105) r Hr) as (k & Hk & _ & Hcpu & _).
  cbv zeta in Hcpu.
  destruct (cpu_utilization_min r) as [lo|], (cpu_utilization_max r) as [hi|];
    cbn [extremes] in Hcpu.
  - destruct Hcpu as (Hlo & _ & Hall). exists lo, hi. split; [done|]. split; [done|].
    rewrite Forall_forall in Hall. by apply Hall.
  - done.
  - done.
  - exfalso. revert Hk Hcpu. vm_compute group_keys. rewrite !elem_of_cons, elem_of_nil.
    intros [->|[->|[]]]; vm_compute; discriminate.
Defined.

(** ** Bounds of the cost per CPU *)

(** For a cost and a CPU utilisation that are not negative, the cost per
    CPU lies between zero and a thousand times the cost, and it does not
    grow when the utilisation does. *)
Theorem cost_per_cpu_bounded (e1 e2 : RawEvent) (cost cpu1 cpu2 : Q) :
  cost_usd e1 = Some cost -> cost_usd e2 = Some cost ->
  cpu_utilization e1 = Some cpu1 -> cpu_utilization e2 = Some cpu2 ->
  0 <= cost -> 0 <= cpu1 -> cpu1 <= cpu2 ->
  exists q1 q2,
    cost_per_cpu e1 = Fin q1 /\ cost_per_cpu e2 = Fin q2 /\
    0 <= q2 /\ q2 <= q1 /\ q1 <= 1000 * cost.
Proof.
  intros Hc1 Hc2 Hu1 Hu2 Hcost Hcpu Hle.
  unfold cost_per_cpu, epsilon. rewrite Hc1, Hc2, Hu1, Hu2. simpl.
  destruct (Qeq_bool (cpu1 + (1 # 1000)) 0) eqn:Hz1;
    [apply Qeq_bool_iff in Hz1; lra|].
  destruct (Qeq_bool (cpu2 + (1 # 1000)) 0) eqn:Hz2;
    [apply Qeq_bool_iff in Hz2; lra|].
  eexists _, _. split; [reflexivity|]. split; [reflexivity|].
  assert (0 < cpu1 + (1 # 1000)) as Hd1 by lra.
  assert (0 < cpu2 + (1 # 1000)) as Hd2 by lra.
  assert (0 <= cost / (cpu2 + (1 # 1000))) as Hq2
    by (apply Qle_shift_div_l; [done|lra]).
  assert (cost / (cpu2 + (1 # 1000)) * (cpu2 + (1 # 1000)) == cost) as Heq2
    by (field; lra).
  split; [done|split].
  - apply Qle_shift_div_l; [done|]. nra.
  - apply Qle_shift_div_r; [done|]. nra.
Qed.

Lemma cost_per_cpu_bounded_witness :
  exists q1 q2,
    cost_per_cpu (reading 1 vm1 0 1 "Licensing Fee") = Fin q1 /\
    cost_per_cpu (reading 1 vm1 (1 # 2) 1 "Licensing Fee") = Fin q2 /\
    0 <= q2 /\ q2 <= q1 /\ q1 <= 1000 * 1.
Proof.
  apply (cost_per_cpu_bounded
           (reading 1 vm1 0 1 "Licensing Fee") (reading 1 vm1 (1 # 2) 1 "Licensing Fee")
           1 0 (1 # 2)); try reflexivity; lra.
Defined.

(** ** Extraction from a well-formed resource name *)

Lemma search_here (m : string -> option string) (s g : string) :
  m s = Some g -> search m s = Some g.
Proof. intros H. destruct s; simpl; by rewrite H. Qed.

Lemma search_next (m : string -> option string) (c : ascii) (t : string) :
  m (String c t) = None -> search m (String c t) = search m t.
Proof. intros H. simpl. by rewrite H. Qed.

Lemma append_nil (t : string) : EmptyString +:+ t = t.
Proof. reflexivity. Qed.

Lemma append_cons (c : ascii) (s t : string) : String c s +:+ t = String c (s +:+ t).
Proof. reflexivity. Qed.

Lemma drop_prefix_self (a b : string) : Str.drop_prefix a (a +:+ b) = Some b.
Proof.
  induction a as [|c a IH]; [done|].
  rewrite append_cons. cbn [Str.drop_prefix]. by rewrite Ascii.eqb_refl.
Qed.

Lemma not_slash_eqb (a : ascii) : not_slash a = true -> Ascii.eqb a "/" = false.
Proof. unfold not_slash. by intros ?%negb_true_iff. Qed.

(** After a segment name [u], a slash is expected: the text read so far
    must be [u] itself. *)
Lemma drop_prefix_segment_none (u b r : string) :
  Str.forallb not_slash u = true -> Str.starts_with u b = false ->
  Str.drop_prefix (u +:+ "/") (b +:+ String "/" r) = None.
Proof.
  revert b. induction u as [|a u IH]; intros b; [done|].
  cbn [Str.forallb Str.starts_with]. intros [Ha Hu]%andb_true_iff.
  destruct b as [|c b]; rewrite ?append_cons, ?append_nil; cbn [Str.drop_prefix].
  - intros _. by rewrite (not_slash_eqb a Ha).
  - destruct (Ascii.eqb a c); [|done]. simpl. by apply IH.
Qed.

Lemma drop_prefix_segment_exact (u b r x : string) :
  Str.forallb not_slash u = true -> Str.forallb not_slash b = true ->
  Str.drop_prefix (u +:+ "/") (b +:+ String "/" r) = Some x -> u = b /\ x = r.
Proof.
  revert b. induction u as [|a u IH]; intros b Hu Hb.
  - destruct b as [|c b]; rewrite ?append_cons, ?append_nil; cbn [Str.drop_prefix].
    + rewrite Ascii.eqb_refl. by intros [= ->].
    + cbn [Str.forallb] in Hb. apply andb_true_iff in Hb as [Hc _].
      rewrite Ascii.eqb_sym, (not_slash_eqb c Hc). done.
  - cbn [Str.forallb] in Hu. apply andb_true_iff in Hu as [Ha Hu].
    destruct b as [|c b]; rewrite ?append_cons, ?append_nil; cbn [Str.drop_prefix].
    + by rewrite (not_slash_eqb a Ha).
    + cbn [Str.forallb] in Hb. apply andb_true_iff in Hb as [Hc Hb].
      destruct (Ascii.eqb_spec a c) as [->|]; [|done].
      intros H. destruct (IH b Hu Hb H) as [-> ->]. done.
Qed.

(** The matchers look for a slash first. *)
Lemma match_segment_at_slash (u : string) (c : ascii) (t : string) :
  not_slash c = true -> match_segment_at (String "/" u) (String c t) = None.
Proof.
  intros Hc. unfold match_segment_at. cbn [Str.drop_prefix].
  by rewrite Ascii.eqb_sym, (not_slash_eqb c Hc).
Qed.

Lemma match_instance_at_slash (c : ascii) (t : string) :
  not_slash c = true -> match_instance_at (String c t) = None.
Proof.
  intros Hc. unfold match_instance_at. cbn [Str.drop_prefix].
  by rewrite Ascii.eqb_sym, (not_slash_eqb c Hc).
Qed.

Lemma search_skip_segment (m : string -> option string) (s rest : string) :
  (forall c t, not_slash c = true -> m (String c t) = None) ->
  Str.forallb not_slash s = true ->
  search m (s +:+ rest) = search m rest.
Proof.
  intros Hm. induction s as [|c s IH]; [done|].
  cbn [Str.forallb]. intros [Hc Hs]%andb_true_iff. rewrite append_cons.
  rewrite search_next by by apply Hm. by apply IH.
Qed.

(** No match starts inside a prefix that does not hold the segment name. *)
Lemma search_skip_prefix (m : string -> option string) (u pre r : string) :
  (forall s, Str.drop_prefix (String "/" (u +:+ "/")) s = None -> m s = None) ->
  Str.forallb not_slash u = true ->
  Str.contains (String "/" u) pre = false ->
  search m (pre +:+ String "/" r) = search m (String "/" r).
Proof.
  intros Hm Hu. induction pre as [|c pre IH]; [done|].
  cbn [Str.contains]. intros [Hstart Hrest]%orb_false_iff.
  rewrite append_cons, search_next; [by apply IH|].
  apply Hm. cbn [Str.drop_prefix]. cbn [Str.starts_with] in Hstart.
  destruct (Ascii.eqb "/" c); [|done]. simpl in Hstart.
  by apply drop_prefix_segment_none.
Qed.

Lemma match_segment_at_needs_prefix (prefix s : string) :
  Str.drop_prefix prefix s = None -> match_segment_at prefix s = None.
Proof. unfold match_segment_at. by intros ->. Qed.

Lemma match_instance_at_needs_prefix (s : string) :
  Str.drop_prefix "/instances/" s = None -> match_instance_at s = None.
Proof. unfold match_instance_at. by intros ->. Qed.

Lemma span_segment (p : ascii -> bool) (s : string) (c : ascii) (r : string) :
  Str.forallb p s = true -> p c = false ->
  Str.span p (s +:+ String c r) = (s, String c r).
Proof.
  intros Hs Hc. induction s as [|a s IH].
  - rewrite append_nil. cbn [Str.span]. by rewrite Hc.
  - cbn [Str.forallb] in Hs. apply andb_true_iff in Hs as [Ha Hs].
    rewrite append_cons. cbn [Str.span]. by rewrite Ha, IH.
Qed.

Lemma span_all (p : ascii -> bool) (s : string) :
  Str.forallb p s = true -> Str.span p s = (s, EmptyString).
Proof.
  induction s as [|a s IH]; simpl; [done|].
  intros [Ha Hs]%andb_true_iff. by rewrite Ha, IH.
Qed.

(** A segment other than [u] is stepped over. *)
Lemma segment_step (u s r : string) :
  Str.forallb not_slash u = true -> Str.forallb not_slash s = true -> s <> u ->
  search (match_segment_at (String "/" (u +:+ "/"))) (String "/" (s +:+ String "/" r)) =
  search (match_segment_at (String "/" (u +:+ "/"))) (String "/" r).
Proof.
  intros Hu Hs Hne. rewrite search_next.
  - apply search_skip_segment; [|done]. intros c t. apply match_segment_at_slash.
  - apply match_segment_at_needs_prefix. cbn [Str.drop_prefix]. rewrite Ascii.eqb_refl.
    destruct (Str.drop_prefix (u +:+ "/") (s +:+ String "/" r)) as [x|] eqn:Hx; [|done].
    by destruct (drop_prefix_segment_exact u s r x Hu Hs Hx) as [-> _].
Qed.

(** The segment after [u] is the one returned. *)
Lemma segment_hit (u g r : string) :
  path_segment g ->
  search (match_segment_at (String "/" (u +:+ "/")))
         (String "/" (u +:+ String "/" (g +:+ String "/" r))) = Some g.
Proof.
  intros [Hne Hg]. apply search_here. unfold match_segment_at.
  assert (String "/" (u +:+ String "/" (g +:+ String "/" r))
          = String "/" (u +:+ "/") +:+ (g +:+ String "/" r)) as ->.
  { rewrite append_cons. f_equal.
    induction u as [|a u IH]; [done|]. rewrite !append_cons. by rewrite IH. }
  rewrite drop_prefix_self, span_segment; [|done|reflexivity].
  destruct g; [done|]. reflexivity.
Qed.

(** A segment is stepped over by the instance pattern unless it is
    [instances] followed by a digit. *)
Lemma instance_step (s r : string) :
  Str.forallb not_slash s = true ->
  (s = "instances" -> fst (Str.span is_digit r) = EmptyString) ->
  search match_instance_at (String "/" (s +:+ String "/" r)) =
  search match_instance_at (String "/" r).
Proof.
  intros Hs Hr. rewrite search_next.
  - apply search_skip_segment; [|done]. intros c t. apply match_instance_at_slash.
  - unfold match_instance_at.
    change "/instances/" with (String "/" ("instances" +:+ "/")).
    cbn [Str.drop_prefix]. rewrite Ascii.eqb_refl.
    destruct (Str.drop_prefix ("instances" +:+ "/") (s +:+ String "/" r)) as [x|] eqn:Hx;
      [|done].
    destruct (drop_prefix_segment_exact "instances" s r x eq_refl Hs Hx) as [<- ->].
    by rewrite Hr.
Qed.

Lemma instance_hit (i : string) :
  i <> EmptyString -> Str.forallb is_digit i = true ->
  search match_instance_at (String "/" ("instances" +:+ String "/" i)) = Some i.
Proof.
  intros Hne Hi. apply search_here. unfold match_instance_at.
  change (String "/" ("instances" +:+ String "/" i)) with ("/instances/" +:+ i).
  rewrite drop_prefix_self, span_all by done. simpl. by destruct i.
Qed.

(** From a well-formed resource name the three extractions give back the
    project, the zone and the instance id, with one exception: when the
    project is itself called [zones], the zone extraction returns [zones]. *)
Theorem extraction_round_trip (prefix project zone instance : string) :
  Str.contains "/projects" prefix = false ->
  Str.contains "/zones" prefix = false ->
  Str.contains "/instances" prefix = false ->
  path_segment project -> path_segment zone ->
  instance <> EmptyString -> Str.forallb is_digit instance = true ->
  extract_project_id (resource_name prefix project zone instance) = Some project /\
  extract_instance_id (resource_name prefix project zone instance) = Some instance /\
  (project <> "zones" ->
   extract_zone (resource_name prefix project zone instance) = Some zone) /\
  (project = "zones" ->
   extract_zone (resource_name prefix project zone instance) = Some "zones").
Proof.
  intros Hp Hz Hi Hproject Hzone Hne Hdigits.
  assert (resource_name prefix project zone instance =
          prefix +:+ String "/" ("projects" +:+ String "/" (project +:+ String "/"
            ("zones" +:+ String "/" (zone +:+ String "/"
              ("instances" +:+ String "/" instance)))))) as -> by reflexivity.
  destruct Hproject as [Hpne Hps]. pose proof Hzone as [Hzne Hzs].
  split; [|split; [|split]].
  - unfold extract_project_id.
    change "/projects/" with (String "/" ("projects" +:+ "/")).
    rewrite (search_skip_prefix _ "projects");
      [|intros s; apply match_segment_at_needs_prefix | reflexivity | exact Hp].
    by apply segment_hit.
  - unfold extract_instance_id.
    rewrite (search_skip_prefix _ "instances");
      [|apply match_instance_at_needs_prefix | reflexivity | exact Hi].
    rewrite (instance_step "projects") by done.
    rewrite (instance_step project) by done.
    rewrite (instance_step "zones") by done.
    rewrite (instance_step zone) by done.
    by apply instance_hit.
  - intros Hproject. unfold extract_zone.
    change "/zones/" with (String "/" ("zones" +:+ "/")).
    rewrite (search_skip_prefix _ "zones");
      [|intros s; apply match_segment_at_needs_prefix | reflexivity | exact Hz].
    rewrite (segment_step "zones" "projects") by done.
    rewrite (segment_step "zones" project) by done.
    by apply segment_hit.
  - intros ->. unfold extract_zone.
    change "/zones/" with (String "/" ("zones" +:+ "/")).
    rewrite (search_skip_prefix _ "zones");
      [|intros s; apply match_segment_at_needs_prefix | reflexivity | exact Hz].
    rewrite (segment_step "zones" "projects") by done.
    by apply segment_hit.
Qed.

Lemma extraction_round_trip_witness :
  extract_project_id vm1 = Some "demo" /\
  extract_instance_id vm1 = Some "1001" /\
  extract_zone vm1 = Some "us-central1-a".
Proof.
  destruct (extraction_round_trip "//compute.googleapis.com" "demo" "us-central1-a" "1001")
    as (Hproject & Hinstance & Hzone & _); try reflexivity; try (split; [discriminate|reflexivity]);
    try discriminate.
  split; [exact Hproject|]. split; [exact Hinstance|]. apply Hzone. discriminate.
Defined.


(** ** When [analyze_vm_data] returns *)

(** [analyze_vm_data] returns a report exactly when every row of the batch
    has an instance id; otherwise it raises [IndexError], whatever the other
    rows hold. *)
Theorem analyze_returns_iff_instance_ids
    (get_descriptive_stats get_correlation_analysis : Table -> gmap string json)
    (sort_values_date : Table -> Table) (df : list RawEvent) :
  ((exists report,
      analyze_vm_data get_descriptive_stats get_correlation_analysis sort_values_date df
      = Returns report)
   <-> Forall (fun e => instance_id e <> None) df) /\
  (analyze_vm_data get_descriptive_stats get_correlation_analysis sort_values_date df
   = Raises IndexError
   <-> Exists (fun e => instance_id e = None) df).
Proof.
  assert (Forall (fun e => instance_id e <> None) df \/
          Exists (fun e => instance_id e = None) df) as Hcases.
  { induction df as [|e t IH]; [left; constructor|].
    destruct (instance_id e) eqn:He.
    - destruct IH as [IH|IH]; [left|right; by right].
      constructor; [by rewrite He|done].
    - right. by left. }
  assert (Exists (fun e => instance_id e = None) df ->
          analyze_vm_data get_descriptive_stats get_correlation_analysis sort_values_date df
          = Raises IndexError) as Hraises.
  { intros (e & He & Hid)%Exists_exists.
    by apply (analyze_raises_without_instance_id _ _ _ df e). }
  split; split.
  - intros [report Hr]. destruct Hcases as [|Hex]; [done|].
    rewrite (Hraises Hex) in Hr. done.
  - apply analyze_returns.
  - intros Hr. destruct Hcases as [Hall|]; [|done].
    destruct (analyze_returns get_descriptive_stats get_correlation_analysis
                sort_values_date df Hall) as [report Hrep].
    congruence.
  - exact Hraises.
Qed.

(** ** The overall cost figures *)

Lemma dropna_col_sum (f : AggregateRecord -> Q) (df : Table) :
  FSeries.dropna (col_sum f df) = col_sum f df.
Proof. unfold col_sum. induction df as [|r t IH]; simpl; [done|]. by rewrite IH. Qed.

Lemma sum_col_sum (f : AggregateRecord -> Q) (df : Table) :
  FSeries.sum (col_sum f df) = Fin (Series.sum (map f df)).
Proof.
  unfold col_sum, FSeries.sum, Series.sum.
  induction df as [|r t IH]; simpl; [done|]. by rewrite IH.
Qed.

Lemma count_nonzero (n : nat) : Qeq_bool (inject_Z (Z.of_nat (S n))) 0 = false.
Proof.
  destruct (Qeq_bool _ 0) eqn:H; [|done]. apply Qeq_bool_iff in H.
  unfold Qeq, inject_Z in H. cbn [Qnum Qden] in H. lia.
Qed.

Lemma mean_col_sum (f : AggregateRecord -> Q) (df : Table) :
  df <> [] ->
  FSeries.mean (col_sum f df) =
  Fin (Series.sum (map f df) / inject_Z (Z.of_nat (length df))).
Proof.
  intros Hne. destruct df as [|r t]; [done|].
  transitivity (F.div (FSeries.sum (col_sum f (r :: t)))
                      (FSeries.count (col_sum f (r :: t)))); [reflexivity|].
  rewrite sum_col_sum. unfold FSeries.count, col_sum. rewrite length_map.
  cbn [F.div length]. by rewrite count_nonzero.
Qed.

Lemma nonempty_batch_nonempty_table (df : list RawEvent) :
  preprocess_vm_data df = [] -> df = [].
Proof.
  intros Hnil. destruct df as [|e t]; [done|].
  destruct (preprocess_row_represented (e :: t) e) as (r & Hr & _); [left|].
  rewrite Hnil in Hr. by apply elem_of_nil in Hr.
Qed.

(** On a batch with a row, the overall total cost that [get_cost_analysis]
    reports for the preprocessed table is the sum of the [cost_usd] of the
    input rows; the average is that total over the number of records, and
    the projected monthly cost is thirty times the average.  On an empty
    batch there is no overall entry. *)
Theorem cost_analysis_totals (df : list RawEvent) :
  (df <> [] ->
   exists overall total average monthly,
     get_cost_analysis (preprocess_vm_data df) !! "overall" = Some (JDict overall) /\
     overall !! "total_cost" = Some (JNum (Fin total)) /\
     overall !! "average_daily_cost_per_instance" = Some (JNum (Fin average)) /\
     overall !! "projected_monthly_cost" = Some (JNum (Fin monthly)) /\
     total == Series.sum (Series.dropna (map cost_usd df)) /\
     average * inject_Z (Z.of_nat (length (preprocess_vm_data df))) == total /\
     monthly == 30 * average) /\
  (df = [] -> get_cost_analysis (preprocess_vm_data df) !! "overall" = None).
Proof.
  split.
  - intros Hne.
    assert (preprocess_vm_data df <> []) as Hout
      by (intros H; by apply nonempty_batch_nonempty_table in H).
    unfold get_cost_analysis. cbv zeta.
    rewrite lookup_insert_ne by done.
    rewrite dropna_col_sum, sum_col_sum, (mean_col_sum _ _ Hout).
    assert ((0 <? length (col_sum cost_usd_sum (preprocess_vm_data df)))%nat = true) as ->.
    { unfold col_sum. rewrite length_map. destruct (preprocess_vm_data df); [done|]. done. }
    rewrite lookup_insert_eq.
    eexists _, _, _, _. split; [reflexivity|].
    split; [|split; [|split; [|split; [|split]]]].
    + destruct (0 <? _)%nat; lookup_dict; reflexivity.
    + destruct (0 <? _)%nat; lookup_dict; reflexivity.
    + destruct (0 <? _)%nat; lookup_dict; reflexivity.
    + apply sum_column_conserved. aggregate_field.
    + field. destruct (preprocess_vm_data df); [done|].
      intros H. unfold Qeq, inject_Z in H. cbn [Qnum Qden length] in H. lia.
    + ring.
  - intros ->. reflexivity.
Qed.

Lemma cost_analysis_totals_witness :
  exists overall total,
    get_cost_analysis (preprocess_vm_data (two_days 100 105)) !! "overall"
      = Some (JDict overall) /\
    overall !! "total_cost" = Some (JNum (Fin total)) /\
    total == 205.
Proof.
  destruct (cost_analysis_totals (two_days 100 105)) as [Hsome _].
  destruct Hsome as (overall & total & average & monthly & Ho & Ht & _ & _ & Hsum & _);
    [discriminate|].
  exists overall, total. split; [exact Ho|]. split; [exact Ht|].
  rewrite Hsum. reflexivity.
Defined.

(** ** The split-halves trend of a flat metric *)

Lemma Qltb_false (a b : Q) : b <= a -> Qltb a b = false.
Proof.
  intros H. unfold Qltb. apply negb_false_iff. by apply Qle_bool_iff.
Qed.

Lemma flat_sum (l : list fnum) (c : Q) :
  Forall (fun x => exists q, x = Fin q /\ q == c) l ->
  exists s, FSeries.sum l = Fin s /\ s == c * inject_Z (Z.of_nat (length l)).
Proof.
  induction 1 as [|x t (q & -> & Hq) _ (s & Hs & Hsum)].
  - exists 0. split; [done|]. simpl. ring.
  - exists (q + s). split.
    + change (FSeries.sum (Fin q :: t)) with (F.add (Fin q) (FSeries.sum t)).
      by rewrite Hs.
    + cbn [length]. rewrite Nat2Z.inj_succ, <- Z.add_1_r, inject_Z_plus, Hq, Hsum.
      ring.
Qed.

Lemma flat_mean (l : list fnum) (c : Q) :
  l <> [] ->
  Forall (fun x => exists q, x = Fin q /\ q == c) l ->
  exists m, FSeries.mean l = Fin m /\ m == c.
Proof.
  intros Hne Hall. destruct (flat_sum l c Hall) as (s & Hs & Hsum).
  destruct l as [|x t]; [done|].
  exists (s / inject_Z (Z.of_nat (length (x :: t)))). split.
  - transitivity (F.div (FSeries.sum (x :: t)) (FSeries.count (x :: t))); [reflexivity|].
    rewrite Hs. unfold FSeries.count. cbn [F.div length]. by rewrite count_nonzero.
  - rewrite Hsum. field. cbn [length]. intros H.
    unfold Qeq, inject_Z in H. cbn [Qnum Qden] in H. lia.
Qed.

(** [get_trend_direction] answers [insufficient_data] exactly when the
    metric has fewer than two values that are not missing; and a metric
    with at least two values, all equal, is [stable], whatever the value
    (zero included). *)
Theorem trend_direction_flat (df : Table) (metric : AggregateRecord -> fnum) :
  (get_trend_direction df metric = "insufficient_data" <->
   (length (FSeries.dropna (map metric df)) < 2)%nat) /\
  (forall c : Q,
     (2 <= length (FSeries.dropna (map metric df)))%nat ->
     Forall (fun x => exists q, x = Fin q /\ q == c) (FSeries.dropna (map metric df)) ->
     get_trend_direction df metric = "stable").
Proof.
  assert (length (FSeries.dropna (map metric df)) <= length df)%nat as Hlen.
  { unfold FSeries.dropna. rewrite <- (length_map metric df).
    generalize (map metric df). intros l.
    induction l as [|x t IH]; simpl; [lia|]. destruct (negb _); simpl; lia. }
  unfold get_trend_direction. cbv zeta.
  set (data := FSeries.dropna (map metric df)) in *.
  split.
  - destruct (length df <? 2)%nat eqn:Hdf.
    { apply Nat.ltb_lt in Hdf. split; [lia|done]. }
    destruct (length data <? 2)%nat eqn:Hdata.
    { apply Nat.ltb_lt in Hdata. done. }
    apply Nat.ltb_ge in Hdata.
    split; [|lia].
    destruct (F.is_zero _); [done|].
    destruct (F.ltb (Fin 5) _); [done|]. by destruct (F.ltb _ (Fin (-5))).
  - intros c Hdata Hall.
    assert ((length df <? 2)%nat = false) as -> by (apply Nat.ltb_ge; lia).
    assert ((length data <? 2)%nat = false) as -> by (apply Nat.ltb_ge; lia).
    assert (0 < length data / 2 < length data)%nat as [Hmid1 Hmid2].
    { split; [apply Nat.div_str_pos; lia | apply Nat.div_lt; lia]. }
    destruct (flat_mean (take (length data / 2) data) c) as (m1 & -> & Hm1).
    { intros H. apply (f_equal length) in H. rewrite length_take in H. cbn [length] in H. lia. }
    { by apply Forall_take. }
    destruct (flat_mean (drop (length data / 2) data) c) as (m2 & -> & Hm2).
    { intros H. apply (f_equal length) in H. rewrite length_drop in H. cbn [length] in H. lia. }
    { by apply Forall_drop. }
    cbn [F.is_zero]. destruct (Qeq_bool m1 0) eqn:Hz; [done|].
    cbn [F.sub F.neg F.add F.div]. rewrite Hz. cbn [F.mul F.ltb].
    assert ((m2 + - m1) / m1 * 100 == 0) as Hp.
    { rewrite Hm1, Hm2. field. rewrite <- Hm1. by apply Qeq_bool_neq. }
    rewrite !Qltb_false; [done| |]; rewrite Hp; done.
Qed.

Lemma trend_direction_flat_witness :
  get_trend_direction (preprocess_vm_data (two_days 100 100)) m_cost = "stable".
Proof.
  apply (proj2 (trend_direction_flat (preprocess_vm_data (two_days 100 100)) m_cost) 100).
  - vm_compute. lia.
  - vm_compute. repeat constructor; eexists; (split; [reflexivity|reflexivity]).
Defined.

(** ** The overall trend and the dates of the table *)

Lemma sorted_last_greatest {A} (R : A -> A -> Prop) (l : list A) (z : A) :
  StronglySorted R l -> last l = Some z -> forall x, x ∈ l -> x = z \/ R x z.
Proof.
  induction 1 as [|y t Hs IH Hy]; [done|].
  destruct t as [|y' t'].
  - intros [= <-] x Hx. apply list_elem_of_singleton in Hx. by left.
  - intros Hlast x [->|Hx]%elem_of_cons.
    + right. rewrite Forall_forall in Hy. apply Hy.
      change (last (y :: y' :: t')) with (last (y' :: t')) in Hlast.
      by apply last_Some_elem_of.
    + by apply IH.
Qed.

Lemma NoDup_head_last {A} (x y z : A) (t : list A) :
  NoDup (x :: y :: t) -> last (x :: y :: t) = Some z -> x <> z.
Proof.
  intros Hnd Hlast ->. apply NoDup_cons in Hnd as [Hnotin _]. apply Hnotin.
  change (last (z :: y :: t)) with (last (y :: t)) in Hlast.
  by apply last_Some_elem_of.
Qed.

Lemma date_aggregated_dates (df : Table) :
  map dr_date (date_aggregated df) ≡ₚ unique (map agg_date df).
Proof.
  unfold date_aggregated. cbv zeta.
  rewrite sort_perm. rewrite map_map. cbn [dr_date]. rewrite map_id.
  apply sort_perm.
Qed.

Lemma overall_trends_date_range (first_row last_row : DateRow) :
  overall_trends first_row last_row !! "date_range" =
  Some (JDict (list_to_map [
    ("start_date", JStr (dr_date first_row));
    ("end_date", JStr (dr_date last_row)) ])).
Proof.
  unfold overall_trends, overall_metrics. cbn [foldl].
  repeat match goal with
         | |- context [overall_metric ?a ?b] => destruct (overall_metric a b)
         end; lookup_dict; reflexivity.
Qed.

(** [get_trend_analysis] reports an overall trend exactly when the table
    holds at least two distinct dates; its date range then runs from the
    earliest date of the table to the latest, and the two differ. *)
Theorem overall_trend_spans_dates (sort_values_date : Table -> Table) (df : Table) :
  (get_trend_analysis sort_values_date df !! "overall" = None <->
   (length (unique (map agg_date df)) < 2)%nat) /\
  (forall v, get_trend_analysis sort_values_date df !! "overall" = Some v ->
     exists overall start_date end_date,
       v = JDict overall /\
       overall !! "date_range" =
         Some (JDict (list_to_map [
           ("start_date", JStr start_date); ("end_date", JStr end_date) ])) /\
       start_date ∈ map agg_date df /\ end_date ∈ map agg_date df /\
       start_date <> end_date /\
       forall r, r ∈ df ->
         String.leb start_date (agg_date r) = true /\
         String.leb (agg_date r) end_date = true).
Proof.
  pose proof (date_aggregated_dates df) as Hperm.
  pose proof (Permutation_length Hperm) as Hlen. rewrite length_map in Hlen.
  set (le := fun a b : DateRow => String.leb (dr_date a) (dr_date b)).
  assert (forall a b, le a b = true \/ le b a = true) as Htot.
  { intros a b. unfold le. destruct (String.leb_total (dr_date a) (dr_date b)); auto. }
  assert (forall a b c, le a b = true -> le b c = true -> le a c = true) as Htrans.
  { intros a b c. unfold le. apply string_leb_trans. }
  assert (exists l0, date_aggregated df = sort le l0) as [l0 Hsort] by (by eexists).
  unfold get_trend_analysis. cbv zeta. rewrite lookup_insert_ne by done.
  destruct (date_aggregated df) as [|first_row [|second rest]] eqn:Hagg.
  - split; [split; [simpl in Hlen; lia|done]|done].
  - split; [split; [simpl in Hlen; lia|done]|done].
  - destruct (last (first_row :: second :: rest)) as [last_row|] eqn:Hlast;
      [|by apply last_None in Hlast].
    rewrite lookup_insert_eq. split; [split; [done|simpl in Hlen; lia]|].
    intros v [= <-]. exists (overall_trends first_row last_row), (dr_date first_row), (dr_date last_row).
    assert (forall d, d ∈ map agg_date df -> exists row,
              row ∈ first_row :: second :: rest /\ dr_date row = d) as Hrow.
    { intros d Hd. apply elem_of_unique in Hd. rewrite <- Hperm in Hd.
      apply list_elem_of_fmap in Hd as (row & -> & Hin). by exists row. }
    assert (forall row, row ∈ first_row :: second :: rest -> dr_date row ∈ map agg_date df)
      as Hback.
    { intros row Hin. apply elem_of_unique. rewrite <- Hperm.
      apply list_elem_of_fmap. by exists row. }
    split; [done|]. split; [apply overall_trends_date_range|].
    split; [apply Hback; left|]. split; [apply Hback; by apply last_Some_elem_of|].
    split.
    + apply (NoDup_head_last _ (dr_date second) _ (map dr_date rest)).
      * change (NoDup (map dr_date (first_row :: second :: rest))).
        rewrite Hperm. apply NoDup_unique.
      * change (last (map dr_date (first_row :: second :: rest)) = Some (dr_date last_row)).
        change (map dr_date ?l) with (dr_date <$> l). by rewrite fmap_last, Hlast.
    + intros r Hr.
      destruct (Hrow (agg_date r)) as (row & Hin & <-).
      { apply list_elem_of_fmap. by exists r. }
      split.
      * apply (sort_head_least le l0 first_row (second :: rest) Htot Htrans); [done|].
        rewrite <- (sort_perm le l0), <- Hsort. done.
      * destruct (sorted_last_greatest (fun a b => le a b = true)
                    (first_row :: second :: rest) last_row) with (x := row)
          as [->|Hle]; [|done|done| |done].
        -- rewrite Hsort. by apply sort_sorted.
        -- apply string_leb_refl.
Qed.

Lemma overall_trend_spans_dates_witness :
  exists overall start_date end_date,
    get_trend_analysis stable_by_date two_day_table !! "overall" = Some (JDict overall) /\
    overall !! "date_range" =
      Some (JDict (list_to_map [
        ("start_date", JStr start_date); ("end_date", JStr end_date) ])) /\
    start_date <> end_date.
Proof.
  destruct (overall_trend_spans_dates stable_by_date two_day_table) as [Hnone Hsome].
  assert (length (unique (map agg_date two_day_table)) = 2%nat) as Hdates
    by (vm_compute; reflexivity).
  generalize dependent two_day_table. intros df Hnone Hsome Hdates.
  destruct (get_trend_analysis stable_by_date df !! "overall") as [v|].
  - destruct (Hsome v eq_refl) as (overall & d0 & d1 & -> & Hrange & _ & _ & Hne & _).
    by exists overall, d0, d1.
  - pose proof (proj1 Hnone eq_refl). lia.
Defined.

(** ** Instances that [detect_anomalies] leaves out *)

Lemma quantile_index_bound (q : Q) (n : nat) :
  0 <= q <= 1 ->
  (Z.to_nat (Qfloor ((inject_Z (Z.of_nat (S n)) - 1) * q)) < S n)%nat.
Proof.
  intros [Hq0 Hq1].
  assert (inject_Z (Z.of_nat (S n)) - 1 == inject_Z (Z.of_nat n)) as Hn.
  { rewrite Nat2Z.inj_succ, <- Z.add_1_r, inject_Z_plus. ring. }
  assert (0 <= inject_Z (Z.of_nat n)) as Hpos.
  { change 0 with (inject_Z 0). rewrite <- Zle_Qle. lia. }
  assert ((inject_Z (Z.of_nat (S n)) - 1) * q <= inject_Z (Z.of_nat n)) as Hle.
  { rewrite Hn. nra. }
  apply Qfloor_resp_le in Hle. rewrite Qfloor_Z in Hle. lia.
Qed.

Lemma flat_quantile (q : Q) (l : list Q) (c : Q) :
  0 <= q <= 1 -> l <> [] -> Forall (fun v => v == c) l ->
  exists x, Series.quantile q l = Some x /\ x == c.
Proof.
  intros Hq Hne Hall. destruct l as [|v t]; [done|].
  assert (forall k, (k < S (length t))%nat -> nth k (sort Qle_bool (v :: t)) 0 == c) as Hnth.
  { intros k Hk. rewrite Forall_forall in Hall. apply Hall.
    apply (elem_of_Permutation_proper _ _ _ (sort_perm Qle_bool (v :: t))).
    apply list_elem_of_In, nth_In.
    by rewrite (Permutation_length (sort_perm Qle_bool (v :: t))). }
  eexists. split; [reflexivity|]. cbv zeta.
  unfold Series.count. cbn [length].
  rewrite (Hnth _ (quantile_index_bound q (length t) Hq)).
  rewrite Hnth by lia. ring.
Qed.

Lemma flat_metric_quiet (rows : Table) (metric : AggregateRecord -> option Q) :
  (length (Series.dropna (map metric rows)) <= 3)%nat \/
  (exists c, Forall (fun v => v == c) (Series.dropna (map metric rows))) ->
  metric_anomalies rows metric = None.
Proof.
  unfold metric_anomalies. cbv zeta.
  destruct (3 <? length _)%nat eqn:Hlen; [|done].
  apply Nat.ltb_lt in Hlen. intros [Hshort|[c Hflat]]; [lia|].
  assert (Series.dropna (map metric rows) <> []) as Hne.
  { intros H. rewrite H in Hlen. simpl in Hlen. lia. }
  destruct (flat_quantile (1 # 4) (Series.dropna (map metric rows)) c)
    as (q1 & -> & Hq1); [split; discriminate|done|done|].
  destruct (flat_quantile (3 # 4) (Series.dropna (map metric rows)) c)
    as (q3 & -> & Hq3); [split; discriminate|done|done|].
  assert (outside metric (q1 - (15 # 10) * (q3 - q1)) (q3 + (15 # 10) * (q3 - q1)) rows = [])
    as ->; [|done].
  apply elem_of_nil_inv. intros r (Hr & v & Hv & Hout)%elem_of_outside.
  assert (v == c) as Hvc.
  { rewrite Forall_forall in Hflat. apply Hflat. unfold Series.dropna.
    apply list_elem_of_omap. exists (Some v). split; [|done].
    rewrite <- Hv. apply list_elem_of_fmap. by exists r. }
  rewrite Hq1, Hq3, Hvc in Hout. destruct Hout as [Hout|Hout]; lra.
Qed.

(** An instance is absent from the anomalies when each of the four
    metrics checked has at most three values for it, or values that are
    all equal. *)
Theorem quiet_instance_not_reported (df : Table) (i : string) :
  (forall metric label, (metric, label) ∈ metrics_to_check ->
     (length (Series.dropna (map metric (instance_rows df (Some i)))) <= 3)%nat \/
     (exists c, Forall (fun v => v == c)
                  (Series.dropna (map metric (instance_rows df (Some i)))))) ->
  detect_anomalies df !! i = None.
Proof.
  intros Hquiet. rewrite detect_anomalies_lookup. cbv zeta.
  assert (size (instance_anomalies (instance_rows df (Some i))) = 0%nat) as ->; [|done].
  apply instance_anomalies_empty. intros metric label Hin.
  apply flat_metric_quiet. by apply (Hquiet metric label).
Qed.

Lemma quiet_instance_not_reported_witness :
  detect_anomalies (preprocess_vm_data flat_batch) !! "1001" = None.
Proof.
  apply quiet_instance_not_reported.
  assert (forall metric label, (metric, label) ∈ metrics_to_check ->
            exists c, Forall (fun v => v == c)
              (Series.dropna (map metric
                 (instance_rows (preprocess_vm_data flat_batch) (Some "1001"))))) as H.
  { unfold metrics_to_check. intros metric label.
    rewrite !elem_of_cons, elem_of_nil.
    intros [[= -> ->]|[[= -> ->]|[[= -> ->]|[[= -> ->]|[]]]]].
    - exists 10. vm_compute. repeat constructor.
    - exists (1 # 2). vm_compute. repeat constructor.
    - exists 2. vm_compute. repeat constructor.
    - exists 12288. vm_compute. repeat constructor. }
  intros metric label Hin. right. by apply (H metric label).
Defined.

(** ** The overall CPU figures and the readings of the batch *)

Lemma dropna_col_of (f : AggregateRecord -> option Q) (df : Table) :
  FSeries.dropna (col_of f df) = map Fin (Series.dropna (map f df)).
Proof.
  unfold col_of, FSeries.dropna, Series.dropna.
  induction df as [|r t IH]; [done|]. cbn [map List.filter omap].
  destruct (f r); cbn [fnum_of F.isna negb id mbind option_bind]; by rewrite IH.
Qed.

Lemma min_Fin (l : list Q) : FSeries.min (map Fin l) = fnum_of (Series.min l).
Proof.
  destruct l as [|x t]; [done|]. cbn [map FSeries.min Series.min fnum_of].
  induction t as [|a t IH]; [done|]. cbn [map foldr]. rewrite IH. cbn [F.leb].
  by destruct (Qle_bool a _).
Qed.

Lemma max_Fin (l : list Q) : FSeries.max (map Fin l) = fnum_of (Series.max l).
Proof.
  destruct l as [|x t]; [done|]. cbn [map FSeries.max Series.max fnum_of].
  induction t as [|a t IH]; [done|]. cbn [map foldr]. rewrite IH. cbn [F.leb].
  by destruct (Qle_bool _ a).
Qed.

Lemma elem_of_dropna {A B} (f : A -> option B) (l : list A) (v : B) :
  v ∈ Series.dropna (map f l) <-> exists x, x ∈ l /\ f x = Some v.
Proof.
  unfold Series.dropna. rewrite list_elem_of_omap. split.
  - intros (o & (x & -> & Hx)%list_elem_of_fmap & Ho). by exists x.
  - intros (x & Hx & Hv). exists (f x). split; [|done].
    apply list_elem_of_fmap. by exists x.
Qed.

Lemma preprocess_group_record (df : list RawEvent) (e : RawEvent) :
  e ∈ df ->
  exists r, r ∈ preprocess_vm_data df /\
            aggregate (group_key e) (group_rows df (group_key e)) = Some r.
Proof.
  intros He.
  destruct (aggregate_nonempty (group_key e) (group_rows df (group_key e)))
    as [r Hr]; [by apply group_rows_nonempty|].
  exists r. split; [|done].
  unfold preprocess_vm_data. rewrite sort_perm, groupby_keys.
  apply (daily_complete df _ (group_key e)); [|done].
  apply elem_of_group_keys. by exists e.
Qed.

Section Extremes.

(** A column of the input with the three columns of the output that hold
    its minimum, mean and maximum per group. *)
Variable raw : RawEvent -> option Q.
Variables fmin fmean fmax : AggregateRecord -> option Q.
Hypothesis aggregated : forall k g r,
  aggregate k g = Some r ->
  fmin r = Series.min (Series.dropna (map raw g)) /\
  fmean r = Series.mean (Series.dropna (map raw g)) /\
  fmax r = Series.max (Series.dropna (map raw g)).

Lemma record_statistics (df : list RawEvent) (r : AggregateRecord) :
  r ∈ preprocess_vm_data df ->
  (forall a, fmin r = Some a -> a ∈ Series.dropna (map raw df)) /\
  (forall b, fmax r = Some b -> b ∈ Series.dropna (map raw df)).
Proof.
  intros (k & _ & _ & Hr)%preprocess_record_group.
  destruct (aggregated _ _ _ Hr) as (-> & _ & ->).
  assert (forall v, v ∈ Series.dropna (map raw (group_rows df k)) ->
                    v ∈ Series.dropna (map raw df)) as Hsub.
  { intros v (e & (He & _)%elem_of_group_rows & Hv)%elem_of_dropna.
    apply elem_of_dropna. by exists e. }
  split.
  - intros a [Ha _]%min_attained. by apply Hsub.
  - intros b [Hb _]%max_attained. by apply Hsub.
Qed.

Lemma reading_covered (df : list RawEvent) (e : RawEvent) (v : Q) :
  e ∈ df -> raw e = Some v ->
  exists r a m b, r ∈ preprocess_vm_data df /\
    fmin r = Some a /\ fmean r = Some m /\ fmax r = Some b /\ a <= v <= b.
Proof.
  intros He Hv. destruct (preprocess_group_record df e He) as (r & Hr & Hagg).
  destruct (aggregated _ _ _ Hagg) as (Hmin & Hmean & Hmax).
  assert (v ∈ Series.dropna (map raw (group_rows df (group_key e)))) as Hin.
  { apply elem_of_dropna. exists e. split; [|done]. by apply elem_of_group_rows. }
  destruct (Series.dropna (map raw (group_rows df (group_key e)))) as [|x t] eqn:Hcol;
    [by apply elem_of_nil in Hin|].
  destruct (Series.min (x :: t)) as [a|] eqn:Ha; [|done].
  destruct (Series.max (x :: t)) as [b|] eqn:Hb; [|done].
  destruct (Series.mean (x :: t)) as [m|] eqn:Hm; [|done].
  exists r, a, m, b. split; [done|]. split; [done|]. split; [done|]. split; [done|].
  apply min_attained in Ha as [_ Ha]. apply max_attained in Hb as [_ Hb].
  rewrite Forall_forall in Ha, Hb. split; [by apply Ha | by apply Hb].
Qed.

Lemma batch_extremes (df : list RawEvent) :
  Series.dropna (map raw df) <> [] ->
  Series.dropna (map fmean (preprocess_vm_data df)) <> [] /\
  exists lo hi,
    Series.min (Series.dropna (map fmin (preprocess_vm_data df))) = Some lo /\
    Series.max (Series.dropna (map fmax (preprocess_vm_data df))) = Some hi /\
    lo ∈ Series.dropna (map raw df) /\
    hi ∈ Series.dropna (map raw df) /\
    Forall (fun v => lo <= v <= hi) (Series.dropna (map raw df)).
Proof.
  intros Hne.
  destruct (Series.dropna (map raw df)) as [|v0 rest] eqn:Hcol; [done|].
  assert (v0 ∈ Series.dropna (map raw df)) as (e0 & He0 & Hv0)%elem_of_dropna
    by (rewrite Hcol; left).
  rewrite <- Hcol. clear Hcol Hne rest.
  destruct (reading_covered df e0 v0 He0 Hv0)
    as (r0 & a0 & m0 & b0 & Hr0 & Ha0 & Hm0 & Hb0 & _).
  set (T := preprocess_vm_data df) in *.
  assert (a0 ∈ Series.dropna (map fmin T)) as Hmins by (apply elem_of_dropna; by exists r0).
  assert (m0 ∈ Series.dropna (map fmean T)) as Hmeans by (apply elem_of_dropna; by exists r0).
  assert (b0 ∈ Series.dropna (map fmax T)) as Hmaxs by (apply elem_of_dropna; by exists r0).
  split; [by apply elem_of_not_nil in Hmeans|].
  destruct (Series.min (Series.dropna (map fmin T))) as [lo|] eqn:Hlo;
    [|destruct (Series.dropna (map fmin T)); [by apply elem_of_nil in Hmins|done]].
  destruct (Series.max (Series.dropna (map fmax T))) as [hi|] eqn:Hhi;
    [|destruct (Series.dropna (map fmax T)); [by apply elem_of_nil in Hmaxs|done]].
  apply min_attained in Hlo as [Hlo_in Hlo]. apply max_attained in Hhi as [Hhi_in Hhi].
  rewrite Forall_forall in Hlo, Hhi.
  exists lo, hi. split; [done|]. split; [done|].
  split; [|split].
  - apply elem_of_dropna in Hlo_in as (r & Hr & Ha).
    by apply (proj1 (record_statistics df r Hr)).
  - apply elem_of_dropna in Hhi_in as (r & Hr & Hb).
    by apply (proj2 (record_statistics df r Hr)).
  - apply Forall_forall. intros v (e & He & Hv)%elem_of_dropna.
    destruct (reading_covered df e v He Hv) as (r & a & m & b & Hr & Ha & _ & Hb & Havb).
    assert (lo <= a) by (apply Hlo, elem_of_dropna; by exists r).
    assert (b <= hi) by (apply Hhi, elem_of_dropna; by exists r).
    lra.
Qed.

End Extremes.

(** When the batch holds a CPU reading, the overall CPU entry of
    [get_utilization_insights] on the preprocessed table reports as
    [min_utilization] the smallest CPU reading of the batch and as
    [max_utilization] the largest.  (Nothing is said of
    [average_utilization]: the source rounds it, and a rounded mean can
    leave the range of its values.) *)
Theorem overall_cpu_extremes (df : list RawEvent) :
  Series.dropna (map cpu_utilization df) <> [] ->
  exists overall cpu lo hi,
    get_utilization_insights (preprocess_vm_data df) !! "overall" = Some (JDict overall) /\
    overall !! "cpu" = Some (JDict cpu) /\
    cpu !! "min_utilization" = Some (JNum (Fin lo)) /\
    cpu !! "max_utilization" = Some (JNum (Fin hi)) /\
    lo ∈ Series.dropna (map cpu_utilization df) /\
    hi ∈ Series.dropna (map cpu_utilization df) /\
    Forall (fun v => lo <= v <= hi) (Series.dropna (map cpu_utilization df)).
Proof.
  intros Hne.
  destruct (batch_extremes cpu_utilization
              cpu_utilization_min cpu_utilization_mean cpu_utilization_max) with (df := df)
    as (Hmeans & lo & hi & Hlo & Hhi & Hlo_in & Hhi_in & Hall); [|done|].
  { intros [[[d i] p] z] g r. unfold aggregate.
    destruct (most_common _); [|done]. by intros [= <-]. }
  set (T := preprocess_vm_data df) in *.
  assert ((0 <? length (FSeries.dropna (col_of cpu_utilization_mean T)))%nat = true) as Hany.
  { rewrite dropna_col_of, length_map.
    destruct (Series.dropna (map cpu_utilization_mean T)); [done|done]. }
  eexists _, _, lo, hi.
  split.
  { unfold get_utilization_insights. cbv zeta.
    rewrite lookup_insert_ne by done. by rewrite lookup_insert_eq. }
  split.
  { unfold overall_utilization, set_if_any. cbv zeta. rewrite Hany.
    repeat match goal with
           | |- context [(0 <? length ?l)%nat] => destruct (0 <? length l)%nat
           end; lookup_dict; reflexivity. }
  split; [|split; [|done]]; lookup_dict.
  - unfold col_min. by rewrite dropna_col_of, min_Fin, Hlo.
  - unfold col_max. by rewrite dropna_col_of, max_Fin, Hhi.
Qed.

Lemma overall_cpu_extremes_witness :
  exists overall cpu lo hi,
    get_utilization_insights two_day_table !! "overall" = Some (JDict overall) /\
    overall !! "cpu" = Some (JDict cpu) /\
    cpu !! "min_utilization" = Some (JNum (Fin lo)) /\
    cpu !! "max_utilization" = Some (JNum (Fin hi)) /\
    lo <= hi.
Proof.
  destruct (overall_cpu_extremes (two_days 100 105))
    as (overall & cpu & lo & hi & Ho & Hc & Hlo & Hhi & Hlo_in & _ & Hall).
  - vm_compute. discriminate.
  - exists overall, cpu, lo, hi. unfold two_day_table.
    split; [exact Ho|]. split; [exact Hc|]. split; [exact Hlo|]. split; [exact Hhi|].
    rewrite Forall_forall in Hall. by apply Hall.
Defined.

(** ** The cost per instance and the overall cost *)

Lemma sum_by_instance (g : AggregateRecord -> Q) (ids : list string) (df : Table) :
  NoDup ids ->
  (forall r, r ∈ df -> exists i, i ∈ ids /\ agg_instance_id r = Some i) ->
  Series.sum (map (fun i => Series.sum (map g (instance_rows df (Some i)))) ids) ==
  Series.sum (map g df).
Proof.
  intros Hnd. induction df as [|r t IH]; intros Hids.
  - apply sum_zero.
  - destruct (Hids r) as (i0 & Hi0 & Hr); [left|].
    rewrite (sum_map_ext _
      (fun i => (if bool_decide (i0 = i) then g r else 0) +
                Series.sum (map g (instance_rows t (Some i))))).
    + rewrite sum_map_add, sum_indicator by done.
      rewrite IH by (intros; apply Hids; by right). reflexivity.
    + intros i _. unfold instance_rows. cbn [List.filter]. rewrite Hr.
      destruct (bool_decide (i0 = i)); [reflexivity|]. lra.
Qed.

Lemma elem_of_present_instances (df : Table) (i : string) :
  i ∈ omap id (instances df) <-> Some i ∈ instances df.
Proof.
  rewrite list_elem_of_omap. split.
  - by intros ([j|] & Hj & [= <-]).
  - intros Hi. by exists (Some i).
Qed.

Lemma NoDup_present_instances (df : Table) : NoDup (omap id (instances df)).
Proof.
  unfold instances. generalize (NoDup_unique (map agg_instance_id df)).
  generalize (unique (map agg_instance_id df)). intros l.
  induction 1 as [|[i|] l Hx Hnd IH]; cbn [omap]; [constructor| |done].
  cbn [id]. constructor; [|done].
  intros ([j|] & Hj & [= <-])%list_elem_of_omap. done.
Qed.

Lemma cost_per_instance_lookup (df : Table) (i : string) :
  forall per_instance, get_cost_analysis df !! "per_instance" = Some (JDict per_instance) ->
  per_instance !! i =
    if decide (Some i ∈ instances df) then
      Some (JDict (list_to_map [
        ("total_cost", JNum (Fin (Series.sum (map cost_usd_sum (instance_rows df (Some i))))));
        ("avg_daily_cost",
           JNum (FSeries.mean (col_sum cost_usd_sum (instance_rows df (Some i)))));
        ("max_daily_cost",
           JNum (FSeries.max (col_sum cost_usd_sum (instance_rows df (Some i)))));
        ("min_daily_cost",
           JNum (FSeries.min (col_sum cost_usd_sum (instance_rows df (Some i))))) ]))
    else None.
Proof.
  unfold get_cost_analysis. cbv zeta. rewrite lookup_insert_eq. intros ? [= <-].
  rewrite (loop_lookup _
    (fun id =>
       let instance_cost_data :=
         FSeries.dropna (col_sum cost_usd_sum (instance_rows df id)) in
       if (0 <? length instance_cost_data)%nat then
         Some (JDict (list_to_map [
           ("total_cost", JNum (FSeries.sum instance_cost_data));
           ("avg_daily_cost", JNum (FSeries.mean instance_cost_data));
           ("max_daily_cost", JNum (FSeries.max instance_cost_data));
           ("min_daily_cost", JNum (FSeries.min instance_cost_data)) ]))
       else None)).
  - destruct (decide (Some i ∈ instances df)) as [Hin|Hnin]; [|done].
    cbv zeta. rewrite dropna_col_sum.
    assert (instance_rows df (Some i) <> []) as Hrows by by apply instance_rows_present.
    unfold col_sum at 1. rewrite length_map.
    destruct (instance_rows df (Some i)) as [|r t] eqn:Hr; [done|].
    cbn [length Nat.ltb Nat.leb]. by rewrite sum_col_sum.
  - intros d id. cbv zeta. by destruct (0 <? length _)%nat.
  - cbv zeta. by rewrite instance_rows_missing.
  - apply NoDup_unique.
Qed.

(** On a table with a row, every row having an instance id, the
    [per_instance] part of [get_cost_analysis] holds one entry for each
    instance and no other, and their [total_cost] add up to the
    [total_cost] of the [overall] part. *)
Theorem instance_costs_add_up (df : Table) :
  df <> [] -> Forall (fun r => agg_instance_id r <> None) df ->
  exists overall per_instance total totals,
    get_cost_analysis df !! "overall" = Some (JDict overall) /\
    overall !! "total_cost" = Some (JNum (Fin total)) /\
    get_cost_analysis df !! "per_instance" = Some (JDict per_instance) /\
    Forall2 (fun i t => exists entry,
               per_instance !! i = Some (JDict entry) /\
               entry !! "total_cost" = Some (JNum (Fin t)))
            (omap id (instances df)) totals /\
    (forall i, is_Some (per_instance !! i) -> i ∈ omap id (instances df)) /\
    Series.sum totals == total.
Proof.
  intros Hne Hids.
  assert (exists per_instance,
            get_cost_analysis df !! "per_instance" = Some (JDict per_instance))
    as [per_instance Hper].
  { unfold get_cost_analysis. cbv zeta. rewrite lookup_insert_eq. by eexists. }
  pose proof (fun i => cost_per_instance_lookup df i per_instance Hper) as Hlookup.
  eexists _, per_instance, (Series.sum (map cost_usd_sum df)),
    (map (fun i => Series.sum (map cost_usd_sum (instance_rows df (Some i))))
         (omap id (instances df))).
  split.
  { unfold get_cost_analysis. cbv zeta. rewrite lookup_insert_ne by done.
    rewrite dropna_col_sum.
    assert ((0 <? length (col_sum cost_usd_sum df))%nat = true) as ->.
    { unfold col_sum. rewrite length_map. by destruct df. }
    by rewrite lookup_insert_eq. }
  split.
  { rewrite sum_col_sum. destruct (0 <? _)%nat; lookup_dict; reflexivity. }
  split; [done|]. split; [|split].
  - apply Forall2_fmap_r, Forall_Forall2_diag, Forall_forall.
    intros i Hi%elem_of_present_instances.
    rewrite Hlookup. rewrite decide_True by done.
    eexists. split; [reflexivity|]. lookup_dict. reflexivity.
  - intros i [v Hv]. rewrite Hlookup in Hv. apply elem_of_present_instances.
    by destruct (decide (Some i ∈ instances df)).
  - apply sum_by_instance; [apply NoDup_present_instances|].
    intros r Hr. rewrite Forall_forall in Hids. specialize (Hids r Hr).
    destruct (agg_instance_id r) as [i|] eqn:Hi; [|done].
    exists i. split; [|done]. apply elem_of_present_instances.
    apply elem_of_unique, list_elem_of_fmap. by exists r.
Qed.

Lemma instance_costs_add_up_witness :
  exists overall per_instance total,
    get_cost_analysis two_day_table !! "overall" = Some (JDict overall) /\
    overall !! "total_cost" = Some (JNum (Fin total)) /\
    get_cost_analysis two_day_table !! "per_instance" = Some (JDict per_instance) /\
    forall i, is_Some (per_instance !! i) -> i ∈ omap id (instances two_day_table).
Proof.
  assert (two_day_table <> []) as Hne by (vm_compute; discriminate).
  assert (Forall (fun r => agg_instance_id r <> None) two_day_table) as Hids
    by (vm_compute; repeat constructor; discriminate).
  generalize dependent two_day_table. intros df Hne Hids.
  destruct (instance_costs_add_up df Hne Hids)
    as (overall & per_instance & total & totals & Ho & Ht & Hp & _ & Hdom & _).
  exists overall, per_instance, total.
  split; [exact Ho|]. split; [exact Ht|]. split; [exact Hp|exact Hdom].
Defined.

(** ** Code fences around a response *)

Lemma length_append (a b : string) :
  String.length (a +:+ b) = (String.length a + String.length b)%nat.
Proof.
  induction a as [|c a IH]; [done|]. rewrite append_cons. cbn [String.length].
  by rewrite IH.
Qed.

Lemma append_assoc (a b c : string) : (a +:+ b) +:+ c = a +:+ (b +:+ c).
Proof.
  induction a as [|x a IH]; [done|]. rewrite !append_cons. by rewrite IH.
Qed.

Lemma append_empty (a : string) : a +:+ EmptyString = a.
Proof. induction a as [|x a IH]; [done|]. rewrite append_cons. by rewrite IH. Qed.

Lemma drop_append (a b : string) : Text.drop (String.length a) (a +:+ b) = b.
Proof.
  induction a as [|c a IH]; [by destruct b|]. rewrite append_cons. exact IH.
Qed.

Lemma take_append (a b : string) : Text.take (String.length a) (a +:+ b) = a.
Proof.
  induction a as [|c a IH]; [by destruct b|]. rewrite append_cons.
  cbn [String.length Text.take]. by rewrite IH.
Qed.

Lemma ends_with_append (a p : string) : Text.ends_with p (a +:+ p) = true.
Proof.
  unfold Text.ends_with. rewrite length_append.
  replace (String.length a + String.length p - String.length p)%nat
    with (String.length a) by lia.
  rewrite drop_append, String.eqb_refl, andb_true_r. apply Nat.leb_le. lia.
Qed.

Lemma drop_last_append (a p : string) :
  Text.drop_last (String.length p) (a +:+ p) = a.
Proof.
  unfold Text.drop_last. rewrite length_append.
  replace (String.length a + String.length p - String.length p)%nat
    with (String.length a) by lia.
  apply take_append.
Qed.

Lemma starts_with_append (p s : string) : Str.starts_with p (p +:+ s) = true.
Proof.
  induction p as [|c p IH]; [done|]. rewrite append_cons. cbn [Str.starts_with].
  by rewrite Ascii.eqb_refl, IH.
Qed.

Lemma lstrip_blank (w s : string) : blank w -> Text.lstrip (w +:+ s) = Text.lstrip s.
Proof.
  unfold blank. induction w as [|c w IH]; [done|]. cbn [Str.forallb].
  intros [Hc Hw]%andb_true_iff. rewrite append_cons. cbn [Text.lstrip]. rewrite Hc. auto.
Qed.

Lemma rstrip_blank_only (w : string) : blank w -> Text.rstrip w = EmptyString.
Proof.
  unfold blank. induction w as [|c w IH]; [done|]. cbn [Str.forallb].
  intros [Hc Hw]%andb_true_iff. cbn [Text.rstrip]. by rewrite IH, Hc.
Qed.

Lemma rstrip_blank (s w : string) : blank w -> Text.rstrip (s +:+ w) = Text.rstrip s.
Proof.
  intros Hw. induction s as [|c s IH]; [by apply rstrip_blank_only|].
  rewrite append_cons. cbn [Text.rstrip]. by rewrite IH.
Qed.

Lemma length_lstrip (s : string) : (String.length (Text.lstrip s) <= String.length s)%nat.
Proof.
  induction s as [|c s IH]; [done|]. cbn [Text.lstrip].
  destruct (Text.isspace c); cbn [String.length]; lia.
Qed.

Lemma length_rstrip (s : string) : (String.length (Text.rstrip s) <= String.length s)%nat.
Proof.
  induction s as [|c s IH]; [done|]. cbn [Text.rstrip].
  destruct (Text.rstrip s); [destruct (Text.isspace c)|]; cbn [String.length] in *; lia.
Qed.

(** A text that [strip] leaves alone is left alone by both halves. *)
Lemma strip_fixed (s : string) :
  Text.strip s = s -> Text.lstrip s = s /\ Text.rstrip s = s.
Proof.
  unfold Text.strip. intros H.
  assert (Text.lstrip s = s) as Hl.
  { destruct s as [|c t]; [done|]. cbn [Text.lstrip] in *.
    destruct (Text.isspace c); [|done].
    pose proof (length_rstrip (Text.lstrip t)) as H1.
    pose proof (length_lstrip t) as H2.
    rewrite H in H1. cbn [String.length] in H1. lia. }
  split; [done|]. by rewrite Hl in H.
Qed.

Lemma strip_padded (lead s trail : string) :
  blank lead -> blank trail -> Text.strip s = s ->
  Text.strip (lead +:+ s +:+ trail) = s.
Proof.
  intros Hlead Htrail [Hl Hr]%strip_fixed. unfold Text.strip.
  rewrite lstrip_blank by done.
  destruct s as [|c t].
  - rewrite append_nil.
    assert (Text.lstrip trail = EmptyString) as ->; [|done].
    rewrite <- (append_empty trail). rewrite lstrip_blank by done. done.
  - rewrite append_cons. cbn [Text.lstrip] in *.
    destruct (Text.isspace c) eqn:Hc.
    + pose proof (length_lstrip t) as Hlen. rewrite Hl in Hlen.
      cbn [String.length] in Hlen. lia.
    + rewrite <- append_cons. by rewrite rstrip_blank.
Qed.

(** A text between two characters that are not white space. *)
Lemma strip_fenced (c d : ascii) (s : string) :
  Text.isspace c = false -> Text.isspace d = false ->
  Text.strip (String c (s +:+ String d EmptyString)) = String c (s +:+ String d EmptyString).
Proof.
  intros Hc Hd. unfold Text.strip. cbn [Text.lstrip]. rewrite Hc.
  assert (forall a, Text.rstrip (a +:+ String d EmptyString) = a +:+ String d EmptyString) as H.
  { intros a. induction a as [|x a IH]; [rewrite append_nil; cbn [Text.rstrip]; by rewrite Hd|].
    rewrite append_cons. cbn [Text.rstrip]. rewrite IH.
    destruct a; by rewrite ?append_nil, ?append_cons. }
  rewrite <- append_cons. apply H.
Qed.

Lemma blank_head (w s : string) :
  blank w -> w <> EmptyString ->
  exists c t, w +:+ s = String c t /\ Text.isspace c = true.
Proof.
  unfold blank. destruct w as [|c w]; [done|]. cbn [Str.forallb].
  intros [Hc _]%andb_true_iff _. exists c, (w +:+ s). by rewrite append_cons.
Qed.

Ltac rewrite_length H :=
  let E := fresh "E" in
  pose proof H as E; cbn [String.length] in E; rewrite E; clear E.

Lemma cleaned_fenced (tag lead gap1 body gap2 trail : string) :
  tag = "```json" \/ tag = "```" ->
  blank lead -> blank trail ->
  blank gap1 -> gap1 <> EmptyString -> blank gap2 -> gap2 <> EmptyString ->
  Text.strip body = body ->
  cleaned_text (lead +:+ tag +:+ gap1 +:+ body +:+ gap2 +:+ "```" +:+ trail) = body.
Proof.
  intros Htag Hlead Htrail Hgap1 Hne1 Hgap2 Hne2 Hbody. unfold cleaned_text. cbv zeta.
  set (inner := gap1 +:+ body +:+ gap2).
  destruct (blank_head gap1 (body +:+ gap2 +:+ "```") Hgap1 Hne1) as (c & t & Hhead & Hc).
  assert (Text.strip (lead +:+ tag +:+ gap1 +:+ body +:+ gap2 +:+ "```" +:+ trail)
          = tag +:+ inner +:+ "```") as ->.
  { replace (lead +:+ tag +:+ gap1 +:+ body +:+ gap2 +:+ "```" +:+ trail)
      with (lead +:+ (tag +:+ inner +:+ "```") +:+ trail)
      by (unfold inner; by rewrite !append_assoc).
    apply strip_padded; [done..|].
    assert (exists s, tag +:+ inner +:+ "```" = String "`" (s +:+ String "`" EmptyString))
      as [s ->].
    { destruct Htag as [-> | ->].
      - exists ("``json" +:+ inner +:+ "``").
        rewrite !append_cons, !append_nil, !append_assoc. by rewrite !append_cons, !append_nil.
      - exists ("``" +:+ inner +:+ "``").
        rewrite !append_cons, !append_nil, !append_assoc. by rewrite !append_cons, !append_nil. }
    by apply strip_fenced. }
  assert (Str.starts_with "```" (inner +:+ "```") = false) as Hno_fence.
  { unfold inner. rewrite !append_assoc, Hhead. cbn [Str.starts_with].
    destruct (Ascii.eqb_spec "`" c) as [<-|]; [done|done]. }
  assert (Text.strip (Text.drop_last 3 (inner +:+ "```")) = body) as Hend.
  { rewrite_length (drop_last_append inner "```"). unfold inner.
    by apply strip_padded. }
  destruct Htag as [-> | ->].
  - rewrite starts_with_append.
    rewrite_length (drop_append "```json" (inner +:+ "```")).
    rewrite Hno_fence, ends_with_append. exact Hend.
  - assert (Str.starts_with "```json" ("```" +:+ inner +:+ "```") = false) as ->.
    { unfold inner. rewrite !append_assoc, Hhead. rewrite !append_cons, append_nil.
      cbn [Str.starts_with]. rewrite !Ascii.eqb_refl. cbn [andb].
      destruct (Ascii.eqb_spec "j" c) as [<-|]; [done|done]. }
    rewrite starts_with_append.
    rewrite_length (drop_append "```" (inner +:+ "```")).
    rewrite ends_with_append. exact Hend.
Qed.

Lemma cleaned_bare (lead body trail : string) :
  blank lead -> blank trail -> Text.strip body = body ->
  Str.starts_with "```" body = false -> Text.ends_with "```" body = false ->
  cleaned_text (lead +:+ body +:+ trail) = body.
Proof.
  intros Hlead Htrail Hbody Hstart Hend. unfold cleaned_text. cbv zeta.
  rewrite strip_padded by done.
  assert (Str.starts_with "```json" body = false) as ->.
  { destruct body as [|a [|b [|c r]]]; try done.
    cbn [Str.starts_with] in *.
    destruct (Ascii.eqb "`" a), (Ascii.eqb "`" b), (Ascii.eqb "`" c); try done. }
  by rewrite Hstart, Hend.
Qed.

(** A response in a code fence is parsed like the bare text inside it.
    With white space [lead] and [trail] around the response, a fence opened
    by three backquotes, with or without the word json, closed by three
    backquotes, each on a line of its own ([gap1] and [gap2] are white
    space, not empty), and a [body] without white space at its ends: what
    reaches [json.loads] is [body], and so it is for the bare [body]
    between [lead] and [trail] when it neither starts nor ends with three
    backquotes.  All three responses are parsed alike. *)
Theorem fenced_response_parsed_like_bare
    (json_loads : string -> option json) (lead gap1 body gap2 trail : string) :
  blank lead -> blank trail ->
  blank gap1 -> gap1 <> EmptyString -> blank gap2 -> gap2 <> EmptyString ->
  Text.strip body = body ->
  Str.starts_with "```" body = false -> Text.ends_with "```" body = false ->
  let fenced tag := lead +:+ tag +:+ gap1 +:+ body +:+ gap2 +:+ "```" +:+ trail in
  cleaned_text (fenced "```json") = body /\
  cleaned_text (fenced "```") = body /\
  cleaned_text (lead +:+ body +:+ trail) = body /\
  parse_gemini_response json_loads (fenced "```json")
    = parse_gemini_response json_loads body /\
  parse_gemini_response json_loads (fenced "```")
    = parse_gemini_response json_loads body /\
  parse_gemini_response json_loads (lead +:+ body +:+ trail)
    = parse_gemini_response json_loads body.
Proof.
  intros Hlead Htrail Hgap1 Hne1 Hgap2 Hne2 Hbody Hstart Hend fenced.
  assert (cleaned_text (fenced "```json") = body) as H1
    by (apply cleaned_fenced; auto).
  assert (cleaned_text (fenced "```") = body) as H2
    by (apply cleaned_fenced; auto).
  assert (cleaned_text (lead +:+ body +:+ trail) = body) as H3
    by by apply cleaned_bare.
  assert (cleaned_text body = body) as H4.
  { rewrite <- (append_empty body) at 1.
    apply (cleaned_bare EmptyString body EmptyString); done. }
  unfold parse_gemini_response. by rewrite H1, H2, H3, H4.
Qed.

Lemma fenced_response_parsed_like_bare_witness :
  cleaned_text ("```json" +:+ " " +:+ "{}" +:+ " " +:+ "```") = "{}".
Proof.
  apply (proj1 (fenced_response_parsed_like_bare (fun _ => None)
                  EmptyString " " "{}" " " EmptyString
                  eq_refl eq_refl eq_refl ltac:(discriminate) eq_refl ltac:(discriminate)
                  eq_refl eq_refl eq_refl)).
Defined.

(** ** What the summary for the model holds *)

Lemma no_instance_named (df : list RawEvent) (key : string) :
  Str.forallb is_digit key = false ->
  instance_rows (preprocess_vm_data df) (Some key) = [].
Proof.
  intros Hkey. apply elem_of_nil_inv. intros r [Hr Hid]%elem_of_instance_rows.
  destruct (preprocess_instance df r Hr) as (e & _ & He).
  rewrite Hid in He. symmetry in He.
  apply extract_instance_id_match in He as (_ & _ & Hdigits). congruence.
Qed.

Section SummaryOfReport.
Variable get_descriptive_stats get_correlation_analysis : Table -> gmap string json.
Variable sort_values_date : Table -> Table.

Lemma report_entries (df : list RawEvent) (report : gmap string json) :
  analyze_vm_data get_descriptive_stats get_correlation_analysis sort_values_date df
  = Returns report ->
  report !! "descriptive_stats" = None /\
  report !! "utilization_insights"
    = Some (JDict (get_utilization_insights (preprocess_vm_data df))) /\
  report !! "anomalies" = Some (JDict (detect_anomalies (preprocess_vm_data df))).
Proof.
  unfold analyze_vm_data. cbv zeta.
  destruct (get_per_instance_analysis (preprocess_vm_data df)) as [per_instance|e]; [|done].
  cbn [bind]. intros [= <-]. split; [|split]; lookup_dict; done.
Qed.

End SummaryOfReport.

(** Whatever the batch, the summary that [prepare_data_summary] makes of
    a report of [analyze_vm_data] holds the number of input rows and three
    counts that are always 0, and nothing else: the report has no
    [descriptive_stats] entry, its utilization insights hold none of the
    three counts and its anomalies no [total_anomalies], and the raw table
    lacks the columns of the costliest VMs. *)
Theorem summary_holds_only_row_count
    (get_descriptive_stats get_correlation_analysis : Table -> gmap string json)
    (sort_values_date : Table -> Table)
    (descriptive_lines : json -> nat -> option (list string))
    (format_other : json -> string) (joined_types : json -> option string)
    (top_costly_lines : list RawEvent -> list string)
    (df : list RawEvent) (report : gmap string json) :
  analyze_vm_data get_descriptive_stats get_correlation_analysis sort_values_date df
  = Returns report ->
  prepare_data_summary descriptive_lines format_other joined_types top_costly_lines df report
  = Some (Text.join newline
      [ "Total VM Instances: " +:+ Date.decimal (length df);
        newline +:+ "Resource Utilization:";
        "  - Underutilized VMs: 0";
        "  - Overutilized VMs: 0";
        "  - Well-utilized VMs: 0" ]).
Proof.
  intros (Hstats & Hinsights & Hanomalies)%report_entries.
  unfold prepare_data_summary. cbv zeta.
  rewrite Hstats, Hinsights, Hanomalies. cbn [mbind option_bind].
  assert (forall k, k <> "overall" -> k <> "per_instance" ->
            get_utilization_insights (preprocess_vm_data df) !! k = None) as Hkeys.
  { intros k H1 H2. unfold get_utilization_insights. cbv zeta.
    by rewrite !lookup_insert_ne, lookup_empty. }
  rewrite !Hkeys by done.
  assert (detect_anomalies (preprocess_vm_data df) !! "total_anomalies" = None) as ->.
  { rewrite detect_anomalies_lookup. cbv zeta. by rewrite no_instance_named. }
  reflexivity.
Qed.

Lemma summary_holds_only_row_count_witness :
  exists report,
    analyze_vm_data (fun _ => ∅) (fun _ => ∅) stable_by_date (two_days 100 105)
    = Returns report /\
    prepare_data_summary (fun _ _ => None) (fun _ => EmptyString) (fun _ => None)
      (fun _ => []) (two_days 100 105) report
    = Some (Text.join newline
        [ "Total VM Instances: 2";
          newline +:+ "Resource Utilization:";
          "  - Underutilized VMs: 0";
          "  - Overutilized VMs: 0";
          "  - Well-utilized VMs: 0" ]).
Proof.
  destruct (analyze_returns (fun _ => ∅) (fun _ => ∅) stable_by_date (two_days 100 105))
    as [report Hr].
  { repeat constructor; intros H; vm_compute in H; discriminate. }
  exists report. split; [exact Hr|].
  exact (summary_holds_only_row_count _ _ _ _ _ _ _ (two_days 100 105) report Hr).
Defined.

(** ** The counts of the instance summary *)

Lemma unique_length_same {A} `{EqDecision A} (l1 l2 : list A) :
  (forall x, x ∈ l1 <-> x ∈ l2) -> length (unique l1) = length (unique l2).
Proof.
  intros Hsame. apply Permutation_length, NoDup_Permutation; [apply NoDup_unique..|].
  intros x. by rewrite !elem_of_unique.
Qed.

Lemma unique_length_map {A B} `{EqDecision A} `{EqDecision B} (f : A -> B) (l : list A) :
  (forall x y, f x = f y -> x = y) ->
  length (unique (map f l)) = length (unique l).
Proof.
  intros Hinj. rewrite <- (length_map f (unique l)).
  apply Permutation_length, NoDup_Permutation.
  - apply NoDup_unique.
  - apply (NoDup_fmap_2_strong f); [|apply NoDup_unique]. intros x y _ _. apply Hinj.
  - intros y. rewrite elem_of_unique, !list_elem_of_fmap.
    split; intros (x & -> & Hx); exists x; (split; [done|]); by apply elem_of_unique.
Qed.

Lemma preprocess_keys_of_rows (df : list RawEvent) (k : string * option string * option string * option string) :
  k ∈ map record_key (preprocess_vm_data df) <->
  k ∈ map (fun e => printed_key (group_key e)) df.
Proof.
  rewrite !list_elem_of_fmap. split.
  - intros (r & -> & (k' & Hk & _ & Hr)%preprocess_record_group).
    apply elem_of_group_keys in Hk as (e & He & <-).
    exists e. split; [|done]. by apply (aggregate_key _ (group_rows df (group_key e))).
  - intros (e & -> & He).
    destruct (preprocess_row_represented df e He) as (r & Hr & Hkey). by exists r.
Qed.

(** The instance summary of the preprocessed table counts the distinct
    instance ids of the batch, a missing id being one of them, and the
    distinct dates of the batch. *)
Theorem summary_counts_batch (df : list RawEvent) :
  get_instance_summary (preprocess_vm_data df) !! "total_instances"
    = Some (JInt (length (unique (map instance_id df)))) /\
  exists date_range,
    get_instance_summary (preprocess_vm_data df) !! "date_range" = Some (JDict date_range) /\
    date_range !! "total_days" = Some (JInt (length (unique (map date df)))).
Proof.
  pose proof (preprocess_keys_of_rows df) as Hkeys.
  assert (length (instances (preprocess_vm_data df))
          = length (unique (map instance_id df))) as Hinstances.
  { unfold instances. apply unique_length_same. intros i. rewrite !list_elem_of_fmap. split.
    - intros (r & -> & Hr).
      assert (record_key r ∈ map record_key (preprocess_vm_data df)) as Hin
        by (apply list_elem_of_fmap; by exists r).
      apply Hkeys, list_elem_of_fmap in Hin as (e & He & Hin).
      exists e. split; [|done]. unfold record_key, printed_key, group_key in He. by injection He.
    - intros (e & -> & He).
      assert (printed_key (group_key e) ∈ map (fun e => printed_key (group_key e)) df) as Hin
        by (apply list_elem_of_fmap; by exists e).
      apply Hkeys, list_elem_of_fmap in Hin as (r & Hr & Hin).
      exists r. split; [|done]. unfold record_key, printed_key, group_key in Hr. by injection Hr. }
  assert (length (unique (map agg_date (preprocess_vm_data df)))
          = length (unique (map date df))) as Hdates.
  { rewrite <- (unique_length_map Date.str (map date df) date_str_inj).
    apply unique_length_same. intros d. rewrite map_map, !list_elem_of_fmap. split.
    - intros (r & -> & Hr).
      assert (record_key r ∈ map record_key (preprocess_vm_data df)) as Hin
        by (apply list_elem_of_fmap; by exists r).
      apply Hkeys, list_elem_of_fmap in Hin as (e & He & Hin).
      exists e. split; [|done]. unfold record_key, printed_key, group_key in He. by injection He.
    - intros (e & -> & He).
      assert (printed_key (group_key e) ∈ map (fun e => printed_key (group_key e)) df) as Hin
        by (apply list_elem_of_fmap; by exists e).
      apply Hkeys, list_elem_of_fmap in Hin as (r & Hr & Hin).
      exists r. split; [|done]. unfold record_key, printed_key, group_key in Hr. by injection Hr. }
  unfold get_instance_summary. cbv zeta. split.
  - lookup_dict. by rewrite Hinstances.
  - eexists. split; [lookup_dict; reflexivity|]. lookup_dict. by rewrite Hdates.
Qed.

(** ** Memory in gigabytes *)

Lemma Qle_bool_scaled (a b : Q) :
  Qle_bool (a / bytes_per_gb) (b / bytes_per_gb) = Qle_bool a b.
Proof.
  assert (0 < bytes_per_gb) as Hc by reflexivity.
  destruct (Qle_bool a b) eqn:Hab.
  - apply Qle_bool_iff. apply Qle_bool_iff in Hab.
    unfold Qdiv. apply Qmult_le_compat_r; [done|]. apply Qlt_le_weak, Qinv_lt_0_compat, Hc.
  - destruct (Qle_bool (a / _) _) eqn:Hs; [|done].
    apply Qle_bool_iff in Hs.
    assert (a <= b) as Hle; [|apply Qle_bool_iff in Hle; congruence].
    apply Qmult_le_r with (z := / bytes_per_gb); [by apply Qinv_lt_0_compat|exact Hs].
Qed.

Lemma dropna_memory_gb (g : list RawEvent) :
  Series.dropna (map memory_used_gb g) =
  map (fun b => b / bytes_per_gb) (Series.dropna (map memory_used_bytes g)).
Proof.
  unfold Series.dropna, memory_used_gb. induction g as [|e t IH]; [done|].
  simpl in *. destruct (memory_used_bytes e); simpl; [f_equal|]; exact IH.
Qed.

Lemma min_scaled (l : list Q) :
  Series.min (map (fun b => b / bytes_per_gb) l) = (fun b => b / bytes_per_gb) <$> Series.min l.
Proof.
  destruct l as [|x t]; [done|]. cbn [map Series.min fmap option_fmap option_map]. f_equal.
  induction t as [|a t IH]; [done|]. cbn [map foldr]. rewrite IH, Qle_bool_scaled.
  by destruct (Qle_bool a _).
Qed.

Lemma max_scaled (l : list Q) :
  Series.max (map (fun b => b / bytes_per_gb) l) = (fun b => b / bytes_per_gb) <$> Series.max l.
Proof.
  destruct l as [|x t]; [done|]. cbn [map Series.max fmap option_fmap option_map]. f_equal.
  induction t as [|a t IH]; [done|]. cbn [map foldr]. rewrite IH, Qle_bool_scaled.
  by destruct (Qle_bool _ a).
Qed.

Lemma sum_scaled (l : list Q) :
  Series.sum (map (fun b => b / bytes_per_gb) l) == Series.sum l / bytes_per_gb.
Proof.
  unfold Series.sum. induction l as [|x t IH]; cbn [map foldr].
  - reflexivity.
  - rewrite IH. field. discriminate.
Qed.

(** The memory statistics of an output record are those of the bytes of
    its group divided by 2^30: converting each reading to gigabytes before
    aggregating changes nothing else. *)
Theorem memory_in_gigabytes (df : list RawEvent) (r : AggregateRecord) :
  r ∈ preprocess_vm_data df ->
  exists k, k ∈ group_keys df /\ record_key r = printed_key k /\
    let bytes := Series.dropna (map memory_used_bytes (group_rows df k)) in
    in_gigabytes (memory_used_gb_mean r) (Series.mean bytes) /\
    in_gigabytes (memory_used_gb_min r) (Series.min bytes) /\
    in_gigabytes (memory_used_gb_max r) (Series.max bytes).
Proof.
  intros (k & Hk & Hne & Hr)%preprocess_record_group.
  exists k. split; [done|]. split; [by apply (aggregate_key k (group_rows df k))|].
  destruct k as [[[d i] p] z]. unfold aggregate in Hr.
  destruct (most_common _); [|done]. injection Hr as <-.
  cbn [memory_used_gb_mean memory_used_gb_min memory_used_gb_max]. cbv zeta.
  rewrite dropna_memory_gb, min_scaled, max_scaled.
  set (bytes := Series.dropna (map memory_used_bytes (group_rows df (d, i, p, z)))).
  change (2 ^ 30) with bytes_per_gb.
  split; [|split].
  - destruct bytes as [|x t]; [done|].
    unfold in_gigabytes, Series.mean. cbn [map].
    change (Series.sum (x / bytes_per_gb :: map (fun b => b / bytes_per_gb) t))
      with (Series.sum (map (fun b => b / bytes_per_gb) (x :: t))).
    rewrite sum_scaled. unfold Series.count. cbn [length]. rewrite length_map.
    change (2 ^ 30) with bytes_per_gb.
    field. split;
      first [ discriminate
            | intros H; unfold Qeq, inject_Z in H; cbn [Qnum Qden] in H; lia ].
  - destruct (Series.min bytes); [|done]. unfold in_gigabytes. cbn [fmap option_fmap option_map].
    change (2 ^ 30) with bytes_per_gb. reflexivity.
  - destruct (Series.max bytes); [|done]. unfold in_gigabytes. cbn [fmap option_fmap option_map].
    change (2 ^ 30) with bytes_per_gb. reflexivity.
Qed.

Lemma memory_in_gigabytes_witness :
  exists r, r ∈ two_day_table /\ in_gigabytes (memory_used_gb_mean r) (Some 2147483648).
Proof.
  assert (exists r, r ∈ two_day_table) as [r Hr] by (eexists; vm_compute; left).
  exists r. split; [exact Hr|].
  destruct (memory_in_gigabytes (two_days 100 105) r Hr) as (k & Hk & _ & Hmean & _).
  assert (forall k, k ∈ group_keys (two_days 100 105) ->
            Series.mean (Series.dropna (map memory_used_bytes
              (group_rows (two_days 100 105) k))) = Some (2147483648 / 1)) as Hbytes.
  { intros k'. vm_compute group_keys. rewrite !elem_of_cons, elem_of_nil.
    intros [->|[->|[]]]; vm_compute; reflexivity. }
  cbv zeta in Hmean. rewrite (Hbytes k Hk) in Hmean.
  destruct (memory_used_gb_mean r); [|done]. cbn in *. rewrite Hmean. reflexivity.
Defined.

(** ** An anomaly report never flags every value *)

Lemma Qle_bool_total (a b : Q) : Qle_bool a b = true \/ Qle_bool b a = true.
Proof.
  destruct (Qlt_le_dec a b) as [H|H]; [left|right]; apply Qle_bool_iff; lra.
Qed.

Lemma Qle_bool_trans (a b c : Q) :
  Qle_bool a b = true -> Qle_bool b c = true -> Qle_bool a c = true.
Proof. rewrite !Qle_bool_iff. apply Qle_trans. Qed.

Lemma sorted_nth_le (s : list Q) (i j : nat) :
  StronglySorted (fun a b => Qle_bool a b = true) s ->
  (i <= j)%nat -> (j < length s)%nat -> nth i s 0 <= nth j s 0.
Proof.
  intros Hs. revert i j. induction Hs as [|x t Hs IH Hx]; intros i j Hij Hj.
  - simpl in Hj. lia.
  - destruct i as [|i], j as [|j]; cbn [nth]; [lra| |lia|].
    + rewrite Forall_forall in Hx. apply Qle_bool_iff, Hx.
      apply list_elem_of_In, nth_In. simpl in Hj. lia.
    + apply IH; simpl in Hj; lia.
Qed.

Lemma floor_fraction (x : Q) : 0 <= x - inject_Z (Qfloor x) <= 1.
Proof.
  pose proof (Qfloor_le x) as Hlo. pose proof (Qlt_floor x) as Hhi.
  rewrite inject_Z_plus in Hhi. change (inject_Z 1) with 1 in Hhi. lra.
Qed.

(** A quantile lies between the two order statistics it interpolates. *)
Lemma quantile_between (q : Q) (l : list Q) (x : Q) :
  0 <= q <= 1 -> Series.quantile q l = Some x ->
  let s := sort Qle_bool l in
  let lo := Z.to_nat (Qfloor ((Series.count l - 1) * q)) in
  nth lo s 0 <= x <= nth (Nat.min (S lo) (length l - 1)) s 0.
Proof.
  intros Hq. destruct l as [|v t]; [done|]. intros Hx. cbv zeta.
  set (s := sort Qle_bool (v :: t)).
  set (pos := (Series.count (v :: t) - 1) * q).
  pose proof (floor_fraction pos) as Hfrac.
  assert (Z.to_nat (Qfloor pos) < S (length t))%nat as Hlo
    by apply (quantile_index_bound q (length t) Hq).
  assert (nth (Z.to_nat (Qfloor pos)) s 0
          <= nth (Nat.min (S (Z.to_nat (Qfloor pos))) (length (v :: t) - 1)) s 0) as Hab.
  { apply sorted_nth_le.
    - apply sort_sorted; [apply Qle_bool_total | apply Qle_bool_trans].
    - cbn [length]. lia.
    - unfold s. rewrite (Permutation_length (sort_perm Qle_bool (v :: t))). cbn [length]. lia. }
  set (a := nth (Z.to_nat (Qfloor pos)) s 0) in *.
  set (b := nth (Nat.min (S (Z.to_nat (Qfloor pos))) (length (v :: t) - 1)) s 0) in *.
  set (frac := pos - inject_Z (Qfloor pos)) in *.
  assert (Series.quantile q (v :: t) = Some (a + (b - a) * frac)) as Heq by reflexivity.
  assert (x = a + (b - a) * frac) as -> by congruence.
  clearbody a b frac. split; nra.
Qed.

(** With four values or more, the order statistic after the one under the
    first quartile is at or under the third quartile. *)
Lemma quartile_indices (n : nat) :
  (3 <= n)%nat ->
  let lo1 := Z.to_nat (Qfloor ((inject_Z (Z.of_nat (S n)) - 1) * (1 # 4))) in
  let lo3 := Z.to_nat (Qfloor ((inject_Z (Z.of_nat (S n)) - 1) * (3 # 4))) in
  (S lo1 <= lo3)%nat /\ (lo3 <= n)%nat.
Proof.
  intros Hn. cbv zeta.
  assert (inject_Z (Z.of_nat (S n)) - 1 == inject_Z (Z.of_nat n)) as Hm.
  { rewrite Nat2Z.inj_succ, <- Z.add_1_r, inject_Z_plus. ring. }
  assert (3 <= inject_Z (Z.of_nat n)) as Hm3.
  { change 3 with (inject_Z 3). rewrite <- Zle_Qle. lia. }
  set (pos1 := (inject_Z (Z.of_nat (S n)) - 1) * (1 # 4)).
  set (pos3 := (inject_Z (Z.of_nat (S n)) - 1) * (3 # 4)).
  assert (0 <= Qfloor pos1)%Z as H0.
  { change 0%Z with (Qfloor 0). apply Qfloor_resp_le. unfold pos1. rewrite Hm. lra. }
  assert (Qfloor pos1 + 1 <= Qfloor pos3)%Z as H13.
  { rewrite <- (Qfloor_Z (Qfloor pos1 + 1)). apply Qfloor_resp_le.
    rewrite inject_Z_plus. change (inject_Z 1) with 1.
    pose proof (Qfloor_le pos1) as Hle. unfold pos1, pos3 in *. rewrite Hm in *. lra. }
  assert (Qfloor pos3 <= Z.of_nat n)%Z as H3.
  { rewrite <- (Qfloor_Z (Z.of_nat n)). apply Qfloor_resp_le.
    unfold pos3. rewrite Hm. lra. }
  lia.
Qed.

Lemma filter_length_lt {A} (p q : A -> bool) (l : list A) (x : A) :
  (forall y, p y = true -> q y = true) ->
  x ∈ l -> q x = true -> p x = false ->
  (length (List.filter p l) < length (List.filter q l))%nat.
Proof.
  intros Hpq Hx Hqx Hpx.
  assert (forall t, length (List.filter p t) <= length (List.filter q t))%nat as Hle.
  { intros t. induction t as [|y t IH]; [done|]. cbn [List.filter].
    destruct (p y) eqn:Hp; [rewrite (Hpq y Hp)|destruct (q y)]; cbn [length]; lia. }
  induction l as [|y t IH]; [by apply elem_of_nil in Hx|].
  apply elem_of_cons in Hx as [<-|Hx]; cbn [List.filter].
  - rewrite Hpx, Hqx. cbn [length]. specialize (Hle t). lia.
  - specialize (IH Hx).
    destruct (p y) eqn:Hp; [rewrite (Hpq y Hp)|destruct (q y)]; cbn [length]; lia.
Qed.

Lemma dropna_length_filter {A} (f : A -> option Q) (l : list A) :
  length (Series.dropna (map f l))
  = length (List.filter (fun x => match f x with Some _ => true | None => false end) l).
Proof.
  unfold Series.dropna. induction l as [|x t IH]; [done|]. simpl in *.
  destruct (f x); simpl; [f_equal|]; exact IH.
Qed.

(** An anomaly report of [detect_anomalies] leaves at least one value of
    the metric within its bounds: the bounds are in order, and the count of
    flagged rows is positive and smaller than the number of values. *)
Theorem anomalies_spare_a_value (df : Table) (i : string)
    (metric : AggregateRecord -> option Q) (label : string) (report : gmap string json) :
  (metric, label) ∈ metrics_to_check ->
  reported_anomaly df i label = Some (JDict report) ->
  let rows := instance_rows df (Some i) in
  exists count lower_bound upper_bound,
    report !! "count" = Some (JInt count) /\
    report !! "lower_bound" = Some (JNum (Fin lower_bound)) /\
    report !! "upper_bound" = Some (JNum (Fin upper_bound)) /\
    lower_bound <= upper_bound /\
    (0 < count < length (Series.dropna (map metric rows)))%nat /\
    exists r v, r ∈ rows /\ metric r = Some v /\ lower_bound <= v <= upper_bound.
Proof.
  intros Hin Hrep rows.
  rewrite (reported_anomaly_metric df i metric label Hin) in Hrep. fold rows in Hrep.
  unfold metric_anomalies in Hrep. cbv zeta in Hrep.
  set (obs := Series.dropna (map metric rows)) in *.
  destruct (3 <? length obs)%nat eqn:Hlen; [|done]. apply Nat.ltb_lt in Hlen.
  destruct (Series.quantile (1 # 4) obs) as [Q1|] eqn:HQ1; [|done].
  destruct (Series.quantile (3 # 4) obs) as [Q3|] eqn:HQ3; [|done].
  set (lower_bound := Q1 - (15 # 10) * (Q3 - Q1)) in *.
  set (upper_bound := Q3 + (15 # 10) * (Q3 - Q1)) in *.
  destruct (0 <? length (outside metric lower_bound upper_bound rows))%nat eqn:Hcount;
    [|done].
  apply Nat.ltb_lt in Hcount. injection Hrep as <-.
  (* a value between the quartiles *)
  destruct (quantile_between (1 # 4) obs Q1) as [_ HQ1hi]; [split; discriminate|done|].
  destruct (quantile_between (3 # 4) obs Q3) as [HQ3lo _]; [split; discriminate|done|].
  cbv zeta in HQ1hi, HQ3lo.
  destruct (length obs) as [|n] eqn:Hn; [lia|].
  destruct (quartile_indices n) as [H13 H3]; [lia|]. cbv zeta in H13, H3.
  unfold Series.count in HQ1hi, HQ3lo. rewrite Hn in HQ1hi, HQ3lo.
  set (lo1 := Z.to_nat (Qfloor ((inject_Z (Z.of_nat (S n)) - 1) * (1 # 4)))) in *.
  set (lo3 := Z.to_nat (Qfloor ((inject_Z (Z.of_nat (S n)) - 1) * (3 # 4)))) in *.
  replace (Nat.min (S lo1) (S n - 1)) with (S lo1) in HQ1hi by lia.
  assert (length (sort Qle_bool obs) = S n) as Hsn
    by (by rewrite (Permutation_length (sort_perm Qle_bool obs))).
  assert (nth (S lo1) (sort Qle_bool obs) 0 <= nth lo3 (sort Qle_bool obs) 0) as Hmid.
  { apply sorted_nth_le; [|lia|lia].
    apply sort_sorted; [apply Qle_bool_total | apply Qle_bool_trans]. }
  set (v := nth (S lo1) (sort Qle_bool obs) 0) in *.
  assert (v ∈ obs) as Hv.
  { apply (elem_of_Permutation_proper _ _ _ (sort_perm Qle_bool obs)).
    apply list_elem_of_In, nth_In. lia. }
  apply elem_of_dropna in Hv as (r & Hr & Hrv).
  assert (lower_bound <= v <= upper_bound) as Hinside by (unfold lower_bound, upper_bound; lra).
  eexists _, lower_bound, upper_bound.
  split; [lookup_dict; reflexivity|]. split; [lookup_dict; reflexivity|].
  split; [lookup_dict; reflexivity|]. split; [lra|]. split.
  - split; [done|]. rewrite <- Hn. unfold obs. rewrite dropna_length_filter.
    apply (filter_length_lt _ _ rows r).
    + intros y. by destruct (metric y).
    + done.
    + by rewrite Hrv.
    + rewrite Hrv. apply orb_false_iff. split; apply Qltb_false; lra.
  - by exists r, v.
Qed.

Lemma anomalies_spare_a_value_witness :
  exists report count,
    reported_anomaly outlier_table "1001" "Cost" = Some (JDict report) /\
    report !! "count" = Some (JInt count) /\
    (0 < count < length (Series.dropna
       (map (fun r => Some (cost_usd_sum r)) (instance_rows outlier_table (Some "1001")))))%nat.
Proof.
  assert (exists report, reported_anomaly outlier_table "1001" "Cost" = Some (JDict report))
    as [report Hrep] by (vm_compute; by eexists).
  generalize dependent outlier_table. intros df Hrep.
  destruct (anomalies_spare_a_value df "1001" (fun r => Some (cost_usd_sum r)) "Cost" report)
    as (count & lo & hi & Hcount & _ & _ & _ & Hbound & _).
  - unfold metrics_to_check. left.
  - exact Hrep.
  - exists report, count. split; [exact Hrep|]. split; [exact Hcount|exact Hbound].
Defined.
